(** * MLS versus CAMA comparison: a shallow embedding of mls_cama_comparison.py

    The script joins two pandas frames on a parcel identifier and reports,
    per merged row, the records present on one side only, the field-level
    mismatches and the perfect matches.

    Modelling conventions.
    - A cell is a [scalar]: a number, a text or the pandas missing value
      (None and the float NaN behave alike in every function of the script:
      [pd.isna] is true, [pd.to_numeric] gives NaN).
    - Numbers are exact rationals ([Q]) and their arithmetic is exact; an int
      and a float of the same value are one number.  The rounding of IEEE
      doubles, the signed zero and the infinities are not modelled: where an
      outcome of the script can turn on rounding (the bound of np.isclose, a
      sum of fractions, a tie in the second decimal), the properties below
      keep a margin from it or do not state the value.  The result of
      [pd.to_numeric] is a [numeric]: a rational or NaN.
    - An error that nothing catches ends the run; it is a result of its own
      in the model (the ValueError of pd.merge, the KeyError and the
      TypeError of find_duplicate_ids).
    - How pandas reads a text as a number and how Python prints a number
      ([str]) belong to the libraries, not to the script: they are the two
      fields of the class [Pandas], and every property below holds for all
      instances.  [decimal_pandas] is one instance, used to run the code.
    - Texts are ASCII strings; [strip] and [lower] act on ASCII.  Cells of
      other types (dates, booleans) are not modelled.
    - The settings NUMERIC_TOLERANCE and SKIP_ZERO_VALUES are module globals
      read by the functions; here they are the section variables [tolerance]
      and [skip_zero], and the shipped values are the two constants.
    - Printing and [debug_mode] have no effect on the returned tables and are
      left out, with the hyperlink columns (Zillow_URL, Match_Rule); the one
      print that can raise, in find_duplicate_ids, is kept as that error. *)

From Stdlib Require Import QArith Qabs Qminmax ZArith List String Ascii Bool Lia Lqa.
From Stdlib Require Import DecimalString.
From Stdlib Require Import Permutation.
Import ListNotations.
Local Open Scope string_scope.
Local Open Scope Q_scope.

(** ** Cells and coercions *)

Inductive scalar : Type :=
| Num (q : Q)
| Str (s : string)
| Null.

Inductive numeric : Type :=
| Real (q : Q)
| NaN.

(** The two library behaviours the script relies on:
    [str_to_numeric s] is [pd.to_numeric(s, errors='raise')] on a text, with
    [None] for the ValueError; [str_of_number q] is [str(q)]. *)
Class Pandas : Type := {
  str_to_numeric : string -> option numeric;
  str_of_number : Q -> string
}.

Definition NUMERIC_TOLERANCE : Q := 1 # 100.
Definition SKIP_ZERO_VALUES : bool := true.

(** rtol=1e-9 in both calls of np.isclose *)
Definition RTOL : Q := 1 # 1000000000.

(** *** Text helpers *)

Definition is_space (c : ascii) : bool :=
  let n := nat_of_ascii c in
  ((9 <=? n) && (n <=? 13) || (28 <=? n) && (n <=? 32))%nat.

Fixpoint lstrip (s : string) : string :=
  match s with
  | EmptyString => EmptyString
  | String c s' => if is_space c then lstrip s' else s
  end.

Fixpoint rstrip (s : string) : string :=
  match s with
  | EmptyString => EmptyString
  | String c s' =>
      match rstrip s' with
      | EmptyString => if is_space c then EmptyString else String c EmptyString
      | r => String c r
      end
  end.

Definition strip (s : string) : string := rstrip (lstrip s).

Definition lower_ascii (c : ascii) : ascii :=
  let n := nat_of_ascii c in
  if ((65 <=? n) && (n <=? 90))%nat then ascii_of_nat (n + 32) else c.

Fixpoint lower (s : string) : string :=
  match s with
  | EmptyString => EmptyString
  | String c s' => String (lower_ascii c) (lower s')
  end.

(** [contains needle hay] is Python's [needle in hay]. *)
Fixpoint contains (needle hay : string) : bool :=
  String.prefix needle hay ||
  match hay with
  | EmptyString => false
  | String _ hay' => contains needle hay'
  end.

Fixpoint join (sep : string) (l : list string) : string :=
  match l with
  | [] => EmptyString
  | [x] => x
  | x :: l' => x ++ sep ++ join sep l'
  end.

(** *** Number formatting: the format spec [,.2f] *)

Definition round_half_even (q : Q) : Z :=
  let n := Qnum q in
  let d := Zpos (Qden q) in
  let fl := (n / d)%Z in
  match (2 * (n mod d) ?= d)%Z with
  | Lt => fl
  | Gt => (fl + 1)%Z
  | Eq => if Z.even fl then fl else (fl + 1)%Z
  end.

Definition digits (z : Z) : string :=
  NilZero.string_of_uint (N.to_uint (Z.to_N z)).

(** Commas between groups of three digits, counted from the right;
    [k] is the number of characters still to come. *)
Fixpoint group3 (s : string) (k : nat) : string :=
  match s with
  | EmptyString => EmptyString
  | String c s' =>
      let k' := pred k in
      String c
        (if (negb (k' =? 0) && (k' mod 3 =? 0))%nat
         then String "," (group3 s' k') else group3 s' k')
  end.

Definition two_digits (z : Z) : string :=
  (if (z <? 10)%Z then "0" else "") ++ digits z.

(** The digits are those of the exact value; Python formats the double,
    which on a tie in the third decimal can round the other way. *)
Definition format_2f (q : Q) : string :=
  let cents := round_half_even (Qabs q * 100) in
  let whole := digits (cents / 100) in
  (if Qle_bool 0 q then "" else "-")
    ++ group3 whole (String.length whole) ++ "." ++ two_digits (cents mod 100).

(** *** pandas primitives *)

Definition isna (v : scalar) : bool :=
  match v with Null => true | _ => false end.

Definition notna (v : scalar) : bool := negb (isna v).

Definition numeric_isna (n : numeric) : bool :=
  match n with NaN => true | Real _ => false end.

(** [x == 0] on a coerced value; NaN == 0 is False. *)
Definition numeric_is_zero (n : numeric) : bool :=
  match n with Real q => Qeq_bool q 0 | NaN => false end.

Definition numeric_add (a b : numeric) : numeric :=
  match a, b with
  | Real x, Real y => Real (x + y)
  | _, _ => NaN
  end.

(** A coerced value put back in a cell (the sum reported as CAMA_Value). *)
Definition of_numeric (n : numeric) : scalar :=
  match n with Real q => Num q | NaN => Null end.

(** np.isclose(a, b, equal_nan=False, rtol, atol) on finite numbers:
    (|a - b| <= atol + rtol * |b|) | (a == b). *)
Definition isclose (rtol atol a b : Q) : bool :=
  Qle_bool (Qabs (a - b)) (atol + rtol * Qabs b) || Qeq_bool a b.

(** The numbers of the script are doubles: each operation of np.isclose
    rounds its exact result by a relative error below 2^-53, and by less than
    1e-300 in absolute terms next to zero.  [clearly_within d bound] and
    [clearly_beyond d bound] place a distance on one side of a bound by more
    than that rounding can move either of them. *)
Definition ROUNDING : Q := 1 # 1000000000000.
Definition TINY : Q := 1 # (10 ^ 300).

Definition clearly_within (d bound : Q) : Prop :=
  d * (1 + ROUNDING) + TINY <= bound.

Definition clearly_beyond (d bound : Q) : Prop :=
  bound * (1 + ROUNDING) + TINY < d.

(** isinstance(v, str) and v.strip() == '' *)
Definition is_empty_text (v : scalar) : bool :=
  match v with
  | Str s => String.eqb (strip s) ""
  | _ => false
  end.

(** pd.isna(v) or (isinstance(v, str) and v.strip() == '') *)
Definition is_blank (v : scalar) : bool := isna v || is_empty_text v.

Section Coercions.
Context `{Pandas}.

(** pd.to_numeric(v, errors='raise'); [None] stands for the exception. *)
Definition to_numeric_raise (v : scalar) : option numeric :=
  match v with
  | Num q => Some (Real q)
  | Null => Some NaN
  | Str s => str_to_numeric s
  end.

(** pd.to_numeric(v, errors='coerce') *)
Definition to_numeric_coerce (v : scalar) : numeric :=
  match to_numeric_raise v with
  | Some n => n
  | None => NaN
  end.

(** str(v) for a value that is not missing *)
Definition str (v : scalar) : string :=
  match v with
  | Num q => str_of_number q
  | Str s => s
  | Null => "nan"
  end.

(** str(v).strip().lower() if pd.notna(v) else '' *)
Definition norm_text (v : scalar) : string :=
  if notna v then lower (strip (str v)) else "".
End Coercions.

(** pd.to_numeric reads the empty text as NaN and no other text: a text
    that is read as NaN is blank. *)
Definition nan_means_blank (P : Pandas) : Prop :=
  forall s : string, str_to_numeric s = Some NaN -> is_blank (Str s) = true.

(** ** Configuration: the three kinds of column mapping *)

(** An entry of COLUMNS_TO_COMPARE *)
Record DirectRule : Type := {
  mls_col : string;
  cama_col : string
}.

(** An entry of COLUMNS_TO_COMPARE_SUM *)
Record SumRule : Type := {
  sum_mls_col : string;
  cama_cols : list string
}.

(** An entry of COLUMNS_TO_COMPARE_CATEGORICAL; a key absent from the dict
    reads as its [.get] default ('' , None, None, False). *)
Record CategoricalRule : Type := {
  cat_mls_col : string;
  cat_cama_col : string;
  mls_check_contains : string;
  cama_expected_if_true : scalar;
  cama_expected_if_false : scalar;
  case_sensitive : bool
}.

(** UNIQUE_ID_COLUMN; [None] when the dict lacks the key *)
Record UniqueId : Type := {
  id_mls_col : option string;
  id_cama_col : option string
}.

(** ** Frames and rows *)

Local Open Scope list_scope.

(** A row as [iterrows] yields it: labels with their values. *)
Definition Series : Type := list (string * scalar).

Record DataFrame : Type := {
  columns : list string;
  data : list (list scalar)
}.

Definition iterrows (df : DataFrame) : list Series :=
  map (combine (columns df)) (data df).

Definition in_columns (c : string) (cols : list string) : bool :=
  existsb (String.eqb c) cols.

(** row.get(col, default) *)
Fixpoint row_get (row : Series) (col : string) (default : scalar) : scalar :=
  match row with
  | [] => default
  | (c, v) :: row' => if String.eqb c col then v else row_get row' col default
  end.

(** df[id_column] *)
Definition key_column (df : DataFrame) (id_column : string) : list scalar :=
  map (fun r => row_get r id_column Null) (iterrows df).

(** Equality of join keys: pandas pairs missing keys with each other. *)
Definition key_eqb (a b : scalar) : bool :=
  match a, b with
  | Num x, Num y => Qeq_bool x y
  | Str s, Str t => String.eqb s t
  | Null, Null => true
  | _, _ => false
  end.

(** ** Record merger: pd.merge(left, right, on=key, how=..., indicator=True) *)

Inductive MergeStatus : Type := left_only | right_only | both.

Definition rename_columns (old new : string) (cols : list string) : list string :=
  map (fun c => if String.eqb c old then new else c) cols.

(** pandas appends the suffixes _x and _y to the labels, other than the key,
    that the two frames share. *)
Definition with_suffix (key : string) (other : list string) (sfx : string)
    (c : string) : string :=
  if negb (String.eqb c key) && in_columns c other then (c ++ sfx)%string else c.

Definition not_key (key : string) (p : string * scalar) : bool :=
  negb (String.eqb (fst p) key).

(** The order of join keys in the result of an outer merge: numbers by
    value, then texts, then the missing key. *)
Definition key_leb (a b : scalar) : bool :=
  match a, b with
  | Num x, Num y => Qle_bool x y
  | Num _, _ => true
  | Str _, Num _ => false
  | Str s, Str t => String.leb s t
  | Str _, Null => true
  | Null, Null => true
  | Null, _ => false
  end.

Definition relabel (f : string -> string) (row : Series) : Series :=
  map (fun p => (f (fst p), snd p)) row.

(** A row of the merged frame; the indicator column _merge is kept apart
    from the data columns. *)
Record MergedRow : Type := {
  _merge : MergeStatus;
  fields : Series
}.

Definition is_text (v : scalar) : bool :=
  match v with Str _ => true | _ => false end.

Definition is_number (v : scalar) : bool :=
  match v with Num _ => true | _ => false end.

(** A cell that holds an integer: a whole number. *)
Definition is_whole_number (v : scalar) : bool :=
  match v with
  | Num q => (Qnum q mod Zpos (Qden q) =? 0)%Z
  | _ => false
  end.

(** A key column is numeric when it holds no text.  A column with a text is
    inferred as text-like unless it also holds a whole number. *)
Definition numeric_keys (keys : list scalar) : bool :=
  negb (existsb is_text keys).

Definition text_like_keys (keys : list scalar) : bool :=
  existsb is_text keys && negb (existsb is_whole_number keys).

(** Before it joins, pd.merge compares the kinds of the two key columns and
    raises a ValueError (You are trying to merge on object and int64
    columns) when one is numeric and the other text-like; the check is left
    out when either frame has no rows. *)
Definition merge_raises (left_keys right_keys : list scalar) : bool :=
  match left_keys, right_keys with
  | _ :: _, _ :: _ =>
      (text_like_keys left_keys && numeric_keys right_keys)
      || (numeric_keys left_keys && text_like_keys right_keys)
  | _, _ => false
  end.

Section Merge.
Variable key : string.
Variables lcols rcols : list string.

Definition left_label := with_suffix key rcols "_x".
Definition right_label := with_suffix key lcols "_y".

Definition merged_columns : list string :=
  map left_label lcols
    ++ map right_label (filter (fun c => negb (String.eqb c key)) rcols).

Definition left_part (l : Series) : Series := relabel left_label l.
Definition right_part (r : Series) : Series :=
  relabel right_label (filter (not_key key) r).

Definition row_key (row : Series) : scalar := row_get row key Null.

Definition matches_of (l : Series) (right : list Series) : list Series :=
  filter (fun r => key_eqb (row_key l) (row_key r)) right.

Definition has_match (left : list Series) (r : Series) : bool :=
  existsb (fun l => key_eqb (row_key l) (row_key r)) left.

Definition row_both (l r : Series) : MergedRow :=
  {| _merge := both; fields := left_part l ++ right_part r |}.

Definition row_left_only (l : Series) : MergedRow :=
  {| _merge := left_only;
     fields := left_part l
               ++ map (fun c => (right_label c, Null))
                    (filter (fun c => negb (String.eqb c key)) rcols) |}.

Definition row_right_only (r : Series) : MergedRow :=
  {| _merge := right_only;
     fields := map (fun c => (left_label c,
                              if String.eqb c key then row_key r else Null)) lcols
               ++ right_part r |}.

(** how='inner' *)
Definition merge_inner (left right : list Series) : list Series :=
  flat_map (fun l => map (fun r => fields (row_both l r)) (matches_of l right)) left.

(** The rows of the full join: every left row with its partners, or alone,
    then the right rows without a partner. *)
Definition outer_rows (left right : list Series) : list MergedRow :=
  flat_map (fun l => match matches_of l right with
                     | [] => [row_left_only l]
                     | ms => map (row_both l) ms
                     end) left
    ++ map row_right_only (filter (fun r => negb (has_match left r)) right).

(** pandas orders the result of an outer merge by join key; rows of the same
    key stay as the join lists them. *)
Definition join_key (mrow : MergedRow) : scalar := row_get (fields mrow) key Null.

Fixpoint insert_row (mrow : MergedRow) (rows : list MergedRow) : list MergedRow :=
  match rows with
  | [] => [mrow]
  | x :: rows' =>
      if key_leb (join_key mrow) (join_key x) then mrow :: rows
      else x :: insert_row mrow rows'
  end.

Definition sort_rows (rows : list MergedRow) : list MergedRow :=
  fold_right insert_row [] rows.

(** how='outer', indicator=True *)
Definition merge_outer (left right : list Series) : list MergedRow :=
  sort_rows (outer_rows left right).
End Merge.

(** ** Output tables *)

(** The identifying columns copied on every mismatch and perfect match. *)
Record RowInfo : Type := {
  NOPAR : scalar;
  ADDITIONAL_PARCELS : scalar;
  Listing_Number : scalar;
  SALEKEY : scalar;
  Address : scalar;
  City : scalar;
  State : scalar;
  Zip : scalar
}.

Record Mismatch : Type := {
  mm_Parcel_ID : scalar;
  mm_info : RowInfo;
  Field_MLS : string;
  Field_CAMA : string;
  MLS_Value : scalar;
  CAMA_Value : scalar;
  Difference : option string;           (* direct and sum rules *)
  Expected_CAMA_Value : option scalar   (* categorical rules *)
}.

Record PerfectMatch : Type := {
  pm_Parcel_ID : scalar;
  pm_info : RowInfo;
  Fields_Compared : nat;
  Fields_List : string
}.

Record MissingInCama : Type := {
  mc_Parcel_ID : scalar;
  mc_Listing_Number : scalar;
  mc_Closed_Date : scalar
}.

Record Tables : Type := {
  df_missing_cama : list MissingInCama;
  df_missing_mls : list scalar;          (* one column: Parcel_ID *)
  df_value_mismatches : list Mismatch;
  matched_df : list Series;
  df_perfect_matches : list PerfectMatch
}.

Definition empty_tables : Tables :=
  {| df_missing_cama := []; df_missing_mls := []; df_value_mismatches := [];
     matched_df := []; df_perfect_matches := [] |}.

(** The early returns of compare_data_enhanced, by their message, and the
    one way the function ends without returning: the ValueError of pd.merge,
    which nothing catches. *)
Inductive ConfigError : Type :=
| DataframeMissing
| ColumnMappingEmpty
| UniqueIdIncomplete
| MlsIdNotFound (c : string)
| CamaIdNotFound (c : string)
| MergeRaised.

(** What the caller receives: five empty frames after an early return.
    After the uncaught error there is nothing to receive, which is read
    here as no rows. *)
Definition returned_tables (r : ConfigError + Tables) : Tables :=
  match r with
  | inl _ => empty_tables
  | inr t => t
  end.

(** The lists a matched row accumulates while its rules run. *)
Record RecordState : Type := {
  record_mismatches : list Mismatch;
  fields_compared : list string
}.

Definition no_fields : RecordState :=
  {| record_mismatches := []; fields_compared := [] |}.

Definition track (st : RecordState) (field : string) : RecordState :=
  {| record_mismatches := record_mismatches st;
     fields_compared := fields_compared st ++ [field] |}.

Definition emit (st : RecordState) (m : Mismatch) : RecordState :=
  {| record_mismatches := record_mismatches st ++ [m];
     fields_compared := fields_compared st |}.

(** ** The comparison functions *)

Section Engine.
Context `{Pandas}.
Variable tolerance : Q.      (* NUMERIC_TOLERANCE *)
Variable skip_zero : bool.   (* SKIP_ZERO_VALUES *)

(** np.isclose(num1, num2, equal_nan=False, rtol=1e-9, atol=NUMERIC_TOLERANCE) *)
Definition np_isclose (num1 num2 : numeric) : bool :=
  match num1, num2 with
  | Real a, Real b => isclose RTOL tolerance a b
  | _, _ => false
  end.

Definition values_equal (val1 val2 : scalar) : bool :=
  match to_numeric_raise val1, to_numeric_raise val2 with
  | Some num1, Some num2 =>
      if numeric_isna num1 && numeric_isna num2 then true
      else if negb (Bool.eqb (numeric_isna num1) (numeric_isna num2)) then false
      else np_isclose num1 num2
  | _, _ =>
      (* except (ValueError, TypeError) *)
      String.eqb (norm_text val1) (norm_text val2)
  end.

Definition calculate_difference (val1 val2 : scalar) : string :=
  match to_numeric_raise val1, to_numeric_raise val2 with
  | Some (Real num1), Some (Real num2) => format_2f (num1 - num2)
  | Some _, Some _ => "N/A"
  | _, _ => "Text difference"
  end.

(** The text search shared by categorical_match and by the report of the
    expected value. *)
Definition text_found (mls_val : scalar) (mapping : CategoricalRule) : bool :=
  let check_text := mls_check_contains mapping in
  let mls_str := if notna mls_val then strip (str mls_val) else ""%string in
  if negb (case_sensitive mapping)
  then contains (lower check_text) (lower mls_str)
  else contains check_text mls_str.

Definition expected_cama (mls_val : scalar) (mapping : CategoricalRule) : scalar :=
  if text_found mls_val mapping
  then cama_expected_if_true mapping
  else cama_expected_if_false mapping.

(** Both coercions use errors='coerce', which does not raise on a cell:
    the bare [except] of the source is never entered. *)
Definition categorical_match (mls_val cama_val : scalar)
    (mapping : CategoricalRule) : bool :=
  let cama_numeric := to_numeric_coerce cama_val in
  let expected_numeric := to_numeric_coerce (expected_cama mls_val mapping) in
  if numeric_isna cama_numeric && numeric_isna expected_numeric then true
  else if numeric_isna cama_numeric || numeric_isna expected_numeric then false
  else np_isclose cama_numeric expected_numeric.

(** pd.notna(n) and n == 0 *)
Definition is_zero (n : numeric) : bool :=
  negb (numeric_isna n) && numeric_is_zero n.

Section Record.
Variable merged_cols : list string.   (* merged_df.columns *)
Variable row : Series.
Variable record_id : scalar.
Variable info : RowInfo.

(** One pass of the loop over cols_to_compare_mapping *)
Definition direct_step (st : RecordState) (mapping : DirectRule) : RecordState :=
  if negb (in_columns (mls_col mapping) merged_cols)
     || negb (in_columns (cama_col mapping) merged_cols)
  then st
  else
    let mls_val := row_get row (mls_col mapping) Null in
    let cama_val := row_get row (cama_col mapping) Null in
    if is_blank mls_val || is_blank cama_val then st
    else
      let st := track st (mls_col mapping) in
      if skip_zero
         && (is_zero (to_numeric_coerce mls_val)
             || is_zero (to_numeric_coerce cama_val))
      then st
      else if negb (values_equal mls_val cama_val)
      then emit st
             {| mm_Parcel_ID := record_id; mm_info := info;
                Field_MLS := mls_col mapping;
                Field_CAMA := cama_col mapping;
                MLS_Value := mls_val; CAMA_Value := cama_val;
                Difference := Some (calculate_difference mls_val cama_val);
                Expected_CAMA_Value := None |}
      else st.

(** The inner loop of a sum rule: (cama_sum, all_cama_blank) *)
Definition sum_cama (cols : list string) : numeric * bool :=
  fold_left
    (fun acc col =>
       let val := row_get row col Null in
       if notna val
       then (numeric_add (fst acc) (to_numeric_coerce val), false)
       else acc)
    cols (Real 0, true).

(** One pass of the loop over cols_to_compare_sum *)
Definition sum_step (st : RecordState) (mapping : SumRule) : RecordState :=
  if negb (in_columns (sum_mls_col mapping) merged_cols) then st
  else if existsb (fun col => negb (in_columns col merged_cols)) (cama_cols mapping)
  then st
  else
    let mls_val := row_get row (sum_mls_col mapping) Null in
    if is_blank mls_val then st
    else
      let (cama_sum, all_cama_blank) := sum_cama (cama_cols mapping) in
      if all_cama_blank then st
      else
        let st := track st (sum_mls_col mapping) in
        if skip_zero
           && (is_zero (to_numeric_coerce mls_val) || numeric_is_zero cama_sum)
        then st
        else if negb (values_equal mls_val (of_numeric cama_sum))
        then emit st
               {| mm_Parcel_ID := record_id; mm_info := info;
                  Field_MLS := sum_mls_col mapping;
                  Field_CAMA := ("SUM(" ++ join ", " (cama_cols mapping) ++ ")")%string;
                  MLS_Value := mls_val; CAMA_Value := of_numeric cama_sum;
                  Difference :=
                    Some (calculate_difference mls_val (of_numeric cama_sum));
                  Expected_CAMA_Value := None |}
        else st.

(** One pass of the loop over cols_to_compare_categorical *)
Definition categorical_step (st : RecordState) (mapping : CategoricalRule)
    : RecordState :=
  if negb (in_columns (cat_mls_col mapping) merged_cols) then st
  else if negb (in_columns (cat_cama_col mapping) merged_cols) then st
  else
    let mls_val := row_get row (cat_mls_col mapping) Null in
    let cama_val := row_get row (cat_cama_col mapping) Null in
    if is_blank mls_val then st
    else if is_blank cama_val then st
    else
      let st := track st (cat_mls_col mapping) in
      if negb (categorical_match mls_val cama_val mapping)
      then emit st
             {| mm_Parcel_ID := record_id; mm_info := info;
                Field_MLS := cat_mls_col mapping;
                Field_CAMA := cat_cama_col mapping;
                MLS_Value := mls_val; CAMA_Value := cama_val;
                Difference := None;
                Expected_CAMA_Value := Some (expected_cama mls_val mapping) |}
      else st.

(** The three loops run on a matched row, from empty lists. *)
Definition compare_record (direct : list DirectRule) (sums : list SumRule)
    (cats : list CategoricalRule) : RecordState :=
  fold_left categorical_step cats
    (fold_left sum_step sums
       (fold_left direct_step direct no_fields)).
End Record.

Definition row_info (row : Series) : RowInfo :=
  {| NOPAR := row_get row "NOPAR" (Str "");
     ADDITIONAL_PARCELS := row_get row "ADDITIONAL_PARCELS" (Str "");
     Listing_Number := row_get row "Listing #" (Str "");
     SALEKEY := row_get row "SALEKEY" (Str "");
     Address := row_get row "Address" (Str "");
     City := row_get row "City" (Str "");
     State := row_get row "State or Province" (Str "");
     Zip := row_get row "Postal Code" (Str "") |}.

(** The four lists filled by the loop over merged_df *)
Record Lists : Type := {
  missing_in_cama : list MissingInCama;
  missing_in_mls : list scalar;
  value_mismatches : list Mismatch;
  perfect_matches : list PerfectMatch
}.

Definition no_lists : Lists :=
  {| missing_in_cama := []; missing_in_mls := [];
     value_mismatches := []; perfect_matches := [] |}.

Definition is_nil {A : Type} (l : list A) : bool :=
  match l with [] => true | _ => false end.

Section Visit.
Variable cama_id_col_name : string.
Variable merged_cols : list string.
Variable direct : list DirectRule.
Variable sums : list SumRule.
Variable cats : list CategoricalRule.

(** The body of [for index, row in merged_df.iterrows()] *)
Definition visit_row (acc : Lists) (mrow : MergedRow) : Lists :=
  let row := fields mrow in
  let record_id := row_get row cama_id_col_name Null in
  match _merge mrow with
  | left_only =>
      {| missing_in_cama :=
           missing_in_cama acc
             ++ [{| mc_Parcel_ID := record_id;
                    mc_Listing_Number := row_get row "Listing #" (Str "");
                    mc_Closed_Date := row_get row "Closed Date" (Str "") |}];
         missing_in_mls := missing_in_mls acc;
         value_mismatches := value_mismatches acc;
         perfect_matches := perfect_matches acc |}
  | right_only =>
      {| missing_in_cama := missing_in_cama acc;
         missing_in_mls := missing_in_mls acc ++ [record_id];
         value_mismatches := value_mismatches acc;
         perfect_matches := perfect_matches acc |}
  | both =>
      let info := row_info row in
      let st := compare_record merged_cols row record_id info direct sums cats in
      {| missing_in_cama := missing_in_cama acc;
         missing_in_mls := missing_in_mls acc;
         value_mismatches := value_mismatches acc ++ record_mismatches st;
         perfect_matches :=
           if is_nil (record_mismatches st) && negb (is_nil (fields_compared st))
           then perfect_matches acc
                  ++ [{| pm_Parcel_ID := record_id; pm_info := info;
                         Fields_Compared := List.length (fields_compared st);
                         Fields_List := join ", " (fields_compared st) |}]
           else perfect_matches acc |}
  end.
End Visit.

Definition compare_data_enhanced (df_mls df_cama : option DataFrame)
    (unique_id_col : UniqueId)
    (cols_to_compare_mapping : list DirectRule)
    (cols_to_compare_sum : list SumRule)
    (cols_to_compare_categorical : list CategoricalRule)
    : ConfigError + Tables :=
  match df_mls, df_cama with
  | Some mls, Some cama =>
      if is_nil cols_to_compare_mapping then inl ColumnMappingEmpty
      else
        match id_mls_col unique_id_col, id_cama_col unique_id_col with
        | Some mls_id_col_name, Some cama_id_col_name =>
            if in_columns mls_id_col_name (columns mls) then
              let df_mls_renamed :=
                {| columns := rename_columns mls_id_col_name cama_id_col_name
                                (columns mls);
                   data := data mls |} in
              if negb (in_columns cama_id_col_name (columns cama))
              then inl (CamaIdNotFound cama_id_col_name)
              else if merge_raises (key_column mls mls_id_col_name)
                                   (key_column cama cama_id_col_name)
              then inl MergeRaised
              else
                let lcols := columns df_mls_renamed in
                let rcols := columns cama in
                let left := iterrows df_mls_renamed in
                let right := iterrows cama in
                let merged_cols := merged_columns cama_id_col_name lcols rcols in
                let merged_df := merge_outer cama_id_col_name lcols rcols left right in
                let acc :=
                  fold_left
                    (visit_row cama_id_col_name merged_cols cols_to_compare_mapping
                       cols_to_compare_sum cols_to_compare_categorical)
                    merged_df no_lists in
                inr {| df_missing_cama := missing_in_cama acc;
                       df_missing_mls := missing_in_mls acc;
                       df_value_mismatches := value_mismatches acc;
                       matched_df := merge_inner cama_id_col_name lcols rcols left right;
                       df_perfect_matches := perfect_matches acc |}
            else inl (MlsIdNotFound mls_id_col_name)
        | _, _ => inl UniqueIdIncomplete
        end
  | _, _ => inl DataframeMissing
  end.
End Engine.

(** ** Outcome buckets of a merged row *)

(** What one merged row adds to the four lists. *)
Definition contribution `{Pandas} (tolerance : Q) (skip_zero : bool)
    (cama_id_col_name : string) (merged_cols : list string)
    (direct : list DirectRule) (sums : list SumRule) (cats : list CategoricalRule)
    (mrow : MergedRow) : Lists :=
  visit_row tolerance skip_zero cama_id_col_name merged_cols direct sums cats
    no_lists mrow.

Inductive Bucket : Type :=
| MissingInB | MissingInA | Mismatched | PerfectMatched | Skipped.

(** A row is in a bucket when it adds to the list of that bucket; it is
    skipped when it adds to none. *)
Definition in_bucket (b : Bucket) (c : Lists) : Prop :=
  match b with
  | MissingInB => missing_in_cama c <> []
  | MissingInA => missing_in_mls c <> []
  | Mismatched => value_mismatches c <> []
  | PerfectMatched => perfect_matches c <> []
  | Skipped =>
      missing_in_cama c = [] /\ missing_in_mls c = []
      /\ value_mismatches c = [] /\ perfect_matches c = []
  end.

(** A rule has nothing to compare on a row when one of its columns is absent
    from the merged frame or one of its two values is blank; the CAMA value
    of a sum rule is blank when every CAMA cell is missing. *)
Definition direct_rule_blank (merged_cols : list string) (row : Series)
    (mapping : DirectRule) : bool :=
  negb (in_columns (mls_col mapping) merged_cols)
  || negb (in_columns (cama_col mapping) merged_cols)
  || is_blank (row_get row (mls_col mapping) Null)
  || is_blank (row_get row (cama_col mapping) Null).

Definition sum_rule_blank (merged_cols : list string) (row : Series)
    (mapping : SumRule) : bool :=
  negb (in_columns (sum_mls_col mapping) merged_cols)
  || existsb (fun col => negb (in_columns col merged_cols)) (cama_cols mapping)
  || is_blank (row_get row (sum_mls_col mapping) Null)
  || forallb (fun col => isna (row_get row col Null)) (cama_cols mapping).

Definition categorical_rule_blank (merged_cols : list string) (row : Series)
    (mapping : CategoricalRule) : bool :=
  negb (in_columns (cat_mls_col mapping) merged_cols)
  || negb (in_columns (cat_cama_col mapping) merged_cols)
  || is_blank (row_get row (cat_mls_col mapping) Null)
  || is_blank (row_get row (cat_cama_col mapping) Null).

Definition nothing_to_compare (merged_cols : list string) (row : Series)
    (direct : list DirectRule) (sums : list SumRule) (cats : list CategoricalRule)
    : bool :=
  forallb (direct_rule_blank merged_cols row) direct
  && forallb (sum_rule_blank merged_cols row) sums
  && forallb (categorical_rule_blank merged_cols row) cats.

(** The specification's notion of a compared field, in its words: a field
    is compared only if neither side's value is blank and, when
    zero-suppression is enabled, neither side's numeric value is exactly 0.
    [spec_fields_compared] counts the rules whose field is compared in that
    sense. *)
Definition spec_compared_direct `{Pandas} (skip_zero : bool)
    (merged_cols : list string) (row : Series) (mapping : DirectRule) : bool :=
  negb (direct_rule_blank merged_cols row mapping)
  && negb (skip_zero
           && (is_zero (to_numeric_coerce (row_get row (mls_col mapping) Null))
               || is_zero (to_numeric_coerce (row_get row (cama_col mapping) Null)))).

Definition spec_compared_sum `{Pandas} (skip_zero : bool)
    (merged_cols : list string) (row : Series) (mapping : SumRule) : bool :=
  negb (sum_rule_blank merged_cols row mapping)
  && negb (skip_zero
           && (is_zero (to_numeric_coerce (row_get row (sum_mls_col mapping) Null))
               || numeric_is_zero (fst (sum_cama row (cama_cols mapping))))).

Definition spec_compared_categorical (merged_cols : list string) (row : Series)
    (mapping : CategoricalRule) : bool :=
  negb (categorical_rule_blank merged_cols row mapping).

Definition spec_fields_compared `{Pandas} (skip_zero : bool)
    (merged_cols : list string) (row : Series)
    (direct : list DirectRule) (sums : list SumRule) (cats : list CategoricalRule)
    : nat :=
  List.length (filter (spec_compared_direct skip_zero merged_cols row) direct)
  + List.length (filter (spec_compared_sum skip_zero merged_cols row) sums)
  + List.length (filter (spec_compared_categorical merged_cols row) cats).

(** A rule leaves the two lists of a record alone, counts its field, or
    counts its field and reports one mismatch carrying the row's identifier. *)
Definition one_rule (record_id : scalar) (st st' : RecordState) : Prop :=
  st' = st
  \/ (exists f, st' = track st f)
  \/ (exists f m, mm_Parcel_ID m = record_id /\ st' = emit (track st f) m).

(** No mismatch without a counted field, and every mismatch names the row. *)
Definition sound_state (record_id : scalar) (st : RecordState) : Prop :=
  (List.length (record_mismatches st) <= List.length (fields_compared st))%nat
  /\ Forall (fun m => mm_Parcel_ID m = record_id) (record_mismatches st).

(** merged_df and its columns, as compare_data_enhanced builds them once both
    key columns are found. *)
Definition merged_frame (mls cama : DataFrame) (mls_id cama_id : string)
    : list MergedRow :=
  let lcols := rename_columns mls_id cama_id (columns mls) in
  merge_outer cama_id lcols (columns cama)
    (map (combine lcols) (data mls)) (iterrows cama).

Definition merged_frame_columns (mls cama : DataFrame) (mls_id cama_id : string)
    : list string :=
  merged_columns cama_id (rename_columns mls_id cama_id (columns mls)) (columns cama).

(** record_id = row.get(cama_id_col_name) *)
Definition record_id_of (cama_id : string) (mrow : MergedRow) : scalar :=
  row_get (fields mrow) cama_id Null.

(** The two lists of a matched row after its rules ran. *)
Definition record_state `{Pandas} (tolerance : Q) (skip_zero : bool)
    (cama_id : string) (merged_cols : list string)
    (direct : list DirectRule) (sums : list SumRule) (cats : list CategoricalRule)
    (mrow : MergedRow) : RecordState :=
  compare_record tolerance skip_zero merged_cols (fields mrow)
    (record_id_of cama_id mrow) (row_info (fields mrow)) direct sums cats.

(** Every record has a value for every column. *)
Definition rectangular (df : DataFrame) : bool :=
  forallb (fun record => (List.length record =? List.length (columns df))%nat) (data df).

(** The label [key] names a single column. *)
Definition names_one_column (key : string) (cols : list string) : bool :=
  (count_occ string_dec cols key =? 1)%nat.

(** ** Duplicate identifiers *)

(** df.empty: no rows or no columns *)
Definition df_empty (df : DataFrame) : bool :=
  is_nil (data df) || is_nil (columns df).

(** pd.DataFrame() *)
Definition empty_frame : DataFrame := {| columns := []; data := [] |}.

(** Series.duplicated(keep=False) on the key column: a row is marked when its
    key occurs more than once. *)
Definition duplicated (keys : list scalar) : list bool :=
  map (fun k => (1 <? List.length (filter (key_eqb k) keys))%nat) keys.

(** df[mask] *)
Definition select_rows (mask : list bool) (rows : list (list scalar))
    : list (list scalar) :=
  map snd (filter fst (combine mask rows)).

(** The key of one record of [df], and whether the key column holds it more
    than once. *)
Definition record_key (df : DataFrame) (id_column : string)
    (record : list scalar) : scalar :=
  row_get (combine (columns df) record) id_column Null.

Definition occurs_twice (df : DataFrame) (id_column : string)
    (record : list scalar) : bool :=
  (1 <? List.length (filter (key_eqb (record_key df id_column record))
                       (key_column df id_column)))%nat.

(** duplicate_ids.sort_values(by=id_column) orders the keys to print; on
    keys that hold both a text and a number it compares the two and raises a
    TypeError. *)
Definition unorderable (keys : list scalar) : bool :=
  existsb is_text keys && existsb is_number keys.

(** [None] stands for an error that nothing catches: the KeyError that
    pandas raises when the frame is not empty and lacks [id_column], and the
    TypeError of sort_values while the duplicates are printed. *)
Definition find_duplicate_ids (df : option DataFrame) (id_column : string)
    : option DataFrame :=
  match df with
  | None => Some empty_frame
  | Some d =>
      if df_empty d then Some empty_frame
      else if negb (in_columns id_column (columns d)) then None
      else
        let duplicate_ids :=
          {| columns := columns d;
             data := select_rows (duplicated (key_column d id_column)) (data d) |} in
        if negb (is_nil (data duplicate_ids))
        then if unorderable (key_column duplicate_ids id_column) then None
             else Some duplicate_ids
        else Some empty_frame
  end.

(** ** The script's configuration and main block *)

Definition UNIQUE_ID_COLUMN : UniqueId :=
  {| id_mls_col := Some "Parcel Number"%string; id_cama_col := Some "PARID"%string |}.

Definition COLUMNS_TO_COMPARE : list DirectRule :=
  [ {| mls_col := "Above Grade Finished Area"; cama_col := "SFLA" |};
    {| mls_col := "Bedrooms Total"; cama_col := "RMBED" |};
    {| mls_col := "Bathrooms Full"; cama_col := "FIXBATH" |};
    {| mls_col := "Bathrooms Half"; cama_col := "FIXHALF" |} ].

Definition COLUMNS_TO_COMPARE_SUM : list SumRule :=
  [ {| sum_mls_col := "Below Grade Finished Area";
       cama_cols := ["RECROMAREA"; "FINBSMTAREA"; "UFEATAREA"]%string |} ].

Definition COLUMNS_TO_COMPARE_CATEGORICAL : list CategoricalRule :=
  [ {| cat_mls_col := "Cooling"; cat_cama_col := "HEAT";
       mls_check_contains := "Central Air";
       cama_expected_if_true := Num 1;
       cama_expected_if_false := Num 0;
       case_sensitive := false |} ].

(** How the main block ends: with a message and nothing compared (a file
    failed to load, or a key column is not configured or not found); with an
    error that nothing catches (a duplicate check or the merge raised); or
    with both duplicate checks done and the comparison returned. *)
Inductive MainResult : Type :=
| NotCompared
| Raised
| Compared (duplicates_mls duplicates_cama : DataFrame)
           (comparison : ConfigError + Tables).

Definition main `{Pandas} (mls_data cama_data : option DataFrame) : MainResult :=
  match mls_data, cama_data with
  | Some mls, Some cama =>
      match id_mls_col UNIQUE_ID_COLUMN, id_cama_col UNIQUE_ID_COLUMN with
      | Some mls_id_col_name, Some cama_id_col_name =>
          if negb (in_columns mls_id_col_name (columns mls)) then NotCompared
          else if negb (in_columns cama_id_col_name (columns cama)) then NotCompared
          else
            match find_duplicate_ids mls_data mls_id_col_name with
            | None => Raised
            | Some dup_mls =>
                match find_duplicate_ids cama_data cama_id_col_name with
                | None => Raised
                | Some dup_cama =>
                    match compare_data_enhanced NUMERIC_TOLERANCE SKIP_ZERO_VALUES
                            mls_data cama_data UNIQUE_ID_COLUMN COLUMNS_TO_COMPARE
                            COLUMNS_TO_COMPARE_SUM COLUMNS_TO_COMPARE_CATEGORICAL with
                    | inl MergeRaised => Raised
                    | result => Compared dup_mls dup_cama result
                    end
                end
            end
      | _, _ => NotCompared
      end
  | _, _ => NotCompared
  end.

(** ** An instance of the library behaviours, to run the code

    The empty text is read as NaN; decimal literals (an optional sign,
    digits, an optional fraction, an optional exponent, blanks around) are
    read as numbers; every other text is refused, the text nan included.
    A number prints as its decimal expansion, a whole number without a
    fraction part. *)

Definition digit_of (c : ascii) : option Z :=
  let n := nat_of_ascii c in
  if ((48 <=? n) && (n <=? 57))%nat then Some (Z.of_nat (n - 48)) else None.

Fixpoint read_decimal (s : string) (num : Z) (scale : positive)
    (seen_dot seen_digit : bool) : option Q :=
  match s with
  | EmptyString => if seen_digit then Some (num # scale) else None
  | String c s' =>
      if Ascii.eqb c "."
      then if seen_dot then None else read_decimal s' num scale true seen_digit
      else match digit_of c with
           | Some d =>
               read_decimal s' (10 * num + d)
                 (if seen_dot then 10 * scale else scale)%positive seen_dot true
           | None => None
           end
  end.

Fixpoint read_digits (s : string) (num : Z) (seen_digit : bool) : option Z :=
  match s with
  | EmptyString => if seen_digit then Some num else None
  | String c s' =>
      match digit_of c with
      | Some d => read_digits s' (10 * num + d) true
      | None => None
      end
  end.

Definition read_exponent (s : string) : option Z :=
  match s with
  | String "-" s' => option_map Z.opp (read_digits s' 0 false)
  | String "+" s' => read_digits s' 0 false
  | s' => read_digits s' 0 false
  end.

(** The text before the first e or E, and the text after it, if any. *)
Fixpoint split_exponent (s : string) : string * option string :=
  match s with
  | EmptyString => (EmptyString, None)
  | String c s' =>
      if Ascii.eqb c "e" || Ascii.eqb c "E" then (EmptyString, Some s')
      else let (m, e) := split_exponent s' in (String c m, e)
  end.

Definition scale_by (q : Q) (e : Z) : Q :=
  if (0 <=? e)%Z then q * inject_Z (10 ^ e) else q / inject_Z (10 ^ (- e)).

Definition read_number (s : string) : option Q :=
  let (m, e) := split_exponent s in
  match read_decimal m 0 1 false false, e with
  | Some q, None => Some q
  | Some q, Some e' => option_map (scale_by q) (read_exponent e')
  | None, _ => None
  end.

Definition parse_decimal (s : string) : option numeric :=
  if String.eqb s "" then Some NaN
  else
    match strip s with
    | String "-" s' => option_map (fun q => Real (- q)) (read_number s')
    | String "+" s' => option_map Real (read_number s')
    | s' => option_map Real (read_number s')
    end.

Fixpoint fraction_digits (fuel : nat) (n d : Z) : string :=
  match fuel with
  | O => EmptyString
  | S fuel' =>
      if (n =? 0)%Z then EmptyString
      else (digits (10 * n / d) ++ fraction_digits fuel' (10 * n mod d) d)%string
  end.

Definition print_decimal (q : Q) : string :=
  let n := Z.abs (Qnum q) in
  let d := Zpos (Qden q) in
  ((if Qle_bool 0 q then "" else "-") ++ digits (n / d)
   ++ (if (n mod d =? 0)%Z then "" else "." ++ fraction_digits 17 (n mod d) d))%string.

Definition decimal_pandas : Pandas :=
  {| str_to_numeric := parse_decimal; str_of_number := print_decimal |}.

(** ** Notions used to state properties of the engine *)

(** [sublist l l'] : [l] is [l'] with some elements left out, in order. *)
Inductive sublist {A : Type} : list A -> list A -> Prop :=
| sublist_nil : sublist [] []
| sublist_keep (x : A) (l l' : list A) : sublist l l' -> sublist (x :: l) (x :: l')
| sublist_skip (x : A) (l l' : list A) : sublist l l' -> sublist l (x :: l').

Definition is_both (mrow : MergedRow) : bool :=
  match _merge mrow with both => true | _ => false end.

Definition from_mls (mrow : MergedRow) : bool :=
  match _merge mrow with right_only => false | _ => true end.

(** ** The report layer *)














(** report_discrepancies_enhanced writes one workbook per table that is not
    empty and returns their names, reports_generated; the model keeps the
    returned list. *)
Definition report_discrepancies_enhanced (df_missing_cama : list MissingInCama)
    (df_missing_mls : list scalar) (df_value_mismatches : list Mismatch)
    (df_perfect_matches : list PerfectMatch) (output_prefix : string) : list string :=
  (if negb (is_nil df_missing_cama)
   then [(output_prefix ++ "_missing_in_CAMA.xlsx")%string] else [])
  ++ (if negb (is_nil df_missing_mls)
      then [(output_prefix ++ "_missing_in_MLS.xlsx")%string] else [])
  ++ (if negb (is_nil df_value_mismatches)
      then [(output_prefix ++ "_value_mismatches.xlsx")%string] else [])
  ++ (if negb (is_nil df_perfect_matches)
      then [(output_prefix ++ "_perfect_matches.xlsx")%string] else []).

(** The reports of one run, as the main block asks for them. *)
Definition reports_of (r : ConfigError + Tables) : list string :=
  let t := returned_tables r in
  report_discrepancies_enhanced (df_missing_cama t) (df_missing_mls t)
    (df_value_mismatches t) (df_perfect_matches t) "discrepancies".

(** ** Sample inputs *)

(** The pair on which the relative term tells the two arguments apart:
    0.010100000005 and 0.0001. *)
Definition near_a : Q := 10100000005 # 1000000000000.
Definition near_b : Q := 1 # 10000.

Definition blank_info : RowInfo :=
  {| NOPAR := Str ""; ADDITIONAL_PARCELS := Str ""; Listing_Number := Str "";
     SALEKEY := Str ""; Address := Str ""; City := Str ""; State := Str "";
     Zip := Str "" |}.

(** One parcel whose finished basement is 500 in MLS and 200 + 150 + blank
    in CAMA. *)
Definition basement_mls : DataFrame :=
  {| columns := ["Parcel Number"; "Below Grade Finished Area"]%string;
     data := [[Str "10-001"; Num 500]] |}.

Definition basement_cama : DataFrame :=
  {| columns := ["PARID"; "RECROMAREA"; "FINBSMTAREA"; "UFEATAREA"]%string;
     data := [[Str "10-001"; Num 200; Num 150; Null]] |}.

Definition basement_mismatch : Mismatch :=
  {| mm_Parcel_ID := Str "10-001"; mm_info := blank_info;
     Field_MLS := "Below Grade Finished Area";
     Field_CAMA := "SUM(RECROMAREA, FINBSMTAREA, UFEATAREA)";
     MLS_Value := Num 500; CAMA_Value := Num 350;
     Difference := Some "150.00"%string; Expected_CAMA_Value := None |}.

(** One parcel with 0 bedrooms in MLS and 5 in CAMA. *)
Definition bedrooms_mls : DataFrame :=
  {| columns := ["Parcel Number"; "Bedrooms Total"]%string;
     data := [[Str "10-001"; Num 0]] |}.

Definition bedrooms_cama : DataFrame :=
  {| columns := ["PARID"; "RMBED"]%string;
     data := [[Str "10-001"; Num 5]] |}.

(** The same CAMA parcel under a numeric key. *)
Definition numbered_cama : DataFrame :=
  {| columns := ["PARID"; "RMBED"]%string;
     data := [[Num 10001; Num 5]] |}.

Definition bedrooms_mismatch : Mismatch :=
  {| mm_Parcel_ID := Str "10-001"; mm_info := blank_info;
     Field_MLS := "Bedrooms Total"; Field_CAMA := "RMBED";
     MLS_Value := Num 0; CAMA_Value := Num 5;
     Difference := Some "-5.00"%string; Expected_CAMA_Value := None |}.

Definition bedrooms_perfect : PerfectMatch :=
  {| pm_Parcel_ID := Str "10-001"; pm_info := blank_info;
     Fields_Compared := 1; Fields_List := "Bedrooms Total" |}.

(** One parcel whose every mapped MLS value is 0 while CAMA holds data. *)
Definition zeros_mls : DataFrame :=
  {| columns := ["Parcel Number"; "Bedrooms Total"; "Below Grade Finished Area"]%string;
     data := [[Str "10-001"; Num 0; Num 0]] |}.

Definition zeros_cama : DataFrame :=
  {| columns := ["PARID"; "RMBED"; "RECROMAREA"; "FINBSMTAREA"; "UFEATAREA"]%string;
     data := [[Str "10-001"; Num 5; Num 200; Num 150; Null]] |}.

Definition zeros_perfect : PerfectMatch :=
  {| pm_Parcel_ID := Str "10-001"; pm_info := blank_info;
     Fields_Compared := 2;
     Fields_List := "Bedrooms Total, Below Grade Finished Area" |}.

(** A categorical rule whose expected values are texts. *)
Definition cooling_text_rule : CategoricalRule :=
  {| cat_mls_col := "Cooling"; cat_cama_col := "HEAT";
     mls_check_contains := "Central Air";
     cama_expected_if_true := Str "xyz";
     cama_expected_if_false := Str "none";
     case_sensitive := false |}.

(** A matched row whose CAMA basement columns hold a text that is no number. *)
Definition garbled_row : Series :=
  [("PARID", Str "10-001"); ("Below Grade Finished Area", Num 0);
   ("RECROMAREA", Str "abc"); ("FINBSMTAREA", Num 150); ("UFEATAREA", Null)]%string.

Definition garbled_cols : list string :=
  ["PARID"; "Below Grade Finished Area"; "RECROMAREA"; "FINBSMTAREA"; "UFEATAREA"]%string.

Definition basement_rule : SumRule :=
  {| sum_mls_col := "Below Grade Finished Area";
     cama_cols := ["RECROMAREA"; "FINBSMTAREA"; "UFEATAREA"]%string |}.

(** Two small frames: parcel 10-001 is on both sides, 10-002 only in MLS,
    10-003 only in CAMA. *)
Definition town_mls : DataFrame :=
  {| columns := ["Parcel Number"; "Bedrooms Total"]%string;
     data := [[Str "10-001"; Num 3]; [Str "10-002"; Num 4]] |}.

Definition town_cama : DataFrame :=
  {| columns := ["PARID"; "RMBED"]%string;
     data := [[Str "10-001"; Num 3]; [Str "10-003"; Num 2]] |}.

(** A frame that lists parcel 10-001 twice. *)
Definition twice_cama : DataFrame :=
  {| columns := ["PARID"; "RMBED"]%string;
     data := [[Str "10-001"; Num 3]; [Str "10-002"; Num 2]; [Str "10-001"; Num 4]] |}.

(** An MLS frame whose key column holds a text twice and a number twice. *)
Definition mixed_mls : DataFrame :=
  {| columns := ["Parcel Number"; "Bedrooms Total"]%string;
     data := [[Str "10-001"; Num 3]; [Str "10-001"; Num 3];
              [Num 7; Num 2]; [Num 7; Num 2]] |}.

(** The same rule as [cooling_text_rule], its marker in capitals. *)
Definition cooling_shout_rule : CategoricalRule :=
  {| cat_mls_col := "Cooling"; cat_cama_col := "HEAT";
     mls_check_contains := "CENTRAL AIR";
     cama_expected_if_true := Str "xyz";
     cama_expected_if_false := Str "none";
     case_sensitive := false |}.

(** A matched row whose MLS values are blank texts. *)
Definition blank_row : Series :=
  [("PARID", Str "10-001"); ("Bedrooms Total", Str "  "); ("RMBED", Num 5);
   ("Below Grade Finished Area", Str ""); ("RECROMAREA", Num 200);
   ("FINBSMTAREA", Num 150); ("UFEATAREA", Null);
   ("Cooling", Null); ("HEAT", Num 1)]%string.

Definition blank_row_cols : list string :=
  ["PARID"; "Bedrooms Total"; "RMBED"; "Below Grade Finished Area"; "RECROMAREA";
   "FINBSMTAREA"; "UFEATAREA"; "Cooling"; "HEAT"]%string.

(** One parcel whose bedrooms cell is blank in MLS. *)
Definition quiet_mls : DataFrame :=
  {| columns := ["Parcel Number"; "Bedrooms Total"]%string;
     data := [[Str "10-001"; Str ""]] |}.

(** * Properties *)

(** ** The value comparator *)

Section ComparatorFacts.
Context `{Pandas}.
Variable tolerance : Q.

Lemma isclose_spec (a b : Q) :
  isclose RTOL tolerance a b = true
  <-> Qabs (a - b) <= tolerance + RTOL * Qabs b \/ a == b.
Proof.
  unfold isclose. rewrite orb_true_iff, Qle_bool_iff, Qeq_bool_iff. reflexivity.
Qed.

Lemma isclose_refl (a : Q) : isclose RTOL tolerance a a = true.
Proof. apply isclose_spec. right. reflexivity. Qed.

Lemma isclose_swap (a b : Q) :
  Qabs b <= Qabs a ->
  isclose RTOL tolerance a b = true -> isclose RTOL tolerance b a = true.
Proof.
  intros Hab. rewrite !isclose_spec, (Qabs_Qminus b a).
  intros [Hle | Heq].
  - left. unfold RTOL in *. lra.
  - right. symmetry. exact Heq.
Qed.

Lemma values_equal_real (a b : scalar) (qa qb : Q) :
  to_numeric_raise a = Some (Real qa) ->
  to_numeric_raise b = Some (Real qb) ->
  values_equal tolerance a b = isclose RTOL tolerance qa qb.
Proof. intros Ha Hb. unfold values_equal. rewrite Ha, Hb. reflexivity. Qed.

Lemma values_equal_refl (x : scalar) :
  values_equal tolerance x x = true.
Proof.
  unfold values_equal.
  destruct (to_numeric_raise x) as [[q|]|]; simpl.
  - apply isclose_refl.
  - reflexivity.
  - apply String.eqb_refl.
Qed.

Lemma values_equal_swap (a b : scalar) :
  (forall qa qb, to_numeric_raise a = Some (Real qa) ->
                 to_numeric_raise b = Some (Real qb) -> Qabs qb <= Qabs qa) ->
  values_equal tolerance a b = true -> values_equal tolerance b a = true.
Proof.
  intros Hord. unfold values_equal.
  destruct (to_numeric_raise a) as [[qa|]|], (to_numeric_raise b) as [[qb|]|];
    simpl; try congruence.
  - apply isclose_swap. now apply Hord.
  - now rewrite String.eqb_sym.
  - now rewrite String.eqb_sym.
  - now rewrite String.eqb_sym.
  - now rewrite String.eqb_sym.
  - now rewrite String.eqb_sym.
Qed.
End ComparatorFacts.

(** C3, as stated, fails: with the default tolerance the comparator finds
    0.010100000005 and 0.0001 unequal, although their distance is within
    tolerance + 1e-9 * max(|a|,|b|); and under the tolerance -1 it finds 0
    equal to 0, although no distance is within a negative bound. *)
Lemma values_equal_max_formula_fails :
  (@values_equal decimal_pandas NUMERIC_TOLERANCE (Num near_a) (Num near_b) = false
   /\ Qabs (near_a - near_b)
      <= NUMERIC_TOLERANCE + (1 # 1000000000) * Qmax (Qabs near_a) (Qabs near_b))
  /\ (@values_equal decimal_pandas (-1 # 1) (Num 0) (Num 0) = true
      /\ ~ Qabs (0 - 0) <= (-1 # 1) + (1 # 1000000000) * Qmax (Qabs 0) (Qabs 0)).
Proof.
  split; split.
  - vm_compute. reflexivity.
  - apply Qle_bool_iff. vm_compute. reflexivity.
  - vm_compute. reflexivity.
  - intro Hle. apply Qle_bool_iff in Hle. vm_compute in Hle. discriminate Hle.
Qed.

(** C3, amended: for inputs that both coerce to real numbers a and b, the
    comparator bounds the distance |a-b| by tolerance + 1e-9 * |b|, where b
    is the second argument alone (not the larger of the two).  Equal numbers
    are equal under every tolerance.  Under a tolerance that is not negative
    the result is equal when the distance is clearly within the bound and
    unequal when it is clearly beyond it; on the bound itself, within the
    rounding of double arithmetic (a relative 1e-12), the outcome depends on
    that rounding and is not stated.  The shipped tolerance is 0.01. *)
Theorem values_equal_tolerance_rule :
  forall (P : Pandas) (a b : scalar) (qa qb : Q),
    to_numeric_raise a = Some (Real qa) ->
    to_numeric_raise b = Some (Real qb) ->
    (forall tolerance : Q,
        (qa == qb -> values_equal tolerance a b = true)
        /\ (0 <= tolerance ->
            (clearly_within (Qabs (qa - qb))
                            (tolerance + (1 # 1000000000) * Qabs qb) ->
             values_equal tolerance a b = true)
            /\ (clearly_beyond (Qabs (qa - qb))
                               (tolerance + (1 # 1000000000) * Qabs qb) ->
                values_equal tolerance a b = false)))
    /\ (clearly_within (Qabs (qa - qb)) ((1 # 100) + (1 # 1000000000) * Qabs qb) ->
        values_equal NUMERIC_TOLERANCE a b = true)
    /\ (clearly_beyond (Qabs (qa - qb)) ((1 # 100) + (1 # 1000000000) * Qabs qb) ->
        values_equal NUMERIC_TOLERANCE a b = false).
Proof.
  intros P a b qa qb Ha Hb.
  assert (Hpos : 0 < TINY) by reflexivity.
  assert (Hr : 0 < ROUNDING) by reflexivity.
  pose proof (Qabs_nonneg (qa - qb)) as Hd.
  pose proof (Qabs_nonneg qb) as Hq.
  assert (G : forall tolerance : Q,
             (qa == qb -> values_equal tolerance a b = true)
             /\ (0 <= tolerance ->
                 (clearly_within (Qabs (qa - qb))
                                 (tolerance + (1 # 1000000000) * Qabs qb) ->
                  values_equal tolerance a b = true)
                 /\ (clearly_beyond (Qabs (qa - qb))
                                    (tolerance + (1 # 1000000000) * Qabs qb) ->
                     values_equal tolerance a b = false))).
  { intro tolerance.
    rewrite (values_equal_real tolerance a b qa qb Ha Hb).
    split; [| intro Htol; split].
    - intro E. apply isclose_spec. now right.
    - unfold clearly_within. intro Hin. apply isclose_spec. left. unfold RTOL.
      set (d := Qabs (qa - qb)) in *. set (m := Qabs qb) in *.
      assert (Hprod : 0 <= d * ROUNDING) by (apply Qmult_le_0_compat; lra).
      lra.
    - unfold clearly_beyond. intro Hout.
      destruct (isclose RTOL tolerance qa qb) eqn:E; [| reflexivity].
      exfalso. apply isclose_spec in E. unfold RTOL in E.
      set (m := Qabs qb) in *.
      set (bound := tolerance + (1 # 1000000000) * m) in *.
      assert (Hb0 : 0 <= bound)
        by (unfold bound;
            assert (0 <= (1 # 1000000000) * m) by (apply Qmult_le_0_compat; lra);
            lra).
      assert (Hprod : 0 <= bound * ROUNDING) by (apply Qmult_le_0_compat; lra).
      destruct E as [Hle | Heq].
      + lra.
      + assert (Z0 : qa - qb == 0) by (rewrite Heq; ring).
        rewrite Z0 in Hout. simpl Qabs in Hout. lra. }
  split; [exact G |].
  destruct (G NUMERIC_TOLERANCE) as [_ G2].
  apply G2. unfold NUMERIC_TOLERANCE. lra.
Qed.

(** The rule at the text "100.00" against 100.01, which are equal, and
    against 100.02, which are not. *)
Lemma values_equal_tolerance_rule_witness :
  @values_equal decimal_pandas NUMERIC_TOLERANCE (Str "100.00") (Num (10001 # 100)) = true
  /\ @values_equal decimal_pandas NUMERIC_TOLERANCE (Str "100.00") (Num (10002 # 100)) = false.
Proof.
  split.
  - apply (proj1 (proj2 (values_equal_tolerance_rule decimal_pandas
                    (Str "100.00") (Num (10001 # 100)) (10000 # 100) (10001 # 100)
                    eq_refl eq_refl))).
    apply Qle_bool_iff. vm_compute. reflexivity.
  - apply (proj2 (proj2 (values_equal_tolerance_rule decimal_pandas
                    (Str "100.00") (Num (10002 # 100)) (10000 # 100) (10002 # 100)
                    eq_refl eq_refl))).
    vm_compute. reflexivity.
Defined.

(** C8, as stated, fails: the comparator is not symmetric, because the
    relative term of the bound uses the second argument only. *)
Lemma values_equal_not_symmetric :
  @values_equal decimal_pandas NUMERIC_TOLERANCE (Num near_a) (Num near_b)
    <> @values_equal decimal_pandas NUMERIC_TOLERANCE (Num near_b) (Num near_a).
Proof. vm_compute. discriminate. Qed.

(** C8, amended: the comparator is reflexive for every scalar and every
    tolerance; and equal(a, b) implies equal(b, a) unless both coerce to
    real numbers with |a| < |b|. *)
Theorem values_equal_reflexive_and_swap :
  forall (P : Pandas) (tolerance : Q),
    (forall x : scalar, values_equal tolerance x x = true)
    /\ (forall a b : scalar,
           (forall qa qb, to_numeric_raise a = Some (Real qa) ->
                          to_numeric_raise b = Some (Real qb) ->
                          Qabs qb <= Qabs qa) ->
           values_equal tolerance a b = true ->
           values_equal tolerance b a = true).
Proof.
  intros P tolerance. split.
  - intro x. apply values_equal_refl.
  - intros a b. apply values_equal_swap.
Qed.

(** Reflexivity at a text under a negative tolerance, and the swap at 100.01
    against 100. *)
Lemma values_equal_reflexive_and_swap_witness :
  @values_equal decimal_pandas (-1 # 1) (Str "n/a") (Str "n/a") = true
  /\ @values_equal decimal_pandas NUMERIC_TOLERANCE (Num 100) (Num (10001 # 100)) = true.
Proof.
  split.
  - apply (proj1 (values_equal_reflexive_and_swap decimal_pandas (-1 # 1))).
  - apply (proj2 (values_equal_reflexive_and_swap decimal_pandas NUMERIC_TOLERANCE)
             (Num (10001 # 100)) (Num 100)).
    + intros qa qb Ha Hb. injection Ha as <-. injection Hb as <-.
      apply Qle_bool_iff. reflexivity.
    + reflexivity.
Defined.

(** ** The categorical rule evaluator *)

(** C4: when neither the CAMA value nor the expected value reads as a number,
    categorical_match answers True without looking at the two texts, where
    the claim asks for their case-insensitive trimmed equality. *)
Theorem categorical_match_two_texts :
  forall (P : Pandas) (tolerance : Q) (mls_val cama_val : scalar)
         (mapping : CategoricalRule),
    to_numeric_raise cama_val = None ->
    to_numeric_raise (expected_cama mls_val mapping) = None ->
    categorical_match tolerance mls_val cama_val mapping = true.
Proof.
  intros P tolerance mls_val cama_val mapping Hc He.
  unfold categorical_match, to_numeric_coerce. rewrite Hc, He. reflexivity.
Qed.

(** The expected text "xyz" against the CAMA text "abc": reported as a match,
    although the two texts differ. *)
Lemma categorical_match_two_texts_witness :
  @categorical_match decimal_pandas NUMERIC_TOLERANCE
     (Str "Central Air") (Str "abc") cooling_text_rule = true
  /\ @expected_cama decimal_pandas (Str "Central Air") cooling_text_rule = Str "xyz"
  /\ String.eqb (@norm_text decimal_pandas (Str "abc"))
                (@norm_text decimal_pandas (Str "xyz")) = false.
Proof.
  split; [| split; reflexivity].
  apply (categorical_match_two_texts decimal_pandas NUMERIC_TOLERANCE
           (Str "Central Air") (Str "abc") cooling_text_rule); reflexivity.
Defined.

(** ** Rules on a matched row *)

Section StepFacts.
Context `{Pandas}.
Variable tolerance : Q.
Variable skip_zero : bool.
Variable row : Series.

Let sum_body (acc : numeric * bool) (col : string) : numeric * bool :=
  let val := row_get row col Null in
  if notna val
  then (numeric_add (fst acc) (to_numeric_coerce val), false)
  else acc.

Lemma sum_fold_all_null (cols : list string) (acc : numeric * bool) :
  (forall col, In col cols -> isna (row_get row col Null) = true) ->
  fold_left sum_body cols acc = acc.
Proof.
  revert acc. induction cols as [|c cols IH]; intros acc Hnull; simpl.
  - reflexivity.
  - unfold sum_body at 2. unfold notna.
    rewrite (Hnull c (or_introl eq_refl)). simpl.
    apply IH. intros col Hin. apply Hnull. now right.
Qed.

Lemma sum_cama_all_null (cols : list string) :
  (forall col, In col cols -> isna (row_get row col Null) = true) ->
  sum_cama row cols = (Real 0, true).
Proof. intro Hnull. unfold sum_cama. now apply sum_fold_all_null. Qed.

Lemma sum_fold_flag (cols : list string) (acc : numeric * bool) :
  snd (fold_left sum_body cols acc)
  = snd acc && forallb (fun col => isna (row_get row col Null)) cols.
Proof.
  revert acc. induction cols as [|c cols IH]; intro acc.
  - simpl. now rewrite andb_true_r.
  - cbn [fold_left forallb]. rewrite IH. unfold sum_body, notna.
    destruct (isna (row_get row c Null)); simpl.
    + reflexivity.
    + now rewrite andb_false_r.
Qed.

(** all_cama_blank is on exactly when every CAMA cell is missing. *)
Lemma sum_cama_flag (cols : list string) :
  snd (sum_cama row cols) = forallb (fun col => isna (row_get row col Null)) cols.
Proof. unfold sum_cama. apply (sum_fold_flag cols (Real 0, true)). Qed.

Lemma numeric_add_NaN_l (n : numeric) : numeric_add NaN n = NaN.
Proof. reflexivity. Qed.

Lemma numeric_add_NaN_r (n : numeric) : numeric_add n NaN = NaN.
Proof. now destruct n. Qed.

(** Once NaN, the running sum stays NaN and the all-blank flag stays off. *)
Lemma sum_fold_NaN (cols : list string) :
  fold_left sum_body cols (NaN, false) = (NaN, false).
Proof.
  induction cols as [|c cols IH]; simpl; [reflexivity|].
  unfold sum_body at 2. simpl fst.
  destruct (notna (row_get row c Null)); exact IH.
Qed.

Lemma sum_fold_garbled (cols : list string) (col : string) (acc : numeric * bool) :
  In col cols ->
  notna (row_get row col Null) = true ->
  to_numeric_coerce (row_get row col Null) = NaN ->
  fold_left sum_body cols acc = (NaN, false).
Proof.
  revert acc. induction cols as [|c cols IH]; intros acc Hin Hnn Hnan; simpl.
  - destruct Hin.
  - destruct Hin as [-> | Hin].
    + unfold sum_body at 2. rewrite Hnn, Hnan, numeric_add_NaN_r.
      apply sum_fold_NaN.
    + now apply IH.
Qed.

Lemma sum_cama_garbled (cols : list string) (col : string) :
  In col cols ->
  notna (row_get row col Null) = true ->
  to_numeric_coerce (row_get row col Null) = NaN ->
  sum_cama row cols = (NaN, false).
Proof. intros. unfold sum_cama. now apply sum_fold_garbled with (col := col). Qed.

Lemma lower_empty (s : string) : lower s = ""%string -> s = ""%string.
Proof. destruct s; simpl; [reflexivity | discriminate]. Qed.

(** A value that is not blank never equals the missing value. *)
Lemma values_equal_Null_r (v : scalar) :
  is_blank v = false ->
  to_numeric_raise v <> Some NaN ->
  values_equal tolerance v Null = false.
Proof.
  intros Hb Hnan. unfold values_equal. simpl (to_numeric_raise Null).
  destruct (to_numeric_raise v) as [[q|]|] eqn:E.
  - reflexivity.
  - now elim Hnan.
  - destruct v as [q|s|]; try discriminate E.
    unfold is_blank in Hb. simpl in Hb.
    unfold norm_text. simpl.
    apply String.eqb_neq. intro Heq. apply lower_empty in Heq.
    rewrite Heq in Hb. discriminate Hb.
Qed.

Lemma calculate_difference_Null_r (v : scalar) :
  calculate_difference v Null
  = match to_numeric_raise v with
    | Some _ => "N/A"%string
    | None => "Text difference"%string
    end.
Proof.
  unfold calculate_difference. simpl (to_numeric_raise Null).
  now destruct (to_numeric_raise v) as [[q|]|].
Qed.
End StepFacts.

(** C5: with 500 in MLS against 200, 150 and a missing value in CAMA the sum
    rule reports the sum 350 and the difference "150.00", whatever the
    skip-zero setting; and a sum rule whose CAMA values are all missing leaves
    the record untouched: the field is neither counted nor reported. *)
Theorem sum_rule_sums_and_skips_all_null :
  forall (P : Pandas) (skip_zero : bool),
    df_value_mismatches
      (returned_tables
         (compare_data_enhanced NUMERIC_TOLERANCE skip_zero
            (Some basement_mls) (Some basement_cama) UNIQUE_ID_COLUMN
            COLUMNS_TO_COMPARE COLUMNS_TO_COMPARE_SUM COLUMNS_TO_COMPARE_CATEGORICAL))
    = [basement_mismatch]
    /\ forall (tolerance : Q) (merged_cols : list string) (row : Series)
              (record_id : scalar) (info : RowInfo) (st : RecordState)
              (mapping : SumRule),
        (forall col, In col (cama_cols mapping) -> isna (row_get row col Null) = true) ->
        sum_step tolerance skip_zero merged_cols row record_id info st mapping = st.
Proof.
  intros P skip_zero. split.
  - destruct skip_zero; vm_compute; reflexivity.
  - intros tolerance merged_cols row record_id info st mapping Hnull.
    unfold sum_step. rewrite (sum_cama_all_null row _ Hnull).
    destruct (negb (in_columns (sum_mls_col mapping) merged_cols)); [reflexivity|].
    destruct (existsb _ (cama_cols mapping)); [reflexivity|].
    destruct (is_blank (row_get row (sum_mls_col mapping) Null)); reflexivity.
Qed.

(** A row whose three CAMA basement columns are missing. *)
Lemma sum_rule_sums_and_skips_all_null_witness :
  @sum_step decimal_pandas NUMERIC_TOLERANCE true
     ["Below Grade Finished Area"; "RECROMAREA"; "FINBSMTAREA"; "UFEATAREA"]%string
     [("Below Grade Finished Area", Num 500); ("RECROMAREA", Null);
      ("FINBSMTAREA", Null); ("UFEATAREA", Null)]%string
     (Str "10-001") blank_info no_fields basement_rule
  = no_fields.
Proof.
  apply (proj2 (sum_rule_sums_and_skips_all_null decimal_pandas true)).
  intros col [<- | [<- | [<- | []]]]; reflexivity.
Defined.

(** C6: for 0 bedrooms in MLS against 5 in CAMA, with skip-zero on, no
    mismatch is reported, yet the field is counted as compared and the record
    is therefore listed as a perfect match; with skip-zero off the mismatch is
    reported with the difference "-5.00". *)
Theorem zero_against_five :
  forall (P : Pandas),
    let run skip_zero :=
      returned_tables
        (compare_data_enhanced NUMERIC_TOLERANCE skip_zero
           (Some bedrooms_mls) (Some bedrooms_cama) UNIQUE_ID_COLUMN
           COLUMNS_TO_COMPARE COLUMNS_TO_COMPARE_SUM COLUMNS_TO_COMPARE_CATEGORICAL) in
    df_value_mismatches (run true) = []
    /\ df_perfect_matches (run true) = [bedrooms_perfect]
    /\ df_value_mismatches (run false) = [bedrooms_mismatch]
    /\ df_perfect_matches (run false) = [].
Proof. intro P. vm_compute. repeat split. Qed.

(** C1: a matched record whose two mapped fields are both suppressed by the
    zero rule (one direct rule, one sum rule) is reported as a perfect match
    with two fields compared. *)
Theorem all_fields_zero_suppressed :
  forall (P : Pandas),
    let t :=
      returned_tables
        (compare_data_enhanced NUMERIC_TOLERANCE SKIP_ZERO_VALUES
           (Some zeros_mls) (Some zeros_cama) UNIQUE_ID_COLUMN
           COLUMNS_TO_COMPARE COLUMNS_TO_COMPARE_SUM COLUMNS_TO_COMPARE_CATEGORICAL) in
    df_value_mismatches t = [] /\ df_perfect_matches t = [zeros_perfect].
Proof. intro P. vm_compute. split; reflexivity. Qed.

Lemma all_columns_present (merged_cols cols : list string) :
  (forall c, In c cols -> in_columns c merged_cols = true) ->
  existsb (fun col => negb (in_columns col merged_cols)) cols = false.
Proof.
  intro Hall. induction cols as [|c cols IH]; simpl; [reflexivity|].
  rewrite (Hall c (or_introl eq_refl)). simpl.
  apply IH. intros c' Hin. apply Hall. now right.
Qed.

Lemma raise_failure_is_text (P : Pandas) (v : scalar) :
  to_numeric_raise v = None -> notna v = true /\ to_numeric_coerce v = NaN.
Proof.
  intro E. split.
  - destruct v; [discriminate E | reflexivity | discriminate E].
  - unfold to_numeric_coerce. now rewrite E.
Qed.

(** C9, as stated, fails: with skip-zero on (the shipped setting) and 0 on the
    MLS side, a sum made NaN by the text "abc" is not reported. *)
Lemma garbled_sum_zero_side_no_mismatch :
  @sum_cama decimal_pandas garbled_row (cama_cols basement_rule) = (NaN, false)
  /\ is_blank (row_get garbled_row (sum_mls_col basement_rule) Null) = false
  /\ record_mismatches
       (@sum_step decimal_pandas NUMERIC_TOLERANCE SKIP_ZERO_VALUES garbled_cols
          garbled_row (Str "10-001") blank_info no_fields basement_rule) = [].
Proof. repeat split. Qed.

Lemma not_blank_not_NaN (P : Pandas) (v : scalar) :
  nan_means_blank P -> is_blank v = false -> to_numeric_raise v <> Some NaN.
Proof.
  intros Hlib Hblank E. destruct v as [q|s|].
  - discriminate E.
  - simpl in E. rewrite (Hlib s E) in Hblank. discriminate Hblank.
  - discriminate Hblank.
Qed.

Lemma decimal_pandas_nan_means_blank : nan_means_blank decimal_pandas.
Proof.
  intros s. simpl. unfold parse_decimal.
  destruct (String.eqb s "") eqn:E.
  - apply String.eqb_eq in E. subst s. reflexivity.
  - destruct (strip s) as [|c s'].
    + simpl. discriminate.
    + destruct c as [[] [] [] [] [] [] [] []];
        match goal with
        | |- context [read_number ?t] => destruct (read_number t)
        end; simpl; discriminate.
Qed.

(** C9, amended: in a sum rule whose columns are all present, if one CAMA
    value is not missing but fails numeric coercion, the sum is NaN; then,
    provided the MLS value is not blank and is not suppressed by the zero
    rule (skip-zero off, or the value is not 0), the rule reports a mismatch
    whose Difference is "N/A", or "Text difference" when the MLS value is
    not numeric.  (pd.to_numeric reads no text but the empty one as NaN.) *)
Theorem garbled_sum_reports_mismatch :
  forall (P : Pandas) (tolerance : Q) (skip_zero : bool) (merged_cols : list string)
         (row : Series) (record_id : scalar) (info : RowInfo) (st : RecordState)
         (mapping : SumRule) (col : string),
    nan_means_blank P ->
    in_columns (sum_mls_col mapping) merged_cols = true ->
    (forall c, In c (cama_cols mapping) -> in_columns c merged_cols = true) ->
    In col (cama_cols mapping) ->
    to_numeric_raise (row_get row col Null) = None ->
    is_blank (row_get row (sum_mls_col mapping) Null) = false ->
    sum_cama row (cama_cols mapping) = (NaN, false)
    /\ (skip_zero && is_zero (to_numeric_coerce (row_get row (sum_mls_col mapping) Null))
          = false ->
        sum_step tolerance skip_zero merged_cols row record_id info st mapping
        = emit (track st (sum_mls_col mapping))
            {| mm_Parcel_ID := record_id; mm_info := info;
               Field_MLS := sum_mls_col mapping;
               Field_CAMA := ("SUM(" ++ join ", " (cama_cols mapping) ++ ")")%string;
               MLS_Value := row_get row (sum_mls_col mapping) Null;
               CAMA_Value := Null;
               Difference :=
                 Some (match to_numeric_raise (row_get row (sum_mls_col mapping) Null) with
                       | Some _ => "N/A"%string
                       | None => "Text difference"%string
                       end);
               Expected_CAMA_Value := None |}).
Proof.
  intros P tolerance skip_zero merged_cols row record_id info st mapping col
         Hlib Hmls Hcama Hin Hfail Hblank.
  destruct (raise_failure_is_text P _ Hfail) as [Hnn Hnan].
  pose proof (sum_cama_garbled row _ col Hin Hnn Hnan) as Hsum.
  pose proof (not_blank_not_NaN P _ Hlib Hblank) as Hread.
  split; [exact Hsum|].
  intros Hzero.
  unfold sum_step.
  rewrite Hmls, (all_columns_present _ _ Hcama), Hblank, Hsum. simpl negb.
  cbv iota. simpl numeric_is_zero. rewrite orb_false_r, Hzero.
  simpl of_numeric.
  rewrite (values_equal_Null_r tolerance _ Hblank Hread). simpl negb. cbv iota.
  now rewrite calculate_difference_Null_r.
Qed.

(** The MLS text "nan" against a sum made NaN by "abc". *)
Lemma garbled_sum_reports_mismatch_witness :
  record_mismatches
    (@sum_step decimal_pandas NUMERIC_TOLERANCE SKIP_ZERO_VALUES garbled_cols
       [("Below Grade Finished Area", Str "nan"); ("RECROMAREA", Str "abc");
        ("FINBSMTAREA", Num 150); ("UFEATAREA", Null)]%string
       (Str "10-001") blank_info no_fields basement_rule)
  = [ {| mm_Parcel_ID := Str "10-001"; mm_info := blank_info;
         Field_MLS := "Below Grade Finished Area";
         Field_CAMA := "SUM(RECROMAREA, FINBSMTAREA, UFEATAREA)";
         MLS_Value := Str "nan"; CAMA_Value := Null;
         Difference := Some "Text difference"%string;
         Expected_CAMA_Value := None |} ].
Proof.
  pose proof (garbled_sum_reports_mismatch decimal_pandas NUMERIC_TOLERANCE
                SKIP_ZERO_VALUES garbled_cols
                [("Below Grade Finished Area", Str "nan"); ("RECROMAREA", Str "abc");
                 ("FINBSMTAREA", Num 150); ("UFEATAREA", Null)]%string
                (Str "10-001") blank_info no_fields basement_rule "RECROMAREA"%string
                decimal_pandas_nan_means_blank eq_refl) as Hthm.
  assert (Hcols : forall c, In c (cama_cols basement_rule) ->
                            in_columns c garbled_cols = true).
  { intros c [<- | [<- | [<- | []]]]; reflexivity. }
  destruct (Hthm Hcols (or_introl eq_refl) eq_refl eq_refl) as [_ Hemit].
  rewrite Hemit; reflexivity.
Defined.

(** ** Early returns *)

Section StepSkips.
Context `{Pandas}.
Variable tolerance : Q.
Variable skip_zero : bool.
Variable merged_cols : list string.
Variable row : Series.
Variable record_id : scalar.
Variable info : RowInfo.

Lemma direct_step_missing_column (st : RecordState) (mapping : DirectRule) :
  in_columns (mls_col mapping) merged_cols = false
  \/ in_columns (cama_col mapping) merged_cols = false ->
  direct_step tolerance skip_zero merged_cols row record_id info st mapping = st.
Proof.
  intros [E | E]; unfold direct_step; rewrite E; simpl.
  - reflexivity.
  - now rewrite orb_true_r.
Qed.

Lemma sum_step_missing_column (st : RecordState) (mapping : SumRule) :
  in_columns (sum_mls_col mapping) merged_cols = false
  \/ (exists c, In c (cama_cols mapping) /\ in_columns c merged_cols = false) ->
  sum_step tolerance skip_zero merged_cols row record_id info st mapping = st.
Proof.
  intros [E | [c [Hin E]]]; unfold sum_step.
  - now rewrite E.
  - destruct (negb (in_columns (sum_mls_col mapping) merged_cols)); [reflexivity|].
    assert (X : existsb (fun col => negb (in_columns col merged_cols))
                  (cama_cols mapping) = true).
    { apply existsb_exists. exists c. split; [exact Hin | now rewrite E]. }
    now rewrite X.
Qed.

Lemma categorical_step_missing_column (st : RecordState) (mapping : CategoricalRule) :
  in_columns (cat_mls_col mapping) merged_cols = false
  \/ in_columns (cat_cama_col mapping) merged_cols = false ->
  categorical_step tolerance merged_cols row record_id info st mapping = st.
Proof.
  intros [E | E]; unfold categorical_step; rewrite E; simpl.
  - reflexivity.
  - now destruct (negb (in_columns (cat_mls_col mapping) merged_cols)).
Qed.
End StepSkips.

(** C7, as stated, fails: with both key columns present and a sum rule and a
    categorical rule configured, the run still returns early because the list
    of direct rules is empty; it also returns early, with every rule list
    filled, when a frame is missing or the key mapping lacks an entry. *)
Lemma empty_direct_mapping_aborts :
  @compare_data_enhanced decimal_pandas NUMERIC_TOLERANCE SKIP_ZERO_VALUES
     (Some basement_mls) (Some basement_cama) UNIQUE_ID_COLUMN
     [] COLUMNS_TO_COMPARE_SUM COLUMNS_TO_COMPARE_CATEGORICAL
  = inl ColumnMappingEmpty
  /\ in_columns "Parcel Number" (columns basement_mls) = true
  /\ in_columns "PARID" (columns basement_cama) = true
  /\ COLUMNS_TO_COMPARE_SUM <> []
  /\ @compare_data_enhanced decimal_pandas NUMERIC_TOLERANCE SKIP_ZERO_VALUES
       (Some basement_mls) None UNIQUE_ID_COLUMN
       COLUMNS_TO_COMPARE COLUMNS_TO_COMPARE_SUM COLUMNS_TO_COMPARE_CATEGORICAL
     = inl DataframeMissing
  /\ @compare_data_enhanced decimal_pandas NUMERIC_TOLERANCE SKIP_ZERO_VALUES
       (Some basement_mls) (Some basement_cama)
       {| id_mls_col := Some "Parcel Number"%string; id_cama_col := None |}
       COLUMNS_TO_COMPARE COLUMNS_TO_COMPARE_SUM COLUMNS_TO_COMPARE_CATEGORICAL
     = inl UniqueIdIncomplete.
Proof. repeat split. discriminate. Qed.

(** C7, amended: the comparison returns early, with five empty tables,
    exactly when a frame is missing, the list of direct rules is empty
    (whatever the sum and categorical rules), the key mapping is incomplete,
    or the key column is absent from either frame; a rule that names a column
    absent from the merged frame leaves the record as it was.  (An error
    raised by pd.merge past these checks is no early return: it ends the
    run without any table.) *)
Theorem early_return_exactly_when :
  forall (P : Pandas) (tolerance : Q) (skip_zero : bool),
    (forall (df_mls df_cama : option DataFrame) (unique_id_col : UniqueId)
            (direct : list DirectRule) (sums : list SumRule)
            (cats : list CategoricalRule),
        let result := compare_data_enhanced tolerance skip_zero df_mls df_cama
                        unique_id_col direct sums cats in
        ((exists e, result = inl e /\ e <> MergeRaised) <->
         df_mls = None \/ df_cama = None \/ direct = []
         \/ id_mls_col unique_id_col = None \/ id_cama_col unique_id_col = None
         \/ (exists mls c, df_mls = Some mls /\ id_mls_col unique_id_col = Some c
                           /\ in_columns c (columns mls) = false)
         \/ (exists cama c, df_cama = Some cama /\ id_cama_col unique_id_col = Some c
                            /\ in_columns c (columns cama) = false))
        /\ ((exists e, result = inl e /\ e <> MergeRaised) ->
            returned_tables result = empty_tables))
    /\ (forall (merged_cols : list string) (row : Series) (record_id : scalar)
               (info : RowInfo) (st : RecordState),
          (forall mapping : DirectRule,
              in_columns (mls_col mapping) merged_cols = false
              \/ in_columns (cama_col mapping) merged_cols = false ->
              direct_step tolerance skip_zero merged_cols row record_id info st mapping
              = st)
          /\ (forall mapping : SumRule,
              in_columns (sum_mls_col mapping) merged_cols = false
              \/ (exists c, In c (cama_cols mapping) /\ in_columns c merged_cols = false) ->
              sum_step tolerance skip_zero merged_cols row record_id info st mapping
              = st)
          /\ (forall mapping : CategoricalRule,
              in_columns (cat_mls_col mapping) merged_cols = false
              \/ in_columns (cat_cama_col mapping) merged_cols = false ->
              categorical_step tolerance merged_cols row record_id info st mapping
              = st)).
Proof.
  intros P tolerance skip_zero. split.
  - intros df_mls df_cama uid direct sums cats result. split.
    + subst result. unfold compare_data_enhanced.
      destruct df_mls as [mls|];
        [| split; [tauto | intros _; eexists; split; [reflexivity | discriminate]]].
      destruct df_cama as [cama|];
        [| split; [tauto | intros _; eexists; split; [reflexivity | discriminate]]].
      destruct direct as [|d direct];
        [split; [tauto | intros _; eexists; split; [reflexivity | discriminate]]|].
      simpl is_nil. cbv iota.
      destruct (id_mls_col uid) as [mc|] eqn:Em;
        [| split; [tauto | intros _; eexists; split; [reflexivity | discriminate]]].
      destruct (id_cama_col uid) as [cc|] eqn:Ec;
        [| split; [tauto | intros _; eexists; split; [reflexivity | discriminate]]].
      destruct (in_columns mc (columns mls)) eqn:Im.
      * destruct (in_columns cc (columns cama)) eqn:Ic; simpl negb; cbv iota.
        -- split.
           ++ intros [e [He Hne]].
              destruct (merge_raises (key_column mls mc) (key_column cama cc)).
              ** injection He as <-. now elim Hne.
              ** discriminate He.
           ++ intros [D | [D | [D | [D | [D | [D | D]]]]]]; try discriminate D.
              ** destruct D as [m [c [D1 [D2 D3]]]].
                 injection D1 as <-. injection D2 as <-. congruence.
              ** destruct D as [m [c [D1 [D2 D3]]]].
                 injection D1 as <-. injection D2 as <-. congruence.
        -- split; [| intros _; eexists; split; [reflexivity | discriminate]].
           intros _. do 6 right. exists cama, cc. now repeat split.
      * split; [| intros _; eexists; split; [reflexivity | discriminate]].
        intros _. do 5 right. left. exists mls, mc. now repeat split.
    + intros [e [He Hne]]. rewrite He. reflexivity.
  - intros merged_cols row record_id info st. repeat split; intros mapping Hmiss.
    + now apply direct_step_missing_column.
    + now apply sum_step_missing_column.
    + now apply categorical_step_missing_column.
Qed.

(** A direct rule naming the column RMBED, which the merged frame lacks. *)
Lemma early_return_exactly_when_witness :
  @direct_step decimal_pandas NUMERIC_TOLERANCE SKIP_ZERO_VALUES
     ["PARID"; "Bedrooms Total"]%string
     [("PARID", Str "10-001"); ("Bedrooms Total", Num 3)]%string
     (Str "10-001") blank_info no_fields
     {| mls_col := "Bedrooms Total"; cama_col := "RMBED" |}
  = no_fields.
Proof.
  apply (proj2 (early_return_exactly_when decimal_pandas NUMERIC_TOLERANCE
                  SKIP_ZERO_VALUES)).
  right. reflexivity.
Defined.

(** ** Duplicate identifiers *)

Lemma key_eqb_refl (k : scalar) : key_eqb k k = true.
Proof.
  destruct k as [q|s|]; simpl.
  - apply Qeq_bool_refl.
  - apply String.eqb_refl.
  - reflexivity.
Qed.

Lemma key_eqb_sym (a b : scalar) : key_eqb a b = key_eqb b a.
Proof.
  destruct a as [x|s|], b as [y|t|]; simpl; try reflexivity.
  - apply Qeq_bool_comm.
  - apply String.eqb_sym.
Qed.

Section Counting.
Context {A : Type}.
Variable p : A -> bool.

Lemma filter_some (l : list A) :
  (0 < List.length (filter p l))%nat
  <-> exists j y, nth_error l j = Some y /\ p y = true.
Proof.
  induction l as [|a l IH]; simpl.
  - split; [lia | intros [[|j] [y [E _]]]; discriminate E].
  - destruct (p a) eqn:Pa; simpl.
    + split; [intros _; exists 0%nat, a; now split | lia].
    + rewrite IH. split.
      * intros [j [y [E Py]]]. exists (S j), y. now split.
      * intros [[|j] [y [E Py]]]; simpl in E.
        -- injection E as <-. congruence.
        -- now exists j, y.
Qed.

Lemma filter_more_than_one (l : list A) :
  (1 < List.length (filter p l))%nat
  <-> exists i j x y, (i < j)%nat /\ nth_error l i = Some x /\ nth_error l j = Some y
                      /\ p x = true /\ p y = true.
Proof.
  induction l as [|a l IH]; simpl.
  - split; [lia | intros [i [j [x [y [_ [E _]]]]]]; destruct i; discriminate E].
  - destruct (p a) eqn:Pa; simpl.
    + split.
      * intros Hlen. assert (Hpos : (0 < List.length (filter p l))%nat) by lia.
        apply filter_some in Hpos. destruct Hpos as [j [y [E Py]]].
        exists 0%nat, (S j), a, y. repeat split; auto; lia.
      * intros [i [j [x [y [Hij [Ei [Ej [Px Py]]]]]]]].
        destruct j as [|j]; [lia|]. simpl in Ej.
        assert (Hpos : (0 < List.length (filter p l))%nat)
          by (apply filter_some; now exists j, y).
        lia.
    + rewrite IH. split.
      * intros [i [j [x [y [Hij [Ei [Ej [Px Py]]]]]]]].
        exists (S i), (S j), x, y. repeat split; auto; lia.
      * intros [i [j [x [y [Hij [Ei [Ej [Px Py]]]]]]]].
        destruct j as [|j]; [lia|]. destruct i as [|i]; simpl in Ei, Ej.
        -- injection Ei as <-. congruence.
        -- exists i, j, x, y. repeat split; auto; lia.
Qed.
End Counting.

Lemma select_rows_map {B : Type} (g : B -> bool) (key : list scalar -> B)
    (rows : list (list scalar)) :
  select_rows (map g (map key rows)) rows = filter (fun r => g (key r)) rows.
Proof.
  unfold select_rows. induction rows as [|r rows IH]; simpl; [reflexivity|].
  destruct (g (key r)); simpl; now rewrite IH.
Qed.

Section Duplicates.
Variable d : DataFrame.
Variable id_column : string.

Lemma key_column_map : key_column d id_column = map (record_key d id_column) (data d).
Proof. unfold key_column, iterrows. now rewrite map_map. Qed.

Lemma duplicate_rows_filter :
  select_rows (duplicated (key_column d id_column)) (data d)
  = filter (occurs_twice d id_column) (data d).
Proof.
  unfold duplicated.
  set (g := fun k => (1 <? List.length (filter (key_eqb k) (key_column d id_column)))%nat).
  rewrite key_column_map.
  apply (select_rows_map g (record_key d id_column)).
Qed.

Lemma occurs_twice_spec (i : nat) (record : list scalar) :
  nth_error (data d) i = Some record ->
  (occurs_twice d id_column record = true
   <-> exists j other, i <> j /\ nth_error (data d) j = Some other
                       /\ key_eqb (record_key d id_column record)
                                  (record_key d id_column other) = true).
Proof.
  intro Ei. unfold occurs_twice. rewrite Nat.ltb_lt, filter_more_than_one.
  rewrite key_column_map. split.
  - intros [a [b [x [y [Hab [Ea [Eb [Px Py]]]]]]]].
    rewrite nth_error_map in Ea, Eb.
    destruct (nth_error (data d) a) as [ra|] eqn:Ra; [|discriminate Ea].
    destruct (nth_error (data d) b) as [rb|] eqn:Rb; [|discriminate Eb].
    simpl in Ea, Eb. injection Ea as <-. injection Eb as <-.
    destruct (Nat.eq_dec i a) as [->|Hne].
    + exists b, rb. repeat split; auto; lia.
    + exists a, ra. repeat split; auto.
  - intros [j [other [Hij [Ej Hk]]]].
    assert (Hi : nth_error (map (record_key d id_column) (data d)) i
                 = Some (record_key d id_column record))
      by (rewrite nth_error_map, Ei; reflexivity).
    assert (Hj : nth_error (map (record_key d id_column) (data d)) j
                 = Some (record_key d id_column other))
      by (rewrite nth_error_map, Ej; reflexivity).
    destruct (Nat.lt_ge_cases i j) as [Hlt | Hge].
    + exists i, j, (record_key d id_column record), (record_key d id_column other).
      repeat split; auto. apply key_eqb_refl.
    + exists j, i, (record_key d id_column other), (record_key d id_column record).
      repeat split; auto; [lia | apply key_eqb_refl].
Qed.
Lemma find_duplicate_ids_result :
  in_columns id_column (columns d) = true ->
  find_duplicate_ids (Some d) id_column
  = (let dups := filter (occurs_twice d id_column) (data d) in
     if unorderable (map (record_key d id_column) dups) then None
     else Some (if is_nil dups then empty_frame
                else {| columns := columns d; data := dups |})).
Proof.
  intro Hcol. unfold find_duplicate_ids. rewrite Hcol. simpl negb.
  destruct (df_empty d) eqn:Hemp.
  - unfold df_empty in Hemp. apply orb_true_iff in Hemp.
    destruct Hemp as [Hd | Hc].
    + destruct (data d); [reflexivity | discriminate Hd].
    + destruct (columns d); [discriminate Hcol | discriminate Hc].
  - cbv iota zeta. cbn [data]. rewrite duplicate_rows_filter.
    destruct (filter (occurs_twice d id_column) (data d)) as [|x rest] eqn:Ef.
    + reflexivity.
    + cbn [is_nil negb]. cbv iota.
      unfold key_column, iterrows. cbn [columns data]. rewrite map_map.
      reflexivity.
Qed.

(** What find_duplicate_ids returns, when it returns. *)
Lemma find_duplicate_ids_returns (r : DataFrame) :
  in_columns id_column (columns d) = true ->
  find_duplicate_ids (Some d) id_column = Some r ->
  r = match filter (occurs_twice d id_column) (data d) with
      | [] => empty_frame
      | dups => {| columns := columns d; data := dups |}
      end
  /\ unorderable (map (record_key d id_column)
                    (filter (occurs_twice d id_column) (data d))) = false.
Proof.
  intros Hcol Hfind. rewrite (find_duplicate_ids_result Hcol) in Hfind.
  cbv zeta in Hfind.
  destruct (unorderable _); [discriminate Hfind|].
  injection Hfind as <-. split; [|reflexivity].
  now destruct (filter (occurs_twice d id_column) (data d)).
Qed.
End Duplicates.

(** C10: on the frame [mixed_mls], whose duplicated keys are a text and a
    number, the check does not return the four duplicated records: printing
    them in order raises an error that nothing catches, and the main block
    ends there, before the comparison. *)
Theorem duplicate_check_raises_on_mixed_keys :
  in_columns "Parcel Number" (columns mixed_mls) = true
  /\ List.length (filter (occurs_twice mixed_mls "Parcel Number") (data mixed_mls))
     = 4%nat
  /\ find_duplicate_ids (Some mixed_mls) "Parcel Number" = None
  /\ @main decimal_pandas (Some mixed_mls) (Some bedrooms_cama) = Raised.
Proof. repeat split. Qed.

(** X20: on a frame that has the key column, the duplicates are the records
    whose key is shared with a record at another position: every such
    record, each as often as it occurs and in the frame's order, and no
    other.  find_duplicate_ids returns them, under the frame's columns,
    unless their keys hold both a text and a number, in which case it
    raises.  The main block runs both checks before the comparison: if one
    of them raises, nothing is compared; otherwise the comparison is that of
    the two frames as they were loaded, whatever the checks found. *)
Theorem find_duplicate_ids_exact :
  forall (d : DataFrame) (id_column : string),
    in_columns id_column (columns d) = true ->
    exists keep : list scalar -> bool,
      (forall (i : nat) (record : list scalar),
          nth_error (data d) i = Some record ->
          (keep record = true
           <-> exists j other,
                 i <> j
                 /\ nth_error (data d) j = Some other
                 /\ key_eqb (record_key d id_column record)
                            (record_key d id_column other) = true))
      /\ find_duplicate_ids (Some d) id_column
         = (let dups := filter keep (data d) in
            if unorderable (map (record_key d id_column) dups) then None
            else Some (if is_nil dups then empty_frame
                       else {| columns := columns d; data := dups |}))
      /\ (forall (P : Pandas) (mls cama : DataFrame),
             in_columns "Parcel Number" (columns mls) = true ->
             in_columns "PARID" (columns cama) = true ->
             main (Some mls) (Some cama)
             = match find_duplicate_ids (Some mls) "Parcel Number",
                     find_duplicate_ids (Some cama) "PARID" with
               | Some dup_mls, Some dup_cama =>
                   match compare_data_enhanced NUMERIC_TOLERANCE SKIP_ZERO_VALUES
                           (Some mls) (Some cama) UNIQUE_ID_COLUMN COLUMNS_TO_COMPARE
                           COLUMNS_TO_COMPARE_SUM COLUMNS_TO_COMPARE_CATEGORICAL with
                   | inl MergeRaised => Raised
                   | result => Compared dup_mls dup_cama result
                   end
               | _, _ => Raised
               end).
Proof.
  intros d id_column Hcol.
  exists (occurs_twice d id_column). split; [|split].
  - intros i record Ei. now apply occurs_twice_spec.
  - now apply find_duplicate_ids_result.
  - intros P mls cama Hm Hc. unfold main.
    simpl id_mls_col. simpl id_cama_col. cbv iota.
    rewrite Hm, Hc. simpl negb. cbv iota.
    destruct (find_duplicate_ids (Some mls) "Parcel Number"); [|reflexivity].
    destruct (find_duplicate_ids (Some cama) "PARID"); reflexivity.
Qed.

(** ** Outcome buckets *)

Section BucketFacts.
Context `{Pandas}.
Variable tolerance : Q.
Variable skip_zero : bool.
Variable cama_id_col_name : string.
Variable merged_cols : list string.
Variable direct : list DirectRule.
Variable sums : list SumRule.
Variable cats : list CategoricalRule.

Let visit := visit_row tolerance skip_zero cama_id_col_name merged_cols direct sums cats.
Let contrib := contribution tolerance skip_zero cama_id_col_name merged_cols direct sums cats.
Let state_of (mrow : MergedRow) : RecordState :=
  compare_record tolerance skip_zero merged_cols (fields mrow)
    (row_get (fields mrow) cama_id_col_name Null) (row_info (fields mrow))
    direct sums cats.

(** A row adds to the accumulated lists what it adds to empty ones. *)
Lemma visit_row_appends (acc : Lists) (mrow : MergedRow) :
  missing_in_cama (visit acc mrow) = missing_in_cama acc ++ missing_in_cama (contrib mrow)
  /\ missing_in_mls (visit acc mrow) = missing_in_mls acc ++ missing_in_mls (contrib mrow)
  /\ value_mismatches (visit acc mrow)
     = value_mismatches acc ++ value_mismatches (contrib mrow)
  /\ perfect_matches (visit acc mrow)
     = perfect_matches acc ++ perfect_matches (contrib mrow).
Proof.
  unfold visit, contrib, contribution, visit_row.
  destruct (_merge mrow); simpl; rewrite ?app_nil_r; repeat split; try reflexivity.
  match goal with |- context [if ?c then _ else _] => destruct c end;
    simpl; now rewrite ?app_nil_r.
Qed.

Lemma fold_visit_rows (rows : list MergedRow) (acc : Lists) :
  let out := fold_left visit rows acc in
  missing_in_cama out
  = missing_in_cama acc ++ flat_map (fun r => missing_in_cama (contrib r)) rows
  /\ missing_in_mls out
     = missing_in_mls acc ++ flat_map (fun r => missing_in_mls (contrib r)) rows
  /\ value_mismatches out
     = value_mismatches acc ++ flat_map (fun r => value_mismatches (contrib r)) rows
  /\ perfect_matches out
     = perfect_matches acc ++ flat_map (fun r => perfect_matches (contrib r)) rows.
Proof.
  revert acc. induction rows as [|r rows IH]; intro acc; simpl.
  - now rewrite !app_nil_r.
  - destruct (IH (visit acc r)) as [I1 [I2 [I3 I4]]].
    destruct (visit_row_appends acc r) as [V1 [V2 [V3 V4]]].
    rewrite I1, I2, I3, I4, V1, V2, V3, V4, <- !app_assoc. auto.
Qed.

(** The shape of a contribution, by merge status. *)
Lemma contribution_left_only (mrow : MergedRow) :
  _merge mrow = left_only ->
  missing_in_cama (contrib mrow)
  = [{| mc_Parcel_ID := row_get (fields mrow) cama_id_col_name Null;
        mc_Listing_Number := row_get (fields mrow) "Listing #" (Str "");
        mc_Closed_Date := row_get (fields mrow) "Closed Date" (Str "") |}]
  /\ missing_in_mls (contrib mrow) = []
  /\ value_mismatches (contrib mrow) = []
  /\ perfect_matches (contrib mrow) = [].
Proof.
  intro E. unfold contrib, contribution, visit_row. rewrite E. simpl. auto.
Qed.

Lemma contribution_right_only (mrow : MergedRow) :
  _merge mrow = right_only ->
  missing_in_cama (contrib mrow) = []
  /\ missing_in_mls (contrib mrow) = [row_get (fields mrow) cama_id_col_name Null]
  /\ value_mismatches (contrib mrow) = []
  /\ perfect_matches (contrib mrow) = [].
Proof.
  intro E. unfold contrib, contribution, visit_row. rewrite E. simpl. auto.
Qed.

Lemma contribution_both (mrow : MergedRow) :
  _merge mrow = both ->
  missing_in_cama (contrib mrow) = []
  /\ missing_in_mls (contrib mrow) = []
  /\ value_mismatches (contrib mrow) = record_mismatches (state_of mrow)
  /\ perfect_matches (contrib mrow)
     = if is_nil (record_mismatches (state_of mrow))
          && negb (is_nil (fields_compared (state_of mrow)))
       then [{| pm_Parcel_ID := row_get (fields mrow) cama_id_col_name Null;
                pm_info := row_info (fields mrow);
                Fields_Compared := List.length (fields_compared (state_of mrow));
                Fields_List := join ", " (fields_compared (state_of mrow)) |}]
       else [].
Proof.
  intro E. unfold contrib, contribution, visit_row, state_of. rewrite E. simpl.
  auto.
Qed.

(** Every merged row is in one bucket and in no other. *)
Lemma row_in_one_bucket (mrow : MergedRow) :
  exists b : Bucket,
    in_bucket b (contrib mrow)
    /\ (forall b', in_bucket b' (contrib mrow) -> b' = b)
    /\ match _merge mrow with
       | left_only => b = MissingInB
       | right_only => b = MissingInA
       | both =>
           match record_mismatches (state_of mrow), fields_compared (state_of mrow) with
           | _ :: _, _ => b = Mismatched
           | [], _ :: _ => b = PerfectMatched
           | [], [] => b = Skipped
           end
       end.
Proof.
  destruct (_merge mrow) eqn:E.
  - destruct (contribution_left_only mrow E) as [C1 [C2 [C3 C4]]].
    exists MissingInB. repeat split.
    + simpl. rewrite C1. discriminate.
    + intros [] Hb; simpl in Hb; try reflexivity; try congruence.
      destruct Hb as [Hb _]. rewrite C1 in Hb. discriminate Hb.
  - destruct (contribution_right_only mrow E) as [C1 [C2 [C3 C4]]].
    exists MissingInA. repeat split.
    + simpl. rewrite C2. discriminate.
    + intros [] Hb; simpl in Hb; try reflexivity; try congruence.
      destruct Hb as [_ [Hb _]]. rewrite C2 in Hb. discriminate Hb.
  - destruct (contribution_both mrow E) as [C1 [C2 [C3 C4]]].
    destruct (record_mismatches (state_of mrow)) as [|m ms] eqn:Em.
    + destruct (fields_compared (state_of mrow)) as [|f fs] eqn:Ef; simpl in C4.
      * exists Skipped. repeat split; auto.
        intros [] Hb; simpl in Hb; try reflexivity; congruence.
      * exists PerfectMatched. repeat split.
        -- simpl. rewrite C4. discriminate.
        -- intros [] Hb; simpl in Hb; try reflexivity; try congruence.
           destruct Hb as [_ [_ [_ Hb]]]. rewrite C4 in Hb. discriminate Hb.
    + simpl in C4. exists Mismatched. repeat split.
      * simpl. rewrite C3. discriminate.
      * intros [] Hb; simpl in Hb; try reflexivity; try congruence.
        destruct Hb as [_ [_ [Hb _]]]. rewrite C3 in Hb. discriminate Hb.
Qed.
End BucketFacts.

(** ** The record merger *)

Lemma insert_row_perm (key : string) (mrow : MergedRow) (rows : list MergedRow) :
  Permutation (insert_row key mrow rows) (mrow :: rows).
Proof.
  induction rows as [|x rows IH]; simpl; [apply Permutation_refl|].
  destruct (key_leb (join_key key mrow) (join_key key x)).
  - apply Permutation_refl.
  - apply Permutation_trans with (x :: mrow :: rows).
    + now apply perm_skip.
    + apply perm_swap.
Qed.

(** Ordering the rows keeps every row, each as often as it occurs. *)
Lemma sort_rows_perm (key : string) (rows : list MergedRow) :
  Permutation (sort_rows key rows) rows.
Proof.
  induction rows as [|x rows IH]; simpl; [apply perm_nil|].
  apply Permutation_trans with (x :: sort_rows key rows).
  - apply insert_row_perm.
  - now apply perm_skip.
Qed.

Lemma Permutation_filter {A : Type} (p : A -> bool) (l l' : list A) :
  Permutation l l' -> Permutation (filter p l) (filter p l').
Proof.
  induction 1 as [|x l l' Hp IH|x y l|l l' l'' H1 IH1 H2 IH2]; simpl.
  - apply perm_nil.
  - destruct (p x); [now apply perm_skip | exact IH].
  - destruct (p x), (p y); try apply Permutation_refl. apply perm_swap.
  - now apply Permutation_trans with (filter p l').
Qed.

Lemma in_columns_In (c : string) (cols : list string) :
  in_columns c cols = true <-> In c cols.
Proof.
  unfold in_columns. rewrite existsb_exists. split.
  - intros [x [Hin E]]. apply String.eqb_eq in E. now subst x.
  - intro Hin. exists c. split; [exact Hin | apply String.eqb_refl].
Qed.

Lemma count_occ_map_pos (f : string -> string) (l : list string) (a k : string) :
  In a l -> f a = k -> (1 <= count_occ string_dec (map f l) k)%nat.
Proof.
  intros Hin E. apply (count_occ_In string_dec). rewrite <- E. now apply in_map.
Qed.

Lemma count_occ_map_two (f : string -> string) (l : list string) (a b k : string) :
  a <> b -> In a l -> In b l -> f a = k -> f b = k ->
  (2 <= count_occ string_dec (map f l) k)%nat.
Proof.
  intros Hab Ha Hb Ea Eb. induction l as [|x l IH]; simpl in *; [contradiction|].
  destruct Ha as [-> | Ha], Hb as [-> | Hb].
  - congruence.
  - destruct (string_dec (f a) k); [|congruence].
    pose proof (count_occ_map_pos f l b k Hb Eb). lia.
  - destruct (string_dec (f b) k); [|congruence].
    pose proof (count_occ_map_pos f l a k Ha Ea). lia.
  - pose proof (IH Ha Hb). destruct (string_dec (f x) k); lia.
Qed.

Lemma relabel_combine (f : string -> string) (cols : list string)
    (record : list scalar) :
  relabel f (combine cols record) = combine (map f cols) record.
Proof.
  revert record. induction cols as [|c cols IH]; intros [|v record]; simpl;
    try reflexivity.
  now rewrite <- IH.
Qed.

(** Looking a column up after its labels were rewritten by [g], when [g]
    sends no other column of the record to the sought label. *)
Lemma row_get_relabelled (g : string -> string) (k k' : string)
    (cols : list string) (record : list scalar) (rest : Series) (d : scalar) :
  (forall c, In c cols -> g c = k' -> c = k) ->
  g k = k' ->
  In k cols ->
  (List.length cols <= List.length record)%nat ->
  row_get (combine (map g cols) record ++ rest) k' d
  = row_get (combine cols record) k d.
Proof.
  revert record. induction cols as [|c cols IH]; intros record Hinj Hk Hin Hlen.
  - destruct Hin.
  - destruct record as [|v record]; [simpl in Hlen; lia|]. simpl.
    destruct (String.eqb (g c) k') eqn:E1.
    + apply String.eqb_eq in E1.
      assert (c = k) by (apply Hinj; [now left | exact E1]). subst c.
      now rewrite String.eqb_refl.
    + destruct (String.eqb c k) eqn:E2.
      * apply String.eqb_eq in E2. subst c.
        rewrite Hk, String.eqb_refl in E1. discriminate E1.
      * apply IH.
        -- intros c' Hc'. apply Hinj. now right.
        -- exact Hk.
        -- destruct Hin as [-> | Hin]; [|exact Hin].
           rewrite String.eqb_refl in E2. discriminate E2.
        -- simpl in Hlen. lia.
Qed.

Lemma row_get_key_filled (f : string -> string) (key : string)
    (lcols : list string) (kv : scalar) (rest : Series) (d : scalar) :
  (forall c, In c lcols -> f c = key -> c = key) ->
  f key = key ->
  In key lcols ->
  row_get (map (fun c => (f c, if String.eqb c key then kv else Null)) lcols ++ rest)
    key d = kv.
Proof.
  intros Hinj Hk. induction lcols as [|c lcols IH]; intro Hin; [destruct Hin|].
  simpl. destruct (String.eqb (f c) key) eqn:E1.
  - apply String.eqb_eq in E1.
    assert (c = key) by (apply Hinj; [now left | exact E1]). subst c.
    now rewrite String.eqb_refl.
  - apply IH.
    + intros c' Hc'. apply Hinj. now right.
    + destruct Hin as [-> | Hin]; [|exact Hin].
      rewrite Hk, String.eqb_refl in E1. discriminate E1.
Qed.

Section MergeFacts.
Variables key mls_id : string.
Variables cols rcols : list string.   (* the columns of the two frames *)

Let lcols := rename_columns mls_id key cols.
Let ren (c : string) : string := if String.eqb c mls_id then key else c.
Let llabel := left_label key rcols.

Hypothesis key_once : names_one_column key (merged_columns key lcols rcols) = true.
Hypothesis mls_id_present : In mls_id cols.

Lemma left_label_key : llabel key = key.
Proof.
  unfold llabel, left_label, with_suffix. now rewrite String.eqb_refl.
Qed.

Lemma ren_mls_id : ren mls_id = key.
Proof. unfold ren. now rewrite String.eqb_refl. Qed.

Lemma key_once_left : (count_occ string_dec (map llabel lcols) key <= 1)%nat.
Proof.
  unfold names_one_column, merged_columns in key_once.
  apply Nat.eqb_eq in key_once. rewrite count_occ_app in key_once.
  unfold llabel. lia.
Qed.

Lemma only_mls_id_becomes_key (c : string) :
  In c cols -> llabel (ren c) = key -> c = mls_id.
Proof.
  intros Hin E. destruct (string_dec c mls_id) as [|Hne]; [assumption|].
  assert (Ek : llabel (ren mls_id) = key)
    by (rewrite ren_mls_id; apply left_label_key).
  pose proof (count_occ_map_two (fun c => llabel (ren c)) cols c mls_id key
                Hne Hin mls_id_present E Ek) as Htwo.
  pose proof key_once_left as Hone.
  unfold lcols, rename_columns in Hone. rewrite map_map in Hone.
  unfold ren in Htwo. lia.
Qed.

Lemma only_key_is_labelled_key (c : string) :
  In c lcols -> llabel c = key -> c = key.
Proof.
  unfold lcols, rename_columns. rewrite in_map_iff.
  intros [c0 [<- Hin]] E. fold (ren c0) in *.
  rewrite (only_mls_id_becomes_key c0 Hin E). apply ren_mls_id.
Qed.

Lemma key_in_lcols : In key lcols.
Proof.
  unfold lcols, rename_columns. apply in_map_iff.
  exists mls_id. split; [apply ren_mls_id | exact mls_id_present].
Qed.

(** The identifier read from a merged row is the key of the MLS record it
    was built from. *)
Lemma record_id_left (record : list scalar) (rest : Series) :
  (List.length cols <= List.length record)%nat ->
  row_get (left_part key rcols (combine lcols record) ++ rest) key Null
  = row_get (combine cols record) mls_id Null.
Proof.
  intro Hlen. unfold left_part. rewrite relabel_combine.
  unfold lcols, rename_columns. rewrite map_map.
  apply (row_get_relabelled (fun c => left_label key rcols (ren c)) mls_id key).
  - intros c Hin E. now apply only_mls_id_becomes_key.
  - rewrite ren_mls_id. apply left_label_key.
  - exact mls_id_present.
  - exact Hlen.
Qed.

Lemma row_key_left (record : list scalar) :
  (List.length cols <= List.length record)%nat ->
  row_key key (combine lcols record) = row_get (combine cols record) mls_id Null.
Proof.
  intro Hlen. unfold row_key, lcols, rename_columns.
  rewrite <- (app_nil_r (combine _ record)).
  apply (row_get_relabelled ren mls_id key).
  - intros c Hin E. apply only_mls_id_becomes_key; [exact Hin|].
    rewrite E. apply left_label_key.
  - apply ren_mls_id.
  - exact mls_id_present.
  - exact Hlen.
Qed.

Lemma record_id_right_only (r : Series) :
  row_get (fields (row_right_only key lcols rcols r)) key Null = row_key key r.
Proof.
  unfold row_right_only. simpl fields.
  apply (row_get_key_filled (left_label key rcols)).
  - apply only_key_is_labelled_key.
  - apply left_label_key.
  - apply key_in_lcols.
Qed.
End MergeFacts.

Section OuterJoin.
Variable key : string.
Variables lcols rcols : list string.
Variables left right : list Series.

Let merged := merge_outer key lcols rcols left right.

Lemma merged_In (mrow : MergedRow) :
  In mrow merged <-> In mrow (outer_rows key lcols rcols left right).
Proof.
  unfold merged, merge_outer. split; apply Permutation_in.
  - apply sort_rows_perm.
  - apply Permutation_sym, sort_rows_perm.
Qed.

Lemma left_row_is_merged (l : Series) :
  In l left ->
  In (row_left_only key lcols rcols l) merged
  \/ exists r, In r right /\ key_eqb (row_key key l) (row_key key r) = true
               /\ In (row_both key lcols rcols l r) merged.
Proof.
  intro Hin. setoid_rewrite merged_In. unfold outer_rows.
  destruct (matches_of key l right) as [|r ms] eqn:Em.
  - left. apply in_or_app. left. apply in_flat_map. exists l. split; [exact Hin|].
    rewrite Em. now left.
  - right. exists r.
    assert (Hr : In r (matches_of key l right)) by (rewrite Em; now left).
    unfold matches_of in Hr. apply filter_In in Hr. destruct Hr as [Hr Hk].
    repeat split; auto.
    apply in_or_app. left. apply in_flat_map. exists l. split; [exact Hin|].
    rewrite Em. now left.
Qed.

Lemma right_row_is_merged (r : Series) :
  In r right ->
  In (row_right_only key lcols rcols r) merged
  \/ exists l, In l left /\ key_eqb (row_key key l) (row_key key r) = true
               /\ In (row_both key lcols rcols l r) merged.
Proof.
  intro Hin. setoid_rewrite merged_In. unfold outer_rows.
  destruct (has_match key left r) eqn:Hm.
  - right. unfold has_match in Hm. apply existsb_exists in Hm.
    destruct Hm as [l [Hl Hk]]. exists l. repeat split; auto.
    apply in_or_app. left. apply in_flat_map. exists l. split; [exact Hl|].
    assert (Hr : In r (matches_of key l right))
      by (unfold matches_of; apply filter_In; now split).
    destruct (matches_of key l right) as [|r0 ms]; [destruct Hr|].
    now apply in_map.
  - left. apply in_or_app. right. apply in_map. apply filter_In.
    split; [exact Hin | now rewrite Hm].
Qed.

Lemma merged_row_origin (mrow : MergedRow) :
  In mrow merged ->
  (exists l, In l left /\ mrow = row_left_only key lcols rcols l)
  \/ (exists l r, In l left /\ In r right
                  /\ key_eqb (row_key key l) (row_key key r) = true
                  /\ mrow = row_both key lcols rcols l r)
  \/ (exists r, In r right /\ mrow = row_right_only key lcols rcols r).
Proof.
  intro Hin. apply merged_In in Hin. unfold outer_rows in Hin.
  apply in_app_or in Hin.
  destruct Hin as [Hin | Hin].
  - apply in_flat_map in Hin. destruct Hin as [l [Hl Hin]].
    destruct (matches_of key l right) as [|r0 ms] eqn:Em.
    + destruct Hin as [<- | []]. left. now exists l.
    + right. left. apply in_map_iff in Hin. destruct Hin as [r [<- Hr]].
      rewrite <- Em in Hr. unfold matches_of in Hr. apply filter_In in Hr.
      destruct Hr as [Hr Hk]. exists l, r. auto.
  - right. right. apply in_map_iff in Hin. destruct Hin as [r [<- Hr]].
    apply filter_In in Hr. destruct Hr as [Hr _]. now exists r.
Qed.

(** A row of one side only has no partner on the other side. *)
Lemma merged_row_partners (mrow : MergedRow) :
  In mrow merged ->
  (_merge mrow = left_only ->
   exists l, In l left /\ mrow = row_left_only key lcols rcols l
             /\ forall r, In r right ->
                          key_eqb (row_key key l) (row_key key r) = false)
  /\ (_merge mrow = right_only ->
      exists r, In r right /\ mrow = row_right_only key lcols rcols r
                /\ forall l, In l left ->
                             key_eqb (row_key key l) (row_key key r) = false).
Proof.
  intro Hin. apply merged_In in Hin. unfold outer_rows in Hin.
  apply in_app_or in Hin.
  destruct Hin as [Hin | Hin].
  - apply in_flat_map in Hin. destruct Hin as [l [Hl Hin]].
    destruct (matches_of key l right) as [|r0 ms] eqn:Em.
    + destruct Hin as [<- | []]. split; [|discriminate].
      intros _. exists l. split; [exact Hl|]. split; [reflexivity|].
      intros r Hr. destruct (key_eqb (row_key key l) (row_key key r)) eqn:Hk;
        [|reflexivity].
      assert (Hm : In r (matches_of key l right))
        by (unfold matches_of; apply filter_In; now split).
      rewrite Em in Hm. destruct Hm.
    + apply in_map_iff in Hin. destruct Hin as [r [<- _]].
      split; discriminate.
  - apply in_map_iff in Hin. destruct Hin as [r [<- Hr]].
    apply filter_In in Hr. destruct Hr as [Hr Hno].
    split; [discriminate|]. intros _. exists r. split; [exact Hr|].
    split; [reflexivity|].
    intros l Hl. destruct (key_eqb (row_key key l) (row_key key r)) eqn:Hk;
      [|reflexivity].
    assert (Hm : has_match key left r = true)
      by (unfold has_match; apply existsb_exists; now exists l).
    rewrite Hm in Hno. discriminate Hno.
Qed.

(** Two rows with the same key are joined. *)
Lemma matched_pair_is_merged (l r : Series) :
  In l left -> In r right ->
  key_eqb (row_key key l) (row_key key r) = true ->
  In (row_both key lcols rcols l r) merged.
Proof.
  intros Hl Hr Hk. apply merged_In. unfold outer_rows.
  apply in_or_app. left. apply in_flat_map. exists l. split; [exact Hl|].
  assert (Hm : In r (matches_of key l right))
    by (unfold matches_of; apply filter_In; now split).
  destruct (matches_of key l right) as [|r0 ms]; [destruct Hm|].
  now apply in_map.
Qed.
End OuterJoin.

(** ** What the rules of a matched row can do to its two lists *)

Section StepShapes.
Context `{Pandas}.
Variable tolerance : Q.
Variable skip_zero : bool.
Variable merged_cols : list string.
Variable row : Series.
Variable record_id : scalar.
Variable info : RowInfo.

Lemma direct_step_shape (st : RecordState) (mapping : DirectRule) :
  one_rule record_id st (direct_step tolerance skip_zero merged_cols row record_id info st mapping).
Proof.
  unfold one_rule, direct_step.
  repeat match goal with
         | |- context [if ?c then _ else _] => destruct c
         end;
    first [ now left
          | right; left; eexists; reflexivity
          | right; right; eexists; eexists; split; [|reflexivity]; reflexivity ].
Qed.

Lemma sum_step_shape (st : RecordState) (mapping : SumRule) :
  one_rule record_id st (sum_step tolerance skip_zero merged_cols row record_id info st mapping).
Proof.
  unfold one_rule, sum_step.
  destruct (sum_cama row (cama_cols mapping)) as [cama_sum all_cama_blank].
  repeat match goal with
         | |- context [if ?c then _ else _] => destruct c
         end;
    first [ now left
          | right; left; eexists; reflexivity
          | right; right; eexists; eexists; split; [|reflexivity]; reflexivity ].
Qed.

Lemma categorical_step_shape (st : RecordState) (mapping : CategoricalRule) :
  one_rule record_id st (categorical_step tolerance merged_cols row record_id info st mapping).
Proof.
  unfold one_rule, categorical_step.
  repeat match goal with
         | |- context [if ?c then _ else _] => destruct c
         end;
    first [ now left
          | right; left; eexists; reflexivity
          | right; right; eexists; eexists; split; [|reflexivity]; reflexivity ].
Qed.

Lemma one_rule_sound (st st' : RecordState) :
  one_rule record_id st st' -> sound_state record_id st -> sound_state record_id st'.
Proof.
  intros [-> | [[f ->] | [f [m [Hm ->]]]]] [Hlen Hall]; unfold sound_state; simpl.
  - now split.
  - rewrite length_app. simpl. split; [lia | exact Hall].
  - rewrite !length_app. simpl. split; [lia|].
    apply Forall_app. split; [exact Hall | now constructor].
Qed.

Lemma fold_sound {R : Type} (step : RecordState -> R -> RecordState)
    (rules : list R) (st : RecordState) :
  (forall st r, one_rule record_id st (step st r)) ->
  sound_state record_id st -> sound_state record_id (fold_left step rules st).
Proof.
  intro Hstep. revert st. induction rules as [|r rules IH]; intros st Hst; simpl.
  - exact Hst.
  - apply IH. eapply one_rule_sound; [apply Hstep | exact Hst].
Qed.

Lemma direct_step_counts (st : RecordState) (mapping : DirectRule) :
  fields_compared
    (direct_step tolerance skip_zero merged_cols row record_id info st mapping)
  = if direct_rule_blank merged_cols row mapping then fields_compared st
    else fields_compared st ++ [mls_col mapping].
Proof.
  unfold direct_step, direct_rule_blank.
  destruct (in_columns (mls_col mapping) merged_cols),
           (in_columns (cama_col mapping) merged_cols); simpl; try reflexivity.
  destruct (is_blank (row_get row (mls_col mapping) Null)),
           (is_blank (row_get row (cama_col mapping) Null)); simpl; try reflexivity.
  repeat match goal with
         | |- context [if ?c then _ else _] => destruct c
         end; reflexivity.
Qed.

Lemma sum_step_counts (st : RecordState) (mapping : SumRule) :
  fields_compared
    (sum_step tolerance skip_zero merged_cols row record_id info st mapping)
  = if sum_rule_blank merged_cols row mapping then fields_compared st
    else fields_compared st ++ [sum_mls_col mapping].
Proof.
  unfold sum_step, sum_rule_blank.
  rewrite <- (sum_cama_flag row (cama_cols mapping)).
  destruct (in_columns (sum_mls_col mapping) merged_cols); simpl; [|reflexivity].
  destruct (existsb (fun col => negb (in_columns col merged_cols)) (cama_cols mapping));
    simpl; [reflexivity|].
  destruct (is_blank (row_get row (sum_mls_col mapping) Null)); simpl; [reflexivity|].
  destruct (sum_cama row (cama_cols mapping)) as [cama_sum all_cama_blank].
  simpl snd. destruct all_cama_blank; [reflexivity|].
  repeat match goal with
         | |- context [if ?c then _ else _] => destruct c
         end; reflexivity.
Qed.

Lemma categorical_step_counts (st : RecordState) (mapping : CategoricalRule) :
  fields_compared
    (categorical_step tolerance merged_cols row record_id info st mapping)
  = if categorical_rule_blank merged_cols row mapping then fields_compared st
    else fields_compared st ++ [cat_mls_col mapping].
Proof.
  unfold categorical_step, categorical_rule_blank.
  destruct (in_columns (cat_mls_col mapping) merged_cols),
           (in_columns (cat_cama_col mapping) merged_cols); simpl; try reflexivity.
  destruct (is_blank (row_get row (cat_mls_col mapping) Null)),
           (is_blank (row_get row (cat_cama_col mapping) Null)); simpl; try reflexivity.
  repeat match goal with
         | |- context [if ?c then _ else _] => destruct c
         end; reflexivity.
Qed.

Lemma fold_counts_none {R : Type} (step : RecordState -> R -> RecordState)
    (blank : R -> bool) (col : R -> string) (rules : list R) :
  (forall st r, fields_compared (step st r)
                = if blank r then fields_compared st
                  else fields_compared st ++ [col r]) ->
  forall st : RecordState,
    fields_compared (fold_left step rules st) = []
    <-> fields_compared st = [] /\ forallb blank rules = true.
Proof.
  intro Hstep. induction rules as [|r rules IH]; intro st; simpl.
  - tauto.
  - rewrite IH, Hstep. destruct (blank r); simpl.
    + tauto.
    + split.
      * intros [E _]. destruct (fields_compared st); discriminate E.
      * intros [_ E]. discriminate E.
Qed.

(** No field is counted exactly when no rule has anything to compare. *)
Lemma compare_record_counts_none (direct : list DirectRule) (sums : list SumRule)
    (cats : list CategoricalRule) :
  fields_compared
    (compare_record tolerance skip_zero merged_cols row record_id info
       direct sums cats) = []
  <-> nothing_to_compare merged_cols row direct sums cats = true.
Proof.
  unfold compare_record, nothing_to_compare.
  rewrite (fold_counts_none _ _ cat_mls_col cats categorical_step_counts).
  rewrite (fold_counts_none _ _ sum_mls_col sums sum_step_counts).
  rewrite (fold_counts_none _ _ mls_col direct direct_step_counts).
  rewrite !andb_true_iff. simpl. tauto.
Qed.

Lemma filter_blank_rules {R : Type} (blank compared : R -> bool) (rules : list R) :
  (forall r, blank r = true -> compared r = false) ->
  forallb blank rules = true -> filter compared rules = [].
Proof.
  intros Himp. induction rules as [|r rules IH]; simpl; [reflexivity|].
  intro E. apply andb_true_iff in E. destruct E as [Er El].
  rewrite (Himp r Er). now apply IH.
Qed.

(** With nothing to compare, no field is compared in the specification's
    sense either. *)
Lemma nothing_to_compare_spec (direct : list DirectRule) (sums : list SumRule)
    (cats : list CategoricalRule) :
  nothing_to_compare merged_cols row direct sums cats = true ->
  spec_fields_compared skip_zero merged_cols row direct sums cats = 0%nat.
Proof.
  unfold nothing_to_compare, spec_fields_compared. rewrite !andb_true_iff.
  intros [[Hd Hs] Hc].
  rewrite (filter_blank_rules (direct_rule_blank merged_cols row) _ direct),
          (filter_blank_rules (sum_rule_blank merged_cols row) _ sums),
          (filter_blank_rules (categorical_rule_blank merged_cols row) _ cats);
    try assumption; try reflexivity.
  - intros r E. unfold spec_compared_categorical. now rewrite E.
  - intros r E. unfold spec_compared_sum. now rewrite E.
  - intros r E. unfold spec_compared_direct. now rewrite E.
Qed.

Lemma compare_record_sound (direct : list DirectRule) (sums : list SumRule)
    (cats : list CategoricalRule) :
  sound_state record_id (compare_record tolerance skip_zero merged_cols row record_id info
                 direct sums cats).
Proof.
  unfold compare_record.
  apply fold_sound; [apply categorical_step_shape|].
  apply fold_sound; [apply sum_step_shape|].
  apply fold_sound; [apply direct_step_shape|].
  split; [simpl; lia | constructor].
Qed.
End StepShapes.

(** ** Every key in one bucket *)

Lemma rectangular_length (df : DataFrame) (record : list scalar) :
  rectangular df = true -> In record (data df) ->
  (List.length (columns df) <= List.length record)%nat.
Proof.
  unfold rectangular. rewrite forallb_forall. intros Hall Hin.
  specialize (Hall record Hin). apply Nat.eqb_eq in Hall. lia.
Qed.

(** C2: the one matched row of the frames [bedrooms_mls] and [bedrooms_cama],
    0 bedrooms against 5, has no field compared in the specification's
    sense, its only mapped field being suppressed by the zero rule; the
    claim places it in Skipped, and the code in PerfectMatch. *)
Theorem zero_suppressed_row_is_a_perfect_match :
  let merged_cols :=
    merged_frame_columns bedrooms_mls bedrooms_cama "Parcel Number" "PARID" in
  exists mrow : MergedRow,
    merged_frame bedrooms_mls bedrooms_cama "Parcel Number" "PARID" = [mrow]
    /\ _merge mrow = both
    /\ @spec_fields_compared decimal_pandas SKIP_ZERO_VALUES merged_cols (fields mrow)
         COLUMNS_TO_COMPARE COLUMNS_TO_COMPARE_SUM COLUMNS_TO_COMPARE_CATEGORICAL
       = 0%nat
    /\ in_bucket PerfectMatched
         (@contribution decimal_pandas NUMERIC_TOLERANCE SKIP_ZERO_VALUES "PARID"
            merged_cols COLUMNS_TO_COMPARE COLUMNS_TO_COMPARE_SUM
            COLUMNS_TO_COMPARE_CATEGORICAL mrow)
    /\ ~ in_bucket Skipped
           (@contribution decimal_pandas NUMERIC_TOLERANCE SKIP_ZERO_VALUES "PARID"
              merged_cols COLUMNS_TO_COMPARE COLUMNS_TO_COMPARE_SUM
              COLUMNS_TO_COMPARE_CATEGORICAL mrow).
Proof.
  cbv zeta.
  exists (hd {| _merge := both; fields := [] |}
            (merged_frame bedrooms_mls bedrooms_cama "Parcel Number" "PARID")).
  split; [reflexivity|]. split; [reflexivity|]. split; [reflexivity|].
  split.
  - vm_compute. discriminate.
  - vm_compute. intros [_ [_ [_ E]]]. discriminate E.
Qed.

(** X19: when the comparison runs (on a rectangular MLS frame, the key
    naming a single column of the merged frame), every merged row is in
    exactly one of the five buckets: left-only rows in MissingInB,
    right-only rows in MissingInA, matched rows in Mismatched, PerfectMatch
    or Skipped.  A matched row is Skipped exactly when every rule finds a
    column absent or a value blank, and then no field is compared in the
    specification's sense either.  Each entry carries the row's key; the
    four tables are the buckets of the rows, in order.  Every key of either
    dataset is the key of a merged row, as every merged row's key is a key
    of the dataset(s) its status names; a left-only row has no CAMA record
    with its key and a right-only row no MLS record; and two records with
    the same key share a matched row. *)
Theorem every_key_in_one_bucket :
  forall (P : Pandas) (tolerance : Q) (skip_zero : bool) (mls cama : DataFrame)
         (mls_id cama_id : string) (direct : list DirectRule) (sums : list SumRule)
         (cats : list CategoricalRule) (t : Tables),
    compare_data_enhanced tolerance skip_zero (Some mls) (Some cama)
      {| id_mls_col := Some mls_id; id_cama_col := Some cama_id |}
      direct sums cats = inr t ->
    rectangular mls = true ->
    names_one_column cama_id (merged_frame_columns mls cama mls_id cama_id) = true ->
    let merged_df := merged_frame mls cama mls_id cama_id in
    let merged_cols := merged_frame_columns mls cama mls_id cama_id in
    let contrib :=
      contribution tolerance skip_zero cama_id merged_cols direct sums cats in
    let state :=
      record_state tolerance skip_zero cama_id merged_cols direct sums cats in
    (forall mrow : MergedRow,
        (exists b : Bucket,
            in_bucket b (contrib mrow)
            /\ (forall b', in_bucket b' (contrib mrow) -> b' = b)
            /\ (_merge mrow = left_only -> b = MissingInB)
            /\ (_merge mrow = right_only -> b = MissingInA)
            /\ (_merge mrow = both ->
                (b = Mismatched \/ b = PerfectMatched \/ b = Skipped)
                /\ (b = Skipped
                    <-> nothing_to_compare merged_cols (fields mrow)
                          direct sums cats = true)
                /\ (b = Skipped ->
                    spec_fields_compared skip_zero merged_cols (fields mrow)
                      direct sums cats = 0%nat)))
        /\ Forall (fun e => mc_Parcel_ID e = record_id_of cama_id mrow)
             (missing_in_cama (contrib mrow))
        /\ Forall (fun e => e = record_id_of cama_id mrow)
             (missing_in_mls (contrib mrow))
        /\ Forall (fun e => mm_Parcel_ID e = record_id_of cama_id mrow)
             (value_mismatches (contrib mrow))
        /\ Forall (fun e => pm_Parcel_ID e = record_id_of cama_id mrow)
             (perfect_matches (contrib mrow)))
    /\ (df_missing_cama t = flat_map (fun r => missing_in_cama (contrib r)) merged_df
        /\ df_missing_mls t = flat_map (fun r => missing_in_mls (contrib r)) merged_df
        /\ df_value_mismatches t
           = flat_map (fun r => value_mismatches (contrib r)) merged_df
        /\ df_perfect_matches t
           = flat_map (fun r => perfect_matches (contrib r)) merged_df)
    /\ (forall record, In record (data mls) ->
          exists mrow, In mrow merged_df /\ _merge mrow <> right_only
                       /\ record_id_of cama_id mrow = record_key mls mls_id record)
    /\ (forall record, In record (data cama) ->
          exists mrow, In mrow merged_df /\ _merge mrow <> left_only
                       /\ key_eqb (record_id_of cama_id mrow)
                            (record_key cama cama_id record) = true)
    /\ (forall mrow, In mrow merged_df ->
          (_merge mrow <> right_only ->
           exists record, In record (data mls)
                          /\ record_id_of cama_id mrow = record_key mls mls_id record)
          /\ (_merge mrow <> left_only ->
              exists record, In record (data cama)
                             /\ key_eqb (record_id_of cama_id mrow)
                                  (record_key cama cama_id record) = true))
    /\ (forall mrow, In mrow merged_df ->
          (_merge mrow = left_only ->
           forall record, In record (data cama) ->
             key_eqb (record_id_of cama_id mrow)
                     (record_key cama cama_id record) = false)
          /\ (_merge mrow = right_only ->
              forall record, In record (data mls) ->
                key_eqb (record_key mls mls_id record)
                        (record_id_of cama_id mrow) = false))
    /\ (forall mls_record cama_record,
          In mls_record (data mls) -> In cama_record (data cama) ->
          key_eqb (record_key mls mls_id mls_record)
                  (record_key cama cama_id cama_record) = true ->
          let lcols := rename_columns mls_id cama_id (columns mls) in
          In (row_both cama_id lcols (columns cama) (combine lcols mls_record)
                (combine (columns cama) cama_record))
             merged_df).
Proof.
  intros P tolerance skip_zero mls cama mls_id cama_id direct sums cats t
         Hrun Hrect Hone merged_df merged_cols contrib state.
  (* what the run tells *)
  unfold compare_data_enhanced in Hrun.
  destruct (is_nil direct); [discriminate Hrun|]. simpl in Hrun.
  destruct (in_columns mls_id (columns mls)) eqn:Hmls; [|discriminate Hrun].
  destruct (negb (in_columns cama_id (columns cama))); [discriminate Hrun|].
  destruct (merge_raises _ _); [discriminate Hrun|].
  injection Hrun as <-.
  apply in_columns_In in Hmls.
  set (lcols := rename_columns mls_id cama_id (columns mls)) in *.
  assert (Hid_left : forall record rest, In record (data mls) ->
             row_get (left_part cama_id (columns cama) (combine lcols record) ++ rest)
               cama_id Null = record_key mls mls_id record).
  { intros record rest Hin.
    apply (record_id_left cama_id mls_id (columns mls) (columns cama) Hone Hmls).
    now apply rectangular_length. }
  assert (Hkey_left : forall record, In record (data mls) ->
             row_key cama_id (combine lcols record) = record_key mls mls_id record).
  { intros record Hin.
    apply (row_key_left cama_id mls_id (columns mls) (columns cama) Hone Hmls).
    now apply rectangular_length. }
  assert (Hid_right : forall r,
             row_get (fields (row_right_only cama_id lcols (columns cama) r)) cama_id Null
             = row_key cama_id r).
  { intro r.
    apply (record_id_right_only cama_id mls_id (columns mls) (columns cama) Hone Hmls). }
  split; [|split; [|split; [|split; [|split; [|split]]]]].
  - (* one bucket per row *)
    intro mrow.
    pose proof (row_in_one_bucket tolerance skip_zero cama_id merged_cols
                  direct sums cats mrow) as [b [Hb [Huniq Hstatus]]].
    pose proof (compare_record_sound tolerance skip_zero merged_cols (fields mrow)
                  (record_id_of cama_id mrow) (row_info (fields mrow))
                  direct sums cats) as [Hlen Hids].
    change (compare_record tolerance skip_zero merged_cols (fields mrow)
              (record_id_of cama_id mrow) (row_info (fields mrow))
              direct sums cats) with (state mrow) in Hlen, Hids.
    change (compare_record tolerance skip_zero merged_cols (fields mrow)
              (row_get (fields mrow) cama_id Null) (row_info (fields mrow))
              direct sums cats) with (state mrow) in Hstatus.
    split.
    + exists b. split; [exact Hb|]. split; [exact Huniq|].
      destruct (_merge mrow).
      * repeat split; try discriminate; auto.
      * repeat split; try discriminate; auto.
      * split; [discriminate|]. split; [discriminate|]. intros _.
        pose proof (compare_record_counts_none tolerance skip_zero merged_cols
                      (fields mrow) (record_id_of cama_id mrow)
                      (row_info (fields mrow)) direct sums cats) as Hnone.
        change (compare_record tolerance skip_zero merged_cols (fields mrow)
                  (record_id_of cama_id mrow) (row_info (fields mrow))
                  direct sums cats) with (state mrow) in Hnone.
        pose proof (nothing_to_compare_spec skip_zero merged_cols (fields mrow)
                      direct sums cats) as Hspec.
        destruct (record_mismatches (state mrow)) as [|m ms].
        -- destruct (fields_compared (state mrow)) as [|f fs]; subst b.
           ++ split; [auto|]. split.
              ** split; intros _; [now apply Hnone | reflexivity].
              ** intros _. apply Hspec. now apply Hnone.
           ++ split; [auto|]. split.
              ** split; [discriminate|].
                 intro E. apply Hnone in E. discriminate E.
              ** discriminate.
        -- subst b. split; [auto|]. split.
           ++ split; [discriminate|].
              intro E. apply Hnone in E. rewrite E in Hlen. simpl in Hlen. lia.
           ++ discriminate.
    + destruct (_merge mrow) eqn:E.
      * destruct (contribution_left_only tolerance skip_zero cama_id merged_cols
                    direct sums cats mrow E) as [C1 [C2 [C3 C4]]].
        unfold contrib. rewrite C1, C2, C3, C4. repeat split; repeat constructor.
      * destruct (contribution_right_only tolerance skip_zero cama_id merged_cols
                    direct sums cats mrow E) as [C1 [C2 [C3 C4]]].
        unfold contrib. rewrite C1, C2, C3, C4. repeat split; repeat constructor.
      * destruct (contribution_both tolerance skip_zero cama_id merged_cols
                    direct sums cats mrow E) as [C1 [C2 [C3 C4]]].
        unfold contrib. rewrite C1, C2, C3, C4. repeat split; try constructor.
        -- exact Hids.
        -- match goal with |- context [if ?c then _ else _] => destruct c end;
             repeat constructor.
  - (* the tables *)
    pose proof (fold_visit_rows tolerance skip_zero cama_id merged_cols direct
                  sums cats merged_df no_lists) as Hfold.
    simpl in Hfold. exact Hfold.
  - (* keys of MLS *)
    intros record Hin.
    assert (Hl : In (combine lcols record) (map (combine lcols) (data mls)))
      by now apply in_map.
    destruct (left_row_is_merged cama_id lcols (columns cama) _ (iterrows cama) _ Hl)
      as [Hm | [r [Hr [Hk Hm]]]].
    + eexists. split; [exact Hm|]. split; [discriminate|].
      unfold record_id_of, row_left_only. simpl fields. now apply Hid_left.
    + eexists. split; [exact Hm|]. split; [discriminate|].
      unfold record_id_of, row_both. simpl fields. now apply Hid_left.
  - (* keys of CAMA *)
    intros record Hin.
    assert (Hr : In (combine (columns cama) record) (iterrows cama))
      by (unfold iterrows; now apply in_map).
    destruct (right_row_is_merged cama_id lcols (columns cama)
                (map (combine lcols) (data mls)) (iterrows cama) _ Hr)
      as [Hm | [l [Hl [Hk Hm]]]].
    + eexists. split; [exact Hm|]. split; [discriminate|].
      unfold record_id_of. rewrite Hid_right. apply key_eqb_refl.
    + eexists. split; [exact Hm|]. split; [discriminate|].
      apply in_map_iff in Hl. destruct Hl as [rec [<- Hrec]].
      unfold record_id_of, row_both. simpl fields.
      rewrite (Hid_left rec _ Hrec), <- (Hkey_left rec Hrec). exact Hk.
  - (* keys of the merged rows *)
    intros mrow Hin.
    destruct (merged_row_origin cama_id lcols (columns cama)
                (map (combine lcols) (data mls)) (iterrows cama) mrow Hin)
      as [[l [Hl ->]] | [[l [r [Hl [Hr [Hk ->]]]]] | [r [Hr ->]]]].
    + apply in_map_iff in Hl. destruct Hl as [rec [<- Hrec]]. split.
      * intros _. exists rec. split; [exact Hrec|].
        unfold record_id_of, row_left_only. simpl fields. now apply Hid_left.
      * intro Hne. now elim Hne.
    + apply in_map_iff in Hl. destruct Hl as [rec [<- Hrec]].
      unfold iterrows in Hr. apply in_map_iff in Hr. destruct Hr as [rec' [<- Hrec']].
      assert (Eid : record_id_of cama_id
                      (row_both cama_id lcols (columns cama) (combine lcols rec)
                         (combine (columns cama) rec'))
                    = record_key mls mls_id rec).
      { unfold record_id_of, row_both. simpl fields. now apply Hid_left. }
      split; intros _.
      * exists rec. now split.
      * exists rec'. split; [exact Hrec'|].
        rewrite Eid, <- (Hkey_left rec Hrec). exact Hk.
    + unfold iterrows in Hr. apply in_map_iff in Hr. destruct Hr as [rec' [<- Hrec']].
      split.
      * intro Hne. now elim Hne.
      * intros _. exists rec'. split; [exact Hrec'|].
        unfold record_id_of. rewrite Hid_right. apply key_eqb_refl.
  - (* rows of one side only have no partner *)
    intros mrow Hin.
    destruct (merged_row_partners cama_id lcols (columns cama)
                (map (combine lcols) (data mls)) (iterrows cama) mrow Hin)
      as [Hleft Hright].
    split; intros Hst record Hrec.
    + destruct (Hleft Hst) as [l [Hl [-> Hno]]].
      apply in_map_iff in Hl. destruct Hl as [rec [<- Hmrec]].
      unfold record_id_of, row_left_only. simpl fields.
      rewrite (Hid_left rec _ Hmrec), <- (Hkey_left rec Hmrec).
      apply (Hno (combine (columns cama) record)).
      unfold iterrows. now apply in_map.
    + destruct (Hright Hst) as [r [Hr [-> Hno]]].
      unfold record_id_of. rewrite Hid_right.
      rewrite <- (Hkey_left record Hrec).
      apply Hno. now apply in_map.
  - (* records with the same key are joined *)
    intros mls_record cama_record Hm Hc Hk lcols'. subst lcols'.
    apply (matched_pair_is_merged cama_id lcols (columns cama)
             (map (combine lcols) (data mls)) (iterrows cama)).
    + now apply in_map.
    + unfold iterrows. now apply in_map.
    + rewrite (Hkey_left mls_record Hm). exact Hk.
Qed.

(** Parcel 10-002, present in MLS only, has its merged row. *)
Lemma every_key_in_one_bucket_witness :
  exists mrow : MergedRow,
    In mrow (merged_frame town_mls town_cama "Parcel Number" "PARID")
    /\ _merge mrow <> right_only
    /\ record_id_of "PARID" mrow = Str "10-002".
Proof.
  pose proof (every_key_in_one_bucket decimal_pandas NUMERIC_TOLERANCE
                SKIP_ZERO_VALUES town_mls town_cama "Parcel Number" "PARID"
                COLUMNS_TO_COMPARE COLUMNS_TO_COMPARE_SUM
                COLUMNS_TO_COMPARE_CATEGORICAL
                (returned_tables
                   (@compare_data_enhanced decimal_pandas NUMERIC_TOLERANCE
                      SKIP_ZERO_VALUES (Some town_mls) (Some town_cama)
                      UNIQUE_ID_COLUMN COLUMNS_TO_COMPARE COLUMNS_TO_COMPARE_SUM
                      COLUMNS_TO_COMPARE_CATEGORICAL))
                eq_refl eq_refl eq_refl) as Hthm.
  cbv zeta in Hthm. destruct Hthm as [_ [_ [Hmls _]]].
  exact (Hmls [Str "10-002"; Num 4] (or_intror (or_introl eq_refl))).
Defined.

(** Both records of parcel 10-001 are returned, that of 10-002 is not. *)
Lemma find_duplicate_ids_exact_witness :
  find_duplicate_ids (Some twice_cama) "PARID"
  = Some {| columns := ["PARID"; "RMBED"]%string;
            data := [[Str "10-001"; Num 3]; [Str "10-001"; Num 4]] |}.
Proof.
  destruct (find_duplicate_ids_exact twice_cama "PARID" eq_refl)
    as [keep [Hkeep [E _]]].
  rewrite E. clear E.
  assert (K0 : keep [Str "10-001"; Num 3] = true).
  { apply (Hkeep 0%nat); [reflexivity|].
    exists 2%nat, [Str "10-001"; Num 4]. repeat split. discriminate. }
  assert (K2 : keep [Str "10-001"; Num 4] = true).
  { apply (Hkeep 2%nat); [reflexivity|].
    exists 0%nat, [Str "10-001"; Num 3]. repeat split. discriminate. }
  assert (K1 : keep [Str "10-002"; Num 2] = false).
  { destruct (keep [Str "10-002"; Num 2]) eqn:K; [|reflexivity].
    apply (Hkeep 1%nat _ eq_refl) in K.
    destruct K as [j [other [Hij [Ej Hk]]]].
    destruct j as [|[|[|j]]]; simpl in Ej;
      try (injection Ej as <-; discriminate Hk);
      try (now elim Hij);
      try (destruct j; discriminate Ej). }
  cbv zeta. cbn [twice_cama data filter]. rewrite K0, K1, K2. reflexivity.
Defined.

(** * Further properties of the script *)

(** ** More on the value comparator *)

Lemma isclose_tolerance_monotone (tol tol' a b : Q) :
  tol <= tol' -> isclose RTOL tol a b = true -> isclose RTOL tol' a b = true.
Proof.
  intro Hle. unfold isclose. rewrite !orb_true_iff, !Qle_bool_iff.
  intros [Hc | He]; [left | now right].
  apply (Qle_trans _ _ _ Hc). apply Qplus_le_l. exact Hle.
Qed.

Lemma np_isclose_tolerance_monotone (P : Pandas) (tol tol' : Q) (n1 n2 : numeric) :
  tol <= tol' -> np_isclose tol n1 n2 = true -> np_isclose tol' n1 n2 = true.
Proof.
  intro Hle. destruct n1, n2; simpl; try discriminate.
  now apply isclose_tolerance_monotone.
Qed.

Lemma values_equal_monotone (P : Pandas) (tol tol' : Q) (a b : scalar) :
  tol <= tol' -> values_equal tol a b = true -> values_equal tol' a b = true.
Proof.
  intro Hle. unfold values_equal.
  destruct (to_numeric_raise a) as [n1|]; [|auto].
  destruct (to_numeric_raise b) as [n2|]; [|auto].
  destruct (numeric_isna n1 && numeric_isna n2); [auto|].
  destruct (negb (Bool.eqb (numeric_isna n1) (numeric_isna n2))); [auto|].
  now apply np_isclose_tolerance_monotone.
Qed.

(** X1: raising the tolerance never turns two equal values into unequal
    ones. *)
Theorem values_equal_tolerance_monotone :
  forall (P : Pandas) (tol tol' : Q) (a b : scalar),
    tol <= tol' ->
    values_equal tol a b = true ->
    values_equal tol' a b = true.
Proof. intros P tol tol' a b. apply values_equal_monotone. Qed.

(** 100 and 100.01 are equal at 0.01, hence at 1. *)
Lemma values_equal_tolerance_monotone_witness :
  @values_equal decimal_pandas 1 (Num 100) (Str "100.01") = true.
Proof.
  apply (values_equal_tolerance_monotone decimal_pandas NUMERIC_TOLERANCE 1).
  - apply Qle_bool_iff. reflexivity.
  - reflexivity.
Defined.

(** X2: whatever the tolerance, a missing value equals a value exactly when
    that value reads as NaN, or is a blank text that is no number; it never
    equals a number, and the order of the two arguments does not matter. *)
Theorem values_equal_missing :
  forall (P : Pandas) (tol : Q) (v : scalar),
    (values_equal tol Null v = true
     <-> to_numeric_raise v = Some NaN
         \/ (to_numeric_raise v = None /\ is_blank v = true))
    /\ values_equal tol v Null = values_equal tol Null v
    /\ (forall q, to_numeric_raise v = Some (Real q) -> values_equal tol Null v = false).
Proof.
  intros P tol v.
  unfold values_equal. simpl (to_numeric_raise Null).
  destruct (to_numeric_raise v) as [[q|]|] eqn:E; simpl.
  - repeat split; try discriminate.
    + intros [D | [D _]]; discriminate D.
  - repeat split; auto; discriminate.
  - destruct v as [q|s|]; try discriminate E.
    unfold norm_text, is_blank. simpl.
    destruct (strip s) as [|c r]; simpl; repeat split; auto; try discriminate.
    intros [D | [_ D]]; discriminate D.
Qed.

Lemma format_2f_negative (q : Q) :
  0 < q -> format_2f (- q) = ("-" ++ format_2f q)%string.
Proof.
  intro Hpos. unfold format_2f.
  assert (Eabs : Qabs (- q) = Qabs q).
  { destruct q as [n d]. unfold Qabs, Qopp. simpl. now rewrite Z.abs_opp. }
  rewrite Eabs.
  assert (E1 : Qle_bool 0 q = true) by (apply Qle_bool_iff; lra).
  assert (E2 : Qle_bool 0 (- q) = false).
  { destruct (Qle_bool 0 (- q)) eqn:E; [|reflexivity].
    apply Qle_bool_iff in E. lra. }
  rewrite E1, E2. reflexivity.
Qed.

Lemma format_2f_swap (a b : Q) :
  b < a -> format_2f (b - a) = ("-" ++ format_2f (a - b))%string.
Proof.
  intro Hlt. unfold format_2f. rewrite (Qabs_Qminus b a).
  assert (E1 : Qle_bool 0 (a - b) = true) by (apply Qle_bool_iff; lra).
  assert (E2 : Qle_bool 0 (b - a) = false).
  { destruct (Qle_bool 0 (b - a)) eqn:E; [|reflexivity].
    apply Qle_bool_iff in E. lra. }
  rewrite E1, E2. reflexivity.
Qed.

(** X3: Difference is the first value minus the second: for two numbers of
    which the first is the larger, swapping them puts a minus sign before
    the same digits. *)
Theorem calculate_difference_swap :
  forall (P : Pandas) (val1 val2 : scalar) (num1 num2 : Q),
    to_numeric_raise val1 = Some (Real num1) ->
    to_numeric_raise val2 = Some (Real num2) ->
    num2 < num1 ->
    calculate_difference val2 val1 = ("-" ++ calculate_difference val1 val2)%string.
Proof.
  intros P val1 val2 num1 num2 H1 H2 Hc. unfold calculate_difference.
  rewrite H1, H2. now apply format_2f_swap.
Qed.

(** 500 against 350 reads "150.00", 350 against 500 reads "-150.00". *)
Lemma calculate_difference_swap_witness :
  @calculate_difference decimal_pandas (Num 350) (Num 500) = "-150.00"%string.
Proof.
  apply (calculate_difference_swap decimal_pandas (Num 500) (Num 350) 500 350
           eq_refl eq_refl).
  reflexivity.
Defined.

(** ** More on the categorical rule *)

Lemma is_space_lower (c : ascii) : is_space (lower_ascii c) = is_space c.
Proof. destruct c as [[] [] [] [] [] [] [] []]; reflexivity. Qed.

Lemma lower_lstrip (s : string) : lower (lstrip s) = lstrip (lower s).
Proof.
  induction s as [|c s IH]; simpl; [reflexivity|].
  rewrite is_space_lower. destruct (is_space c); [exact IH | reflexivity].
Qed.

Lemma lower_rstrip (s : string) : lower (rstrip s) = rstrip (lower s).
Proof.
  induction s as [|c s IH]; simpl; [reflexivity|].
  rewrite <- IH, is_space_lower.
  destruct (rstrip s) as [|c' r]; simpl; [|reflexivity].
  now destruct (is_space c).
Qed.

Lemma lower_strip (s : string) : lower (strip s) = strip (lower s).
Proof. unfold strip. now rewrite lower_rstrip, lower_lstrip. Qed.

Lemma contains_empty (hay : string) : contains "" hay = true.
Proof. now destruct hay. Qed.

(** X4: with case_sensitive off, the text search depends on the MLS text and
    on the marker only up to the case of their letters, and so does the
    verdict of categorical_match for rules with the same expected values;
    and a rule whose marker is empty always expects cama_expected_if_true. *)
Theorem text_search_ignores_case :
  forall (P : Pandas) (m1 m2 : CategoricalRule),
    (case_sensitive m1 = false ->
     case_sensitive m2 = false ->
     lower (mls_check_contains m1) = lower (mls_check_contains m2) ->
     forall s t : string,
       lower s = lower t ->
       text_found (Str s) m1 = text_found (Str t) m2
       /\ (cama_expected_if_true m1 = cama_expected_if_true m2 ->
           cama_expected_if_false m1 = cama_expected_if_false m2 ->
           forall (tol : Q) (cama_val : scalar),
             categorical_match tol (Str s) cama_val m1
             = categorical_match tol (Str t) cama_val m2))
    /\ (mls_check_contains m1 = ""%string ->
        forall mls_val : scalar,
          expected_cama mls_val m1 = cama_expected_if_true m1).
Proof.
  intros P m1 m2. split.
  - intros C1 C2 Hmark s t Hst.
    assert (Hfound : text_found (Str s) m1 = text_found (Str t) m2).
    { unfold text_found. rewrite C1, C2. simpl.
      now rewrite Hmark, !lower_strip, Hst. }
    split; [exact Hfound|].
    intros Et Ef tol cama_val. unfold categorical_match, expected_cama.
    now rewrite Hfound, Et, Ef.
  - intros Hempty mls_val. unfold expected_cama, text_found. rewrite Hempty.
    simpl lower. rewrite !contains_empty. now destruct (negb (case_sensitive m1)).
Qed.

Lemma text_search_ignores_case_witness :
  @text_found decimal_pandas (Str "Central Air and Heat Pump") cooling_text_rule
  = @text_found decimal_pandas (Str "CENTRAL AIR AND HEAT PUMP") cooling_shout_rule.
Proof.
  apply (proj1 (text_search_ignores_case decimal_pandas cooling_text_rule
                  cooling_shout_rule));
    reflexivity.
Defined.

(** ** Lists with elements left out *)

Section SublistFacts.
Context {A : Type}.

Lemma sublist_refl (l : list A) : sublist l l.
Proof. induction l; now constructor. Qed.

Lemma sublist_nil_l (l : list A) : sublist [] l.
Proof. induction l; now constructor. Qed.

Lemma sublist_nil_r (l : list A) : sublist l [] -> l = [].
Proof. intro Hs. now inversion Hs. Qed.

Lemma sublist_app (a a' b b' : list A) :
  sublist a a' -> sublist b b' -> sublist (a ++ b) (a' ++ b').
Proof.
  intros Ha Hb. induction Ha; simpl.
  - exact Hb.
  - now constructor.
  - now constructor.
Qed.

Lemma sublist_app_r (l l' extra : list A) :
  sublist l l' -> sublist l (l' ++ extra).
Proof.
  intro Hs. rewrite <- (app_nil_r l). apply sublist_app; [exact Hs|].
  apply sublist_nil_l.
Qed.

Lemma sublist_snoc (l l' : list A) (x : A) :
  sublist l l' -> sublist (l ++ [x]) (l' ++ [x]).
Proof. intro Hs. apply sublist_app; [exact Hs | apply sublist_refl]. Qed.

Lemma sublist_length (l l' : list A) :
  sublist l l' -> (List.length l <= List.length l')%nat.
Proof. induction 1; simpl; lia. Qed.

Lemma sublist_filter (p : A -> bool) (l : list A) : sublist (filter p l) l.
Proof.
  induction l as [|x l IH]; simpl; [constructor|].
  destruct (p x); now constructor.
Qed.

Lemma sublist_flat_map {B : Type} (f g : B -> list A) (l : list B) :
  (forall x, In x l -> sublist (f x) (g x)) ->
  sublist (flat_map f l) (flat_map g l).
Proof.
  induction l as [|x l IH]; intro Hall; simpl; [constructor|].
  apply sublist_app.
  - apply Hall. now left.
  - apply IH. intros y Hy. apply Hall. now right.
Qed.
End SublistFacts.

Lemma sublist_map {A B : Type} (f : A -> B) (l l' : list A) :
  sublist l l' -> sublist (map f l) (map f l').
Proof. induction 1; simpl; now constructor. Qed.

(** ** More on the rules of a matched row *)

Section RuleFacts.
Context `{Pandas}.
Variable tolerance : Q.
Variable skip_zero : bool.
Variable merged_cols : list string.
Variable row : Series.
Variable record_id : scalar.
Variable info : RowInfo.

(** What a rule on the MLS column [c] can do, with the field it names. *)
Let acts_on (c : string) (st st' : RecordState) : Prop :=
  st' = st
  \/ st' = track st c
  \/ (exists m, Field_MLS m = c /\ st' = emit (track st c) m).

Lemma direct_step_acts (st : RecordState) (mapping : DirectRule) :
  acts_on (mls_col mapping) st
    (direct_step tolerance skip_zero merged_cols row record_id info st mapping).
Proof.
  unfold acts_on, direct_step.
  repeat match goal with
         | |- context [if ?c then _ else _] => destruct c
         end;
    first [ now left
          | right; left; reflexivity
          | right; right; eexists; split; [|reflexivity]; reflexivity ].
Qed.

Lemma sum_step_acts (st : RecordState) (mapping : SumRule) :
  acts_on (sum_mls_col mapping) st
    (sum_step tolerance skip_zero merged_cols row record_id info st mapping).
Proof.
  unfold acts_on, sum_step.
  destruct (sum_cama row (cama_cols mapping)) as [cama_sum all_cama_blank].
  repeat match goal with
         | |- context [if ?c then _ else _] => destruct c
         end;
    first [ now left
          | right; left; reflexivity
          | right; right; eexists; split; [|reflexivity]; reflexivity ].
Qed.

Lemma categorical_step_acts (st : RecordState) (mapping : CategoricalRule) :
  acts_on (cat_mls_col mapping) st
    (categorical_step tolerance merged_cols row record_id info st mapping).
Proof.
  unfold acts_on, categorical_step.
  repeat match goal with
         | |- context [if ?c then _ else _] => destruct c
         end;
    first [ now left
          | right; left; reflexivity
          | right; right; eexists; split; [|reflexivity]; reflexivity ].
Qed.

(** The counted fields follow [cols], and the reported fields follow the
    counted ones. *)
Let in_order (st : RecordState) (cols : list string) : Prop :=
  sublist (fields_compared st) cols
  /\ sublist (map Field_MLS (record_mismatches st)) (fields_compared st).

Lemma acts_in_order (c : string) (st st' : RecordState) (done : list string) :
  acts_on c st st' -> in_order st done -> in_order st' (done ++ [c]).
Proof.
  intros [-> | [-> | [m [Hm ->]]]] [Hf Hm']; unfold in_order; simpl.
  - split; [now apply sublist_app_r | exact Hm'].
  - split; [now apply sublist_snoc | now apply sublist_app_r].
  - split; [now apply sublist_snoc|].
    rewrite map_app. simpl. rewrite Hm. now apply sublist_snoc.
Qed.

Lemma fold_in_order {R : Type} (step : RecordState -> R -> RecordState)
    (col : R -> string) (rules : list R) :
  (forall st r, acts_on (col r) st (step st r)) ->
  forall (st : RecordState) (done : list string),
    in_order st done ->
    in_order (fold_left step rules st) (done ++ map col rules).
Proof.
  intro Hstep. induction rules as [|r rules IH]; intros st done Hst; simpl.
  - now rewrite app_nil_r.
  - replace (done ++ col r :: map col rules)
      with ((done ++ [col r]) ++ map col rules)
      by (now rewrite <- app_assoc).
    apply IH. eapply acts_in_order; [apply Hstep | exact Hst].
Qed.

Lemma compare_record_in_order (direct : list DirectRule) (sums : list SumRule)
    (cats : list CategoricalRule) :
  in_order
    (compare_record tolerance skip_zero merged_cols row record_id info
       direct sums cats)
    (map mls_col direct ++ map sum_mls_col sums ++ map cat_mls_col cats).
Proof.
  unfold compare_record. rewrite app_assoc.
  apply (fold_in_order _ cat_mls_col); [apply categorical_step_acts|].
  apply (fold_in_order _ sum_mls_col); [apply sum_step_acts|].
  apply (fold_in_order _ mls_col _ direct_step_acts no_fields []).
  split; simpl; constructor.
Qed.




End RuleFacts.


(** X6: on a matched row, the fields counted as compared are taken from the
    configured MLS columns in configuration order (direct rules, then sum
    rules, then categorical rules), each rule at most once; the fields of the
    reported mismatches are taken from the counted fields, in order; so
    neither list is longer than the number of rules. *)
Theorem compared_fields_follow_configuration :
  forall (P : Pandas) (tolerance : Q) (skip_zero : bool) (merged_cols : list string)
         (row : Series) (record_id : scalar) (info : RowInfo)
         (direct : list DirectRule) (sums : list SumRule)
         (cats : list CategoricalRule),
    let st := compare_record tolerance skip_zero merged_cols row record_id info
                direct sums cats in
    sublist (fields_compared st)
      (map mls_col direct ++ map sum_mls_col sums ++ map cat_mls_col cats)
    /\ sublist (map Field_MLS (record_mismatches st)) (fields_compared st)
    /\ (List.length (record_mismatches st) <= List.length (fields_compared st)
        <= List.length direct + List.length sums + List.length cats)%nat.
Proof.
  intros P tolerance skip_zero merged_cols row record_id info direct sums cats st.
  destruct (compare_record_in_order tolerance skip_zero merged_cols row record_id
              info direct sums cats) as [Hf Hm].
  fold st in Hf, Hm. split; [exact Hf|]. split; [exact Hm|].
  apply sublist_length in Hf. apply sublist_length in Hm.
  rewrite !length_app, !length_map in Hf. rewrite length_map in Hm. lia.
Qed.

(** ** Looser settings: a larger tolerance, skip-zero switched on *)

Section Loosening.
Context `{Pandas}.
Variables tol tol' : Q.
Variables skip skip' : bool.
Hypothesis tol_le : tol <= tol'.
Hypothesis skip_imp : skip = true -> skip' = true.

Variable merged_cols : list string.
Variable row : Series.
Variable record_id : scalar.
Variable info : RowInfo.

(** [st'], reached under the looser settings, counts the same fields as [st]
    and reports some of its mismatches. *)
Let looser (st st' : RecordState) : Prop :=
  fields_compared st' = fields_compared st
  /\ sublist (record_mismatches st') (record_mismatches st).

Lemma looser_track (st st' : RecordState) (c : string) :
  looser st st' -> looser (track st c) (track st' c).
Proof. intros [Hf Hm]. split; simpl; [now rewrite Hf | exact Hm]. Qed.

Lemma looser_emit (st st' : RecordState) (m : Mismatch) :
  looser st st' -> looser (emit st m) (emit st' m).
Proof. intros [Hf Hm]. split; simpl; [exact Hf | now apply sublist_snoc]. Qed.

Lemma looser_emit_strict (st st' : RecordState) (m : Mismatch) :
  looser st st' -> looser (emit st m) st'.
Proof. intros [Hf Hm]. split; simpl; [exact Hf | now apply sublist_app_r]. Qed.

Lemma categorical_match_monotone (mls_val cama_val : scalar) (mapping : CategoricalRule) :
  categorical_match tol mls_val cama_val mapping = true ->
  categorical_match tol' mls_val cama_val mapping = true.
Proof.
  unfold categorical_match.
  destruct (numeric_isna (to_numeric_coerce cama_val)
            && numeric_isna (to_numeric_coerce (expected_cama mls_val mapping)));
    [auto|].
  destruct (numeric_isna (to_numeric_coerce cama_val)
            || numeric_isna (to_numeric_coerce (expected_cama mls_val mapping)));
    [auto|].
  now apply np_isclose_tolerance_monotone.
Qed.

Lemma direct_step_looser (st st' : RecordState) (mapping : DirectRule) :
  looser st st' ->
  looser (direct_step tol skip merged_cols row record_id info st mapping)
         (direct_step tol' skip' merged_cols row record_id info st' mapping).
Proof.
  intro HR. unfold direct_step.
  destruct (negb (in_columns (mls_col mapping) merged_cols)
            || negb (in_columns (cama_col mapping) merged_cols)); [exact HR|].
  destruct (is_blank (row_get row (mls_col mapping) Null)
            || is_blank (row_get row (cama_col mapping) Null)); [exact HR|].
  pose proof (looser_track st st' (mls_col mapping) HR) as HT.
  destruct (is_zero (to_numeric_coerce (row_get row (mls_col mapping) Null))
            || is_zero (to_numeric_coerce (row_get row (cama_col mapping) Null)));
    destruct skip, skip'; simpl andb; cbv iota;
    try (discriminate (skip_imp eq_refl)); try exact HT;
    destruct (values_equal tol (row_get row (mls_col mapping) Null)
                (row_get row (cama_col mapping) Null)) eqn:E1;
    try (rewrite (values_equal_monotone _ _ _ _ _ tol_le E1));
    simpl negb; cbv iota; try exact HT;
    try (now apply looser_emit_strict);
    destruct (values_equal tol' (row_get row (mls_col mapping) Null)
                (row_get row (cama_col mapping) Null));
    simpl negb; cbv iota;
    first [ now apply looser_emit | now apply looser_emit_strict ].
Qed.

Lemma sum_step_looser (st st' : RecordState) (mapping : SumRule) :
  looser st st' ->
  looser (sum_step tol skip merged_cols row record_id info st mapping)
         (sum_step tol' skip' merged_cols row record_id info st' mapping).
Proof.
  intro HR. unfold sum_step.
  destruct (negb (in_columns (sum_mls_col mapping) merged_cols)); [exact HR|].
  destruct (existsb (fun col => negb (in_columns col merged_cols)) (cama_cols mapping));
    [exact HR|].
  destruct (is_blank (row_get row (sum_mls_col mapping) Null)); [exact HR|].
  destruct (sum_cama row (cama_cols mapping)) as [cama_sum all_cama_blank].
  destruct all_cama_blank; [exact HR|].
  pose proof (looser_track st st' (sum_mls_col mapping) HR) as HT.
  destruct (is_zero (to_numeric_coerce (row_get row (sum_mls_col mapping) Null))
            || numeric_is_zero cama_sum);
    destruct skip, skip'; simpl andb; cbv iota;
    try (discriminate (skip_imp eq_refl)); try exact HT;
    destruct (values_equal tol (row_get row (sum_mls_col mapping) Null)
                (of_numeric cama_sum)) eqn:E1;
    try (rewrite (values_equal_monotone _ _ _ _ _ tol_le E1));
    simpl negb; cbv iota; try exact HT;
    try (now apply looser_emit_strict);
    destruct (values_equal tol' (row_get row (sum_mls_col mapping) Null)
                (of_numeric cama_sum));
    simpl negb; cbv iota;
    first [ now apply looser_emit | now apply looser_emit_strict ].
Qed.

Lemma categorical_step_looser (st st' : RecordState) (mapping : CategoricalRule) :
  looser st st' ->
  looser (categorical_step tol merged_cols row record_id info st mapping)
         (categorical_step tol' merged_cols row record_id info st' mapping).
Proof.
  intro HR. unfold categorical_step.
  destruct (negb (in_columns (cat_mls_col mapping) merged_cols)); [exact HR|].
  destruct (negb (in_columns (cat_cama_col mapping) merged_cols)); [exact HR|].
  destruct (is_blank (row_get row (cat_mls_col mapping) Null)); [exact HR|].
  destruct (is_blank (row_get row (cat_cama_col mapping) Null)); [exact HR|].
  pose proof (looser_track st st' (cat_mls_col mapping) HR) as HT.
  destruct (categorical_match tol (row_get row (cat_mls_col mapping) Null)
              (row_get row (cat_cama_col mapping) Null) mapping) eqn:E1.
  - rewrite (categorical_match_monotone _ _ _ E1). exact HT.
  - destruct (categorical_match tol' (row_get row (cat_mls_col mapping) Null)
                (row_get row (cat_cama_col mapping) Null) mapping);
      simpl negb; cbv iota;
      first [ now apply looser_emit | now apply looser_emit_strict ].
Qed.

Lemma fold_looser {R : Type} (step step' : RecordState -> R -> RecordState)
    (rules : list R) :
  (forall st st' r, looser st st' -> looser (step st r) (step' st' r)) ->
  forall st st', looser st st' ->
                 looser (fold_left step rules st) (fold_left step' rules st').
Proof.
  intro Hstep. induction rules as [|r rules IH]; intros st st' HR; simpl.
  - exact HR.
  - apply IH. now apply Hstep.
Qed.

Lemma compare_record_looser (direct : list DirectRule) (sums : list SumRule)
    (cats : list CategoricalRule) :
  looser (compare_record tol skip merged_cols row record_id info direct sums cats)
         (compare_record tol' skip' merged_cols row record_id info direct sums cats).
Proof.
  unfold compare_record.
  apply fold_looser; [apply categorical_step_looser|].
  apply fold_looser; [apply sum_step_looser|].
  apply fold_looser; [apply direct_step_looser|].
  split; [reflexivity | constructor].
Qed.
End Loosening.

(** X7: on a matched row, a larger tolerance or skip-zero switched on leaves
    the list of fields counted as compared as it was, and only removes
    mismatches: those that remain are reported unchanged, in the same
    order. *)
Theorem looser_settings_on_a_record :
  forall (P : Pandas) (tol tol' : Q) (skip skip' : bool) (merged_cols : list string)
         (row : Series) (record_id : scalar) (info : RowInfo)
         (direct : list DirectRule) (sums : list SumRule)
         (cats : list CategoricalRule),
    tol <= tol' ->
    (skip = true -> skip' = true) ->
    let strict := compare_record tol skip merged_cols row record_id info
                    direct sums cats in
    let loose := compare_record tol' skip' merged_cols row record_id info
                   direct sums cats in
    fields_compared loose = fields_compared strict
    /\ sublist (record_mismatches loose) (record_mismatches strict).
Proof.
  intros P tol tol' skip skip' merged_cols row record_id info direct sums cats
         Htol Hskip.
  apply (compare_record_looser tol tol' skip skip' Htol Hskip).
Qed.

(** 0 bedrooms against 5: counted with skip-zero off and on, reported only
    with skip-zero off. *)
Lemma looser_settings_on_a_record_witness :
  fields_compared
    (@compare_record decimal_pandas NUMERIC_TOLERANCE true
       ["PARID"; "Bedrooms Total"; "RMBED"]%string
       [("PARID", Str "10-001"); ("Bedrooms Total", Num 0); ("RMBED", Num 5)]%string
       (Str "10-001") blank_info COLUMNS_TO_COMPARE [] [])
  = ["Bedrooms Total"]%string.
Proof.
  assert (Hskip : false = true -> true = true) by reflexivity.
  assert (Htol : NUMERIC_TOLERANCE <= NUMERIC_TOLERANCE) by apply Qle_refl.
  rewrite (proj1 (looser_settings_on_a_record decimal_pandas NUMERIC_TOLERANCE
                    NUMERIC_TOLERANCE false true
                    ["PARID"; "Bedrooms Total"; "RMBED"]%string
                    [("PARID", Str "10-001"); ("Bedrooms Total", Num 0);
                     ("RMBED", Num 5)]%string
                    (Str "10-001") blank_info COLUMNS_TO_COMPARE [] [] Htol Hskip)).
  reflexivity.
Defined.

Section LooseningTables.
Context `{Pandas}.
Variables tol tol' : Q.
Variables skip skip' : bool.
Hypothesis tol_le : tol <= tol'.
Hypothesis skip_imp : skip = true -> skip' = true.
Variable cama_id : string.
Variable merged_cols : list string.
Variable direct : list DirectRule.
Variable sums : list SumRule.
Variable cats : list CategoricalRule.

Let strict := contribution tol skip cama_id merged_cols direct sums cats.
Let loose := contribution tol' skip' cama_id merged_cols direct sums cats.

Lemma contribution_looser (mrow : MergedRow) :
  missing_in_cama (loose mrow) = missing_in_cama (strict mrow)
  /\ missing_in_mls (loose mrow) = missing_in_mls (strict mrow)
  /\ sublist (value_mismatches (loose mrow)) (value_mismatches (strict mrow))
  /\ sublist (perfect_matches (strict mrow)) (perfect_matches (loose mrow)).
Proof.
  unfold strict, loose. destruct (_merge mrow) eqn:E.
  - destruct (contribution_left_only tol skip cama_id merged_cols direct sums cats
                mrow E) as [S1 [S2 [S3 S4]]].
    destruct (contribution_left_only tol' skip' cama_id merged_cols direct sums cats
                mrow E) as [L1 [L2 [L3 L4]]].
    rewrite S1, S2, S3, S4, L1, L2, L3, L4. repeat split; constructor.
  - destruct (contribution_right_only tol skip cama_id merged_cols direct sums cats
                mrow E) as [S1 [S2 [S3 S4]]].
    destruct (contribution_right_only tol' skip' cama_id merged_cols direct sums cats
                mrow E) as [L1 [L2 [L3 L4]]].
    rewrite S1, S2, S3, S4, L1, L2, L3, L4. repeat split; constructor.
  - destruct (contribution_both tol skip cama_id merged_cols direct sums cats
                mrow E) as [S1 [S2 [S3 S4]]].
    destruct (contribution_both tol' skip' cama_id merged_cols direct sums cats
                mrow E) as [L1 [L2 [L3 L4]]].
    destruct (compare_record_looser tol tol' skip skip' tol_le skip_imp merged_cols
                (fields mrow) (row_get (fields mrow) cama_id Null)
                (row_info (fields mrow)) direct sums cats) as [Hf Hm].
    rewrite S1, S2, S3, S4, L1, L2, L3, L4.
    split; [reflexivity|]. split; [reflexivity|]. split; [exact Hm|].
    rewrite Hf.
    match goal with
    | |- context [is_nil (record_mismatches ?s)] =>
        match s with
        | context [tol'] => fail 1
        | _ => destruct (record_mismatches s) as [|m ms] eqn:Em
        end
    end.
    + apply sublist_nil_r in Hm. rewrite Hm. apply sublist_refl.
    + simpl. apply sublist_nil_l.
Qed.
End LooseningTables.

Lemma flat_map_same {A B : Type} (f g : A -> list B) (l : list A) :
  (forall x, f x = g x) -> flat_map f l = flat_map g l.
Proof.
  intro Hfg. induction l as [|x l IH]; simpl; [reflexivity|].
  now rewrite Hfg, IH.
Qed.

(** X8: a run with a larger tolerance, or with skip-zero switched on, returns
    the same two tables of missing records and the same matched rows; its
    mismatch table is the stricter run's with rows left out, and its table of
    perfect matches keeps every perfect match of the stricter run. *)
Theorem looser_settings_on_the_tables :
  forall (P : Pandas) (tol tol' : Q) (skip skip' : bool)
         (df_mls df_cama : option DataFrame) (unique_id_col : UniqueId)
         (direct : list DirectRule) (sums : list SumRule)
         (cats : list CategoricalRule),
    tol <= tol' ->
    (skip = true -> skip' = true) ->
    let strict := returned_tables
                    (compare_data_enhanced tol skip df_mls df_cama unique_id_col
                       direct sums cats) in
    let loose := returned_tables
                   (compare_data_enhanced tol' skip' df_mls df_cama unique_id_col
                      direct sums cats) in
    df_missing_cama loose = df_missing_cama strict
    /\ df_missing_mls loose = df_missing_mls strict
    /\ matched_df loose = matched_df strict
    /\ sublist (df_value_mismatches loose) (df_value_mismatches strict)
    /\ sublist (df_perfect_matches strict) (df_perfect_matches loose).
Proof.
  intros P tol tol' skip skip' df_mls df_cama uid direct sums cats Htol Hskip.
  unfold compare_data_enhanced.
  destruct df_mls as [mls|]; [|simpl; repeat split; constructor].
  destruct df_cama as [cama|]; [|simpl; repeat split; constructor].
  destruct (is_nil direct); [simpl; repeat split; constructor|].
  destruct (id_mls_col uid) as [mls_id|]; [|simpl; repeat split; constructor].
  destruct (id_cama_col uid) as [cama_id|]; [|simpl; repeat split; constructor].
  destruct (in_columns mls_id (columns mls)); [|simpl; repeat split; constructor].
  destruct (negb (in_columns cama_id (columns cama)));
    [simpl; repeat split; constructor|].
  destruct (merge_raises _ _); [simpl; repeat split; constructor|].
  cbv zeta. unfold returned_tables.
  cbn [df_missing_cama df_missing_mls df_value_mismatches matched_df
       df_perfect_matches columns data].
  set (merged_cols := merged_columns cama_id _ _).
  set (merged_df := merge_outer cama_id _ _ _ _).
  pose proof (fold_visit_rows tol skip cama_id merged_cols direct sums cats
                merged_df no_lists) as [S1 [S2 [S3 S4]]].
  pose proof (fold_visit_rows tol' skip' cama_id merged_cols direct sums cats
                merged_df no_lists) as [L1 [L2 [L3 L4]]].
  rewrite S1, S2, S3, S4, L1, L2, L3, L4. simpl.
  split; [|split; [|split; [|split]]].
  - apply flat_map_same. intro mrow.
    apply (contribution_looser tol tol' skip skip' Htol Hskip).
  - apply flat_map_same. intro mrow.
    apply (contribution_looser tol tol' skip skip' Htol Hskip).
  - reflexivity.
  - apply sublist_flat_map. intros mrow _.
    apply (contribution_looser tol tol' skip skip' Htol Hskip).
  - apply sublist_flat_map. intros mrow _.
    apply (contribution_looser tol tol' skip skip' Htol Hskip).
Qed.

(** With skip-zero switched on, the parcel with 0 bedrooms against 5 loses its
    mismatch. *)
Lemma looser_settings_on_the_tables_witness :
  sublist
    (df_value_mismatches
       (returned_tables
          (@compare_data_enhanced decimal_pandas NUMERIC_TOLERANCE true
             (Some bedrooms_mls) (Some bedrooms_cama) UNIQUE_ID_COLUMN
             COLUMNS_TO_COMPARE COLUMNS_TO_COMPARE_SUM COLUMNS_TO_COMPARE_CATEGORICAL)))
    [bedrooms_mismatch].
Proof.
  assert (Hskip : false = true -> true = true) by reflexivity.
  assert (Htol : NUMERIC_TOLERANCE <= NUMERIC_TOLERANCE) by apply Qle_refl.
  exact (proj1 (proj2 (proj2 (proj2
           (looser_settings_on_the_tables decimal_pandas NUMERIC_TOLERANCE
              NUMERIC_TOLERANCE false true (Some bedrooms_mls) (Some bedrooms_cama)
              UNIQUE_ID_COLUMN COLUMNS_TO_COMPARE COLUMNS_TO_COMPARE_SUM
              COLUMNS_TO_COMPARE_CATEGORICAL Htol Hskip))))).
Defined.

(** ** Blank values *)

Section BlankFacts.
Context `{Pandas}.
Variable tolerance : Q.
Variable skip_zero : bool.
Variable merged_cols : list string.
Variable row : Series.
Variable record_id : scalar.
Variable info : RowInfo.

Lemma direct_step_blank (st : RecordState) (mapping : DirectRule) :
  is_blank (row_get row (mls_col mapping) Null) = true
  \/ is_blank (row_get row (cama_col mapping) Null) = true ->
  direct_step tolerance skip_zero merged_cols row record_id info st mapping = st.
Proof.
  intro Hb. unfold direct_step.
  destruct (negb (in_columns (mls_col mapping) merged_cols)
            || negb (in_columns (cama_col mapping) merged_cols)); [reflexivity|].
  destruct Hb as [-> | ->]; [reflexivity | now rewrite orb_true_r].
Qed.

Lemma sum_step_blank (st : RecordState) (mapping : SumRule) :
  is_blank (row_get row (sum_mls_col mapping) Null) = true
  \/ (forall col, In col (cama_cols mapping) -> isna (row_get row col Null) = true) ->
  sum_step tolerance skip_zero merged_cols row record_id info st mapping = st.
Proof.
  intro Hb. unfold sum_step.
  destruct (negb (in_columns (sum_mls_col mapping) merged_cols)); [reflexivity|].
  destruct (existsb _ (cama_cols mapping)); [reflexivity|].
  destruct Hb as [-> | Hnull]; [reflexivity|].
  rewrite (sum_cama_all_null row _ Hnull).
  now destruct (is_blank (row_get row (sum_mls_col mapping) Null)).
Qed.

Lemma categorical_step_blank (st : RecordState) (mapping : CategoricalRule) :
  is_blank (row_get row (cat_mls_col mapping) Null) = true
  \/ is_blank (row_get row (cat_cama_col mapping) Null) = true ->
  categorical_step tolerance merged_cols row record_id info st mapping = st.
Proof.
  intro Hb. unfold categorical_step.
  destruct (negb (in_columns (cat_mls_col mapping) merged_cols)); [reflexivity|].
  destruct (negb (in_columns (cat_cama_col mapping) merged_cols)); [reflexivity|].
  destruct Hb as [-> | ->]; [reflexivity|].
  now destruct (is_blank (row_get row (cat_mls_col mapping) Null)).
Qed.

Lemma fold_left_fixed {R : Type} (step : RecordState -> R -> RecordState)
    (rules : list R) (st : RecordState) :
  (forall r, In r rules -> step st r = st) -> fold_left step rules st = st.
Proof.
  induction rules as [|r rules IH]; intro Hfix; simpl; [reflexivity|].
  rewrite (Hfix r (or_introl eq_refl)). apply IH.
  intros r' Hin. apply Hfix. now right.
Qed.
End BlankFacts.

(** X9: a matched row on which every rule meets a blank value (the MLS value,
    or the CAMA value of a direct or categorical rule, or every CAMA value of
    a sum rule being missing) counts no field and reports no mismatch, under
    every setting: it is neither a mismatch nor a perfect match. *)
Theorem blank_record_is_skipped :
  forall (P : Pandas) (tolerance : Q) (skip_zero : bool) (cama_id : string)
         (merged_cols : list string) (mrow : MergedRow)
         (direct : list DirectRule) (sums : list SumRule)
         (cats : list CategoricalRule),
    _merge mrow = both ->
    (forall m, In m direct ->
       is_blank (row_get (fields mrow) (mls_col m) Null) = true
       \/ is_blank (row_get (fields mrow) (cama_col m) Null) = true) ->
    (forall m, In m sums ->
       is_blank (row_get (fields mrow) (sum_mls_col m) Null) = true
       \/ (forall col, In col (cama_cols m) ->
             isna (row_get (fields mrow) col Null) = true)) ->
    (forall m, In m cats ->
       is_blank (row_get (fields mrow) (cat_mls_col m) Null) = true
       \/ is_blank (row_get (fields mrow) (cat_cama_col m) Null) = true) ->
    record_state tolerance skip_zero cama_id merged_cols direct sums cats mrow
    = no_fields
    /\ in_bucket Skipped
         (contribution tolerance skip_zero cama_id merged_cols direct sums cats mrow).
Proof.
  intros P tolerance skip_zero cama_id merged_cols mrow direct sums cats
         Hboth Hd Hs Hc.
  assert (Hst : record_state tolerance skip_zero cama_id merged_cols direct sums
                  cats mrow = no_fields).
  { unfold record_state, compare_record.
    rewrite (fold_left_fixed _ direct no_fields).
    - rewrite (fold_left_fixed _ sums no_fields).
      + apply fold_left_fixed. intros m Hin. apply categorical_step_blank. now apply Hc.
      + intros m Hin. apply sum_step_blank. now apply Hs.
    - intros m Hin. apply direct_step_blank. now apply Hd. }
  split; [exact Hst|].
  destruct (contribution_both tolerance skip_zero cama_id merged_cols direct sums
              cats mrow Hboth) as [C1 [C2 [C3 C4]]].
  unfold record_state, record_id_of in Hst. rewrite Hst in C3, C4.
  simpl in C3, C4. simpl. auto.
Qed.

(** A row whose bedrooms and basement texts are blank and whose cooling is
    missing, under the shipped configuration. *)
Lemma blank_record_is_skipped_witness :
  @record_state decimal_pandas NUMERIC_TOLERANCE SKIP_ZERO_VALUES "PARID"
     blank_row_cols COLUMNS_TO_COMPARE COLUMNS_TO_COMPARE_SUM
     COLUMNS_TO_COMPARE_CATEGORICAL {| _merge := both; fields := blank_row |}
  = no_fields.
Proof.
  apply (blank_record_is_skipped decimal_pandas NUMERIC_TOLERANCE SKIP_ZERO_VALUES
           "PARID" blank_row_cols {| _merge := both; fields := blank_row |}
           COLUMNS_TO_COMPARE COLUMNS_TO_COMPARE_SUM COLUMNS_TO_COMPARE_CATEGORICAL).
  - reflexivity.
  - intros m [<- | [<- | [<- | [<- | []]]]]; left; reflexivity.
  - intros m [<- | []]. left. reflexivity.
  - intros m [<- | []]. left. reflexivity.
Defined.

(** ** More on duplicate identifiers *)

Lemma key_eqb_trans (a b c : scalar) :
  key_eqb a b = true -> key_eqb b c = true -> key_eqb a c = true.
Proof.
  destruct a as [x|s|], b as [y|t|], c as [z|u|]; simpl; try discriminate; auto.
  - apply Qeq_bool_trans.
  - intros E1 E2. apply String.eqb_eq in E1, E2. subst. apply String.eqb_refl.
Qed.

Lemma key_eqb_same_class (a b c : scalar) :
  key_eqb a b = true -> key_eqb b c = key_eqb a c.
Proof.
  intro Hab. destruct (key_eqb a c) eqn:Eac.
  - apply (key_eqb_trans b a c); [now rewrite key_eqb_sym | exact Eac].
  - destruct (key_eqb b c) eqn:Ebc; [|reflexivity].
    rewrite (key_eqb_trans a b c Hab Ebc) in Eac. discriminate Eac.
Qed.

Lemma filter_same {A : Type} (p q : A -> bool) (l : list A) :
  (forall x, p x = q x) -> filter p l = filter q l.
Proof.
  intro Hpq. induction l as [|x l IH]; simpl; [reflexivity|].
  now rewrite Hpq, IH.
Qed.

Lemma filter_all {A : Type} (p : A -> bool) (l : list A) :
  (forall x, In x l -> p x = true) -> filter p l = l.
Proof.
  induction l as [|x l IH]; intro Hall; simpl; [reflexivity|].
  rewrite (Hall x (or_introl eq_refl)). f_equal. apply IH.
  intros y Hy. apply Hall. now right.
Qed.

Lemma filter_none {A : Type} (p : A -> bool) (l : list A) :
  (forall x, In x l -> p x = false) -> filter p l = [].
Proof.
  induction l as [|x l IH]; intro Hall; simpl; [reflexivity|].
  rewrite (Hall x (or_introl eq_refl)). apply IH.
  intros y Hy. apply Hall. now right.
Qed.

Lemma filter_map_filter {A B : Type} (p : B -> bool) (f : A -> B) (q : A -> bool)
    (l : list A) :
  (forall y, In y l -> p (f y) = true -> q y = true) ->
  filter p (map f (filter q l)) = filter p (map f l).
Proof.
  induction l as [|x l IH]; intro Hpq; simpl; [reflexivity|].
  assert (Hrest : forall y, In y l -> p (f y) = true -> q y = true)
    by (intros y Hy; apply Hpq; now right).
  destruct (q x) eqn:Q; simpl.
  - destruct (p (f x)); now rewrite (IH Hrest).
  - destruct (p (f x)) eqn:Pf.
    + rewrite (Hpq x (or_introl eq_refl) Pf) in Q. discriminate Q.
    + exact (IH Hrest).
Qed.

Section DuplicateGroups.
Variable d : DataFrame.
Variable id_column : string.

Let occ := occurs_twice d id_column.
Let key := record_key d id_column.

(** Records with the same key are duplicates together. *)
Lemma occurs_twice_same_key (x y : list scalar) :
  key_eqb (key x) (key y) = true -> occ y = occ x.
Proof.
  intro Hk. unfold occ, occurs_twice. fold (key x) (key y).
  rewrite (filter_same (key_eqb (key y)) (key_eqb (key x))); [reflexivity|].
  intro z. now apply key_eqb_same_class.
Qed.

Lemma duplicates_not_single :
  List.length (filter occ (data d)) <> 1%nat.
Proof.
  intro Hone.
  destruct (filter occ (data d)) as [|x [|y rest]] eqn:Ef; try discriminate Hone.
  assert (Hx : In x (filter occ (data d))) by (rewrite Ef; now left).
  apply filter_In in Hx. destruct Hx as [Hin Hocc].
  apply In_nth_error in Hin. destruct Hin as [i Ei].
  pose proof (proj1 (occurs_twice_spec d id_column i x Ei) Hocc)
    as [j [other [Hij [Ej Hk]]]].
  assert (Hocc' : occ other = true)
    by (rewrite (occurs_twice_same_key x other Hk); exact Hocc).
  assert (Htwo : (1 < List.length (filter occ (data d)))%nat).
  { apply filter_more_than_one.
    destruct (Nat.lt_ge_cases i j) as [Hlt | Hge].
    - exists i, j, x, other. auto.
    - exists j, i, other, x. repeat split; auto. lia. }
  rewrite Ef in Htwo. simpl in Htwo. lia.
Qed.

Lemma duplicates_stay_duplicates :
  let r := {| columns := columns d; data := filter occ (data d) |} in
  filter (occurs_twice r id_column) (data r) = data r.
Proof.
  intro r. apply filter_all. intros x Hx. simpl in Hx.
  apply filter_In in Hx. destruct Hx as [Hin Hocc].
  unfold occurs_twice. rewrite (key_column_map r id_column). simpl data.
  change (record_key r id_column) with key.
  rewrite (filter_map_filter (key_eqb (key x)) key occ).
  - unfold occ, occurs_twice in Hocc.
    rewrite (key_column_map d id_column) in Hocc. exact Hocc.
  - intros y Hy Hk. rewrite (occurs_twice_same_key x y Hk). exact Hocc.
Qed.
End DuplicateGroups.

(** X10: the records find_duplicate_ids returns are records of the frame, in
    the frame's order and under the frame's columns, and never a single one:
    no record is reported without a partner. *)
Theorem duplicates_come_in_groups :
  forall (d r : DataFrame) (id_column : string),
    find_duplicate_ids (Some d) id_column = Some r ->
    sublist (data r) (data d)
    /\ List.length (data r) <> 1%nat
    /\ (data r <> [] -> columns r = columns d).
Proof.
  intros d r id_column Hfind.
  destruct (in_columns id_column (columns d)) eqn:Hcol.
  - destruct (find_duplicate_ids_returns d id_column r Hcol Hfind) as [-> _].
    pose proof (duplicates_not_single d id_column) as Hne.
    pose proof (sublist_filter (occurs_twice d id_column) (data d)) as Hsub.
    destruct (filter (occurs_twice d id_column) (data d)) as [|x rest]; simpl.
    + repeat split; [apply sublist_nil_l | discriminate | congruence].
    + repeat split; [exact Hsub | exact Hne].
  - unfold find_duplicate_ids in Hfind. rewrite Hcol in Hfind. simpl in Hfind.
    destruct (df_empty d); [|discriminate Hfind].
    injection Hfind as <-. simpl.
    repeat split; [apply sublist_nil_l | discriminate | congruence].
Qed.

Lemma duplicates_come_in_groups_witness :
  List.length
    (data {| columns := ["PARID"; "RMBED"]%string;
             data := [[Str "10-001"; Num 3]; [Str "10-001"; Num 4]] |}) <> 1%nat.
Proof.
  apply (duplicates_come_in_groups twice_cama
           {| columns := ["PARID"; "RMBED"]%string;
              data := [[Str "10-001"; Num 3]; [Str "10-001"; Num 4]] |} "PARID").
  reflexivity.
Defined.

(** X11: checking the returned duplicates again returns them all: every
    record reported as a duplicate has its partner in the report. *)
Theorem find_duplicate_ids_idempotent :
  forall (d r : DataFrame) (id_column : string),
    find_duplicate_ids (Some d) id_column = Some r ->
    find_duplicate_ids (Some r) id_column = Some r.
Proof.
  intros d r id_column Hfind.
  destruct (in_columns id_column (columns d)) eqn:Hcol.
  - destruct (find_duplicate_ids_returns d id_column r Hcol Hfind) as [-> Hord].
    pose proof (duplicates_stay_duplicates d id_column) as Hstay.
    destruct (filter (occurs_twice d id_column) (data d)) as [|x rest] eqn:Ef.
    + reflexivity.
    + cbv zeta in Hstay.
      rewrite (find_duplicate_ids_result
                 {| columns := columns d; data := x :: rest |} id_column Hcol).
      cbv zeta. rewrite Hstay. cbn [data].
      change (record_key {| columns := columns d; data := x :: rest |} id_column)
        with (record_key d id_column).
      rewrite Hord. reflexivity.
  - unfold find_duplicate_ids in Hfind. rewrite Hcol in Hfind. simpl in Hfind.
    destruct (df_empty d); [|discriminate Hfind].
    injection Hfind as <-. reflexivity.
Qed.

Lemma find_duplicate_ids_idempotent_witness :
  find_duplicate_ids
    (Some {| columns := ["PARID"; "RMBED"]%string;
             data := [[Str "10-001"; Num 3]; [Str "10-001"; Num 4]] |}) "PARID"
  = Some {| columns := ["PARID"; "RMBED"]%string;
            data := [[Str "10-001"; Num 3]; [Str "10-001"; Num 4]] |}.
Proof.
  apply (find_duplicate_ids_idempotent twice_cama). reflexivity.
Defined.

(** ** Duplicates and the merge *)

Lemma filter_length_imp {A : Type} (p q : A -> bool) (l : list A) :
  (forall x, p x = true -> q x = true) ->
  (List.length (filter p l) <= List.length (filter q l))%nat.
Proof.
  intro Hpq. induction l as [|x l IH]; simpl; [lia|].
  destruct (p x) eqn:Px.
  - rewrite (Hpq x Px). simpl. lia.
  - destruct (q x); simpl; lia.
Qed.

Lemma length_flat_map_ones {A B : Type} (f : A -> list B) (l : list A) :
  (forall x, In x l -> List.length (f x) = 1%nat) ->
  List.length (flat_map f l) = List.length l.
Proof.
  induction l as [|x l IH]; intro Hone; simpl; [reflexivity|].
  rewrite length_app, (Hone x (or_introl eq_refl)), IH; [reflexivity|].
  intros y Hy. apply Hone. now right.
Qed.

Lemma no_duplicates_one_match (cama : DataFrame) (id_column : string) (k : scalar) :
  filter (occurs_twice cama id_column) (data cama) = [] ->
  (List.length
     (filter (fun r => key_eqb k (row_key id_column r)) (iterrows cama)) <= 1)%nat.
Proof.
  intro Hnone.
  destruct (Nat.le_gt_cases
              (List.length
                 (filter (fun r => key_eqb k (row_key id_column r)) (iterrows cama)))
              1) as [Hle | Hgt]; [exact Hle|].
  exfalso.
  apply (filter_more_than_one (fun r => key_eqb k (row_key id_column r))) in Hgt.
  destruct Hgt as [i [j [x [y [Hij [Ei [Ej [Px Py]]]]]]]].
  unfold iterrows in Ei, Ej. rewrite nth_error_map in Ei, Ej.
  destruct (nth_error (data cama) i) as [ri|] eqn:Ri; [|discriminate Ei].
  destruct (nth_error (data cama) j) as [rj|] eqn:Rj; [|discriminate Ej].
  simpl in Ei, Ej. injection Ei as <-. injection Ej as <-.
  assert (Hk : key_eqb (record_key cama id_column ri) (record_key cama id_column rj)
               = true).
  { apply (key_eqb_trans _ k); [now rewrite key_eqb_sym | exact Py]. }
  assert (Hocc : occurs_twice cama id_column ri = true).
  { apply (occurs_twice_spec cama id_column i ri Ri).
    exists j, rj. repeat split; auto. lia. }
  assert (Hin : In ri (filter (occurs_twice cama id_column) (data cama))).
  { apply filter_In. split; [|exact Hocc]. eapply nth_error_In; eassumption. }
  rewrite Hnone in Hin. destruct Hin.
Qed.

Section OuterJoinShape.
Variable key : string.
Variables lcols rcols : list string.
Variables left right : list Series.

Let of_left (l : Series) : list MergedRow :=
  match matches_of key l right with
  | [] => [row_left_only key lcols rcols l]
  | ms => map (row_both key lcols rcols l) ms
  end.

Lemma outer_rows_parts :
  outer_rows key lcols rcols left right
  = flat_map of_left left
    ++ map (row_right_only key lcols rcols)
         (filter (fun r => negb (has_match key left r)) right).
Proof. reflexivity. Qed.

(** Ordering the rows changes no count. *)
Lemma merge_outer_count (p : MergedRow -> bool) :
  List.length (filter p (merge_outer key lcols rcols left right))
  = List.length (filter p (outer_rows key lcols rcols left right)).
Proof.
  apply Permutation_length, Permutation_filter. unfold merge_outer.
  apply sort_rows_perm.
Qed.

Lemma of_left_from_mls (l : Series) (m : MergedRow) :
  In m (of_left l) -> from_mls m = true.
Proof.
  unfold of_left. destruct (matches_of key l right) as [|r ms].
  - intros [<- | []]. reflexivity.
  - intro Hin. apply in_map_iff in Hin. destruct Hin as [r' [<- _]]. reflexivity.
Qed.

Lemma from_mls_rows :
  filter from_mls (outer_rows key lcols rcols left right) = flat_map of_left left.
Proof.
  rewrite outer_rows_parts, filter_app.
  rewrite (filter_none from_mls (map _ _)).
  - rewrite app_nil_r. apply filter_all.
    intros m Hin. apply in_flat_map in Hin. destruct Hin as [l [_ Hm]].
    now apply (of_left_from_mls l).
  - intros m Hin. apply in_map_iff in Hin. destruct Hin as [r [<- _]]. reflexivity.
Qed.

Lemma is_both_rows :
  map fields (filter is_both (outer_rows key lcols rcols left right))
  = merge_inner key lcols rcols left right.
Proof.
  rewrite outer_rows_parts, filter_app.
  rewrite (filter_none is_both (map _ _)).
  - rewrite app_nil_r. unfold merge_inner.
    induction left as [|l rest IH]; simpl; [reflexivity|].
    rewrite filter_app, map_app, IH. f_equal.
    unfold of_left. destruct (matches_of key l right) as [|r ms]; [reflexivity|].
    rewrite filter_all.
    + now rewrite map_map.
    + intros m Hin. apply in_map_iff in Hin. destruct Hin as [r' [<- _]]. reflexivity.
  - intros m Hin. apply in_map_iff in Hin. destruct Hin as [r [<- _]]. reflexivity.
Qed.

Lemma one_row_per_left_record :
  (forall l, In l left -> (List.length (matches_of key l right) <= 1)%nat) ->
  List.length (filter from_mls (merge_outer key lcols rcols left right))
  = List.length left.
Proof.
  intro Hone. rewrite merge_outer_count, from_mls_rows.
  apply length_flat_map_ones.
  intros l Hin. unfold of_left. specialize (Hone l Hin).
  destruct (matches_of key l right) as [|r ms]; [reflexivity|].
  rewrite length_map. simpl in *. lia.
Qed.

(** The matched rows are those of the inner join, up to their order. *)
Lemma is_both_rows_perm :
  Permutation (merge_inner key lcols rcols left right)
    (map fields (filter is_both (merge_outer key lcols rcols left right))).
Proof.
  rewrite <- is_both_rows. apply Permutation_map, Permutation_filter.
  unfold merge_outer. apply Permutation_sym, sort_rows_perm.
Qed.

Lemma is_both_rows_count :
  List.length (filter is_both (merge_outer key lcols rcols left right))
  = List.length (merge_inner key lcols rcols left right).
Proof.
  rewrite <- (length_map fields), <- (Permutation_length is_both_rows_perm).
  reflexivity.
Qed.
End OuterJoinShape.

Lemma from_mls_rows_count
    (mls cama : DataFrame) (mls_id cama_id : string) :
  in_columns cama_id (columns cama) = true ->
  find_duplicate_ids (Some cama) cama_id = Some empty_frame ->
  List.length (filter from_mls (merged_frame mls cama mls_id cama_id))
  = List.length (data mls).
Proof.
  intros Hcol Hfind.
  assert (Hnone : filter (occurs_twice cama cama_id) (data cama) = []).
  { destruct (find_duplicate_ids_returns cama cama_id empty_frame Hcol Hfind) as [Hret _].
    destruct (filter (occurs_twice cama cama_id) (data cama)) as [|x rest];
      [reflexivity | discriminate Hret]. }
  unfold merged_frame. cbv zeta.
  rewrite one_row_per_left_record.
  - apply length_map.
  - intros l _. unfold matches_of.
    apply (no_duplicates_one_match cama cama_id (row_key cama_id l) Hnone).
Qed.

(** X12: when the duplicate check finds nothing in the CAMA frame, every MLS
    record is in exactly one row of the merged frame (left-only or matched),
    so that no more rows are matched than MLS has records. *)
Theorem unique_cama_keys_one_row_per_mls_record :
  forall (mls cama : DataFrame) (mls_id cama_id : string),
    in_columns cama_id (columns cama) = true ->
    find_duplicate_ids (Some cama) cama_id = Some empty_frame ->
    let merged_df := merged_frame mls cama mls_id cama_id in
    List.length (filter from_mls merged_df) = List.length (data mls)
    /\ (List.length (filter is_both merged_df) <= List.length (data mls))%nat.
Proof.
  intros mls cama mls_id cama_id Hcol Hfind merged_df.
  assert (Hcount : List.length (filter from_mls merged_df) = List.length (data mls))
    by (apply from_mls_rows_count; assumption).
  split; [exact Hcount|].
  rewrite <- Hcount. apply filter_length_imp.
  intros m. unfold is_both, from_mls. now destruct (_merge m).
Qed.

(** The two records of [town_mls] give two rows, one matched and one
    left-only. *)
Lemma unique_cama_keys_one_row_per_mls_record_witness :
  List.length
    (filter from_mls (merged_frame town_mls town_cama "Parcel Number" "PARID"))
  = 2%nat.
Proof.
  apply (unique_cama_keys_one_row_per_mls_record town_mls town_cama
           "Parcel Number" "PARID"); reflexivity.
Defined.

(** X13: when the comparison runs, the fourth table it returns, matched_df
    (the inner join), holds the data of the merged rows marked 'both', the
    rows whose fields are compared; the count of "records matched" is the
    count of those rows. *)
Theorem matched_rows_are_the_inner_join :
  forall (P : Pandas) (tolerance : Q) (skip_zero : bool) (mls cama : DataFrame)
         (mls_id cama_id : string) (direct : list DirectRule) (sums : list SumRule)
         (cats : list CategoricalRule) (t : Tables),
    compare_data_enhanced tolerance skip_zero (Some mls) (Some cama)
      {| id_mls_col := Some mls_id; id_cama_col := Some cama_id |}
      direct sums cats = inr t ->
    Permutation (matched_df t)
      (map fields (filter is_both (merged_frame mls cama mls_id cama_id)))
    /\ List.length (matched_df t)
       = List.length (filter is_both (merged_frame mls cama mls_id cama_id)).
Proof.
  intros P tolerance skip_zero mls cama mls_id cama_id direct sums cats t Hrun.
  unfold compare_data_enhanced in Hrun.
  destruct (is_nil direct); [discriminate Hrun|]. simpl in Hrun.
  destruct (in_columns mls_id (columns mls)); [|discriminate Hrun].
  destruct (negb (in_columns cama_id (columns cama))); [discriminate Hrun|].
  destruct (merge_raises _ _); [discriminate Hrun|].
  injection Hrun as <-. cbn [matched_df].
  unfold merged_frame. cbv zeta. split.
  - apply is_both_rows_perm.
  - unfold iterrows. cbn [columns data]. now rewrite is_both_rows_count.
Qed.

Lemma matched_rows_are_the_inner_join_witness :
  List.length
    (matched_df
       (returned_tables
          (@compare_data_enhanced decimal_pandas NUMERIC_TOLERANCE SKIP_ZERO_VALUES
             (Some town_mls) (Some town_cama) UNIQUE_ID_COLUMN COLUMNS_TO_COMPARE
             COLUMNS_TO_COMPARE_SUM COLUMNS_TO_COMPARE_CATEGORICAL)))
  = List.length (filter is_both (merged_frame town_mls town_cama "Parcel Number" "PARID")).
Proof.
  apply (matched_rows_are_the_inner_join decimal_pandas NUMERIC_TOLERANCE
           SKIP_ZERO_VALUES town_mls town_cama "Parcel Number" "PARID"
           COLUMNS_TO_COMPARE COLUMNS_TO_COMPARE_SUM COLUMNS_TO_COMPARE_CATEGORICAL).
  reflexivity.
Defined.

(** ** The merge and its error *)

Lemma text_keys_are_text_like (keys : list scalar) :
  keys <> [] -> forallb is_text keys = true -> text_like_keys keys = true.
Proof.
  intros Hne Hall. unfold text_like_keys.
  destruct keys as [|k keys]; [now elim Hne|].
  simpl in Hall. apply andb_true_iff in Hall. destruct Hall as [Hk Hall].
  simpl existsb at 1. rewrite Hk. simpl.
  assert (G : forall l, forallb is_text l = true -> existsb is_whole_number l = false).
  { induction l as [|x l IH]; simpl; [reflexivity|].
    intro E. apply andb_true_iff in E. destruct E as [Ex El].
    destruct x; try discriminate Ex. simpl. now apply IH. }
  destruct k; try discriminate Hk. simpl. now rewrite (G keys Hall).
Qed.

Lemma unlike_keys_raise (left_keys right_keys : list scalar) :
  left_keys <> [] -> right_keys <> [] ->
  (forallb is_text left_keys = true /\ existsb is_text right_keys = false)
  \/ (existsb is_text left_keys = false /\ forallb is_text right_keys = true) ->
  merge_raises left_keys right_keys = true.
Proof.
  intros Hl Hr Hkinds. unfold merge_raises.
  destruct left_keys as [|l ls] eqn:El; [now elim Hl|].
  destruct right_keys as [|r rs] eqn:Er; [now elim Hr|].
  rewrite <- El, <- Er in *. unfold numeric_keys.
  destruct Hkinds as [[Ht Hn] | [Hn Ht]].
  - rewrite (text_keys_are_text_like _ Hl Ht), Hn. reflexivity.
  - rewrite (text_keys_are_text_like _ Hr Ht), Hn. simpl. apply orb_true_r.
Qed.

(** X21: past its own checks the comparison can still end without any
    table: when both frames have rows and one key column holds texts only
    while the other holds no text, pd.merge raises an error that nothing
    catches. *)
Theorem merge_raises_on_unlike_keys :
  forall (P : Pandas) (tolerance : Q) (skip_zero : bool) (mls cama : DataFrame)
         (mls_id cama_id : string) (direct : list DirectRule) (sums : list SumRule)
         (cats : list CategoricalRule),
    direct <> [] ->
    in_columns mls_id (columns mls) = true ->
    in_columns cama_id (columns cama) = true ->
    key_column mls mls_id <> [] ->
    key_column cama cama_id <> [] ->
    (forallb is_text (key_column mls mls_id) = true
     /\ existsb is_text (key_column cama cama_id) = false)
    \/ (existsb is_text (key_column mls mls_id) = false
        /\ forallb is_text (key_column cama cama_id) = true) ->
    compare_data_enhanced tolerance skip_zero (Some mls) (Some cama)
      {| id_mls_col := Some mls_id; id_cama_col := Some cama_id |}
      direct sums cats = inl MergeRaised.
Proof.
  intros P tolerance skip_zero mls cama mls_id cama_id direct sums cats
         Hd Im Ic Hl Hr Hkinds.
  unfold compare_data_enhanced.
  destruct direct as [|d direct]; [now elim Hd|].
  simpl is_nil. cbv iota. cbn [id_mls_col id_cama_col].
  rewrite Im, Ic. simpl negb. cbv iota.
  now rewrite (unlike_keys_raise _ _ Hl Hr Hkinds).
Qed.

(** Text keys in MLS against numeric keys in CAMA. *)
Lemma merge_raises_on_unlike_keys_witness :
  @compare_data_enhanced decimal_pandas NUMERIC_TOLERANCE SKIP_ZERO_VALUES
     (Some bedrooms_mls) (Some numbered_cama) UNIQUE_ID_COLUMN
     COLUMNS_TO_COMPARE COLUMNS_TO_COMPARE_SUM COLUMNS_TO_COMPARE_CATEGORICAL
  = inl MergeRaised.
Proof.
  apply (merge_raises_on_unlike_keys decimal_pandas NUMERIC_TOLERANCE
           SKIP_ZERO_VALUES bedrooms_mls numbered_cama "Parcel Number" "PARID"
           COLUMNS_TO_COMPARE COLUMNS_TO_COMPARE_SUM COLUMNS_TO_COMPARE_CATEGORICAL).
  - discriminate.
  - reflexivity.
  - reflexivity.
  - discriminate.
  - discriminate.
  - left. split; reflexivity.
Defined.

(** ** The main block *)

(** X14: whenever the main block ends with a comparison, its own checks
    have already excluded every early return of compare_data_enhanced: what
    the comparison returned are its tables, not the five empty frames of an
    early return; and both duplicate checks have returned before it. *)
Theorem main_reaches_the_comparison :
  forall (P : Pandas) (mls_data cama_data : option DataFrame)
         (dup_mls dup_cama : DataFrame) (result : ConfigError + Tables),
    main mls_data cama_data = Compared dup_mls dup_cama result ->
    (exists t : Tables,
        result = inr t
        /\ compare_data_enhanced NUMERIC_TOLERANCE SKIP_ZERO_VALUES
             mls_data cama_data UNIQUE_ID_COLUMN COLUMNS_TO_COMPARE
             COLUMNS_TO_COMPARE_SUM COLUMNS_TO_COMPARE_CATEGORICAL = inr t)
    /\ find_duplicate_ids mls_data "Parcel Number" = Some dup_mls
    /\ find_duplicate_ids cama_data "PARID" = Some dup_cama.
Proof.
  intros P mls_data cama_data dup_mls dup_cama result. unfold main.
  destruct mls_data as [mls|]; [|discriminate].
  destruct cama_data as [cama|]; [|discriminate].
  simpl id_mls_col. simpl id_cama_col. cbv iota.
  destruct (in_columns "Parcel Number" (columns mls)) eqn:Hm; [|discriminate].
  destruct (in_columns "PARID" (columns cama)) eqn:Hc; [|discriminate].
  simpl negb. cbv iota.
  destruct (find_duplicate_ids (Some mls) "Parcel Number") as [d1|]; [|discriminate].
  destruct (find_duplicate_ids (Some cama) "PARID") as [d2|]; [|discriminate].
  unfold compare_data_enhanced.
  cbn [is_nil COLUMNS_TO_COMPARE UNIQUE_ID_COLUMN id_mls_col id_cama_col].
  rewrite Hm, Hc. cbn [negb].
  destruct (merge_raises _ _); [discriminate|].
  intro E. injection E as <- <- <-.
  split; [eexists; split; reflexivity | split; reflexivity].
Qed.

(** The two small frames of the town: no duplicates, and three tables. *)
Lemma main_reaches_the_comparison_witness :
  find_duplicate_ids (Some town_mls) "Parcel Number" = Some empty_frame
  /\ find_duplicate_ids (Some town_cama) "PARID" = Some empty_frame.
Proof.
  exact (proj2 (main_reaches_the_comparison decimal_pandas (Some town_mls)
                  (Some town_cama) empty_frame empty_frame _ eq_refl)).
Defined.

(** ** The reports *)

Lemma flat_map_nil {A B : Type} (f : A -> list B) (l : list A) :
  flat_map f l = [] <-> forall x, In x l -> f x = [].
Proof.
  induction l as [|x l IH]; simpl.
  - split; [intros _ y [] | reflexivity].
  - split.
    + intro E. apply app_eq_nil in E. destruct E as [Ex El].
      intros y [<- | Hy]; [exact Ex | now apply IH].
    + intro Hall. rewrite (Hall x (or_introl eq_refl)). simpl.
      apply IH. intros y Hy. apply Hall. now right.
Qed.

Lemma no_report_iff_empty_tables (a : list MissingInCama) (b : list scalar)
    (c : list Mismatch) (d : list PerfectMatch) (prefix : string) :
  report_discrepancies_enhanced a b c d prefix = []
  <-> a = [] /\ b = [] /\ c = [] /\ d = [].
Proof.
  unfold report_discrepancies_enhanced.
  destruct a, b, c, d; simpl; split; intro Hx;
    try discriminate Hx; auto;
    destruct Hx as [Ha [Hb [Hc Hd]]]; discriminate.
Qed.

(** X15: a workbook is written for no table after an early return of the
    comparison; after a run, none is written exactly when every merged row
    is skipped (no record is missing on either side, no field of a matched
    row was counted); and never more than four are written. *)
Theorem reports_follow_the_buckets :
  forall (P : Pandas) (tolerance : Q) (skip_zero : bool),
    (forall (df_mls df_cama : option DataFrame) (unique_id_col : UniqueId)
            (direct : list DirectRule) (sums : list SumRule)
            (cats : list CategoricalRule),
        let r := compare_data_enhanced tolerance skip_zero df_mls df_cama
                   unique_id_col direct sums cats in
        ((exists e, r = inl e) -> reports_of r = [])
        /\ (List.length (reports_of r) <= 4)%nat)
    /\ (forall (mls cama : DataFrame) (mls_id cama_id : string)
               (direct : list DirectRule) (sums : list SumRule)
               (cats : list CategoricalRule) (t : Tables),
          compare_data_enhanced tolerance skip_zero (Some mls) (Some cama)
            {| id_mls_col := Some mls_id; id_cama_col := Some cama_id |}
            direct sums cats = inr t ->
          (reports_of (inr t) = []
           <-> forall mrow,
                 In mrow (merged_frame mls cama mls_id cama_id) ->
                 in_bucket Skipped
                   (contribution tolerance skip_zero cama_id
                      (merged_frame_columns mls cama mls_id cama_id)
                      direct sums cats mrow))).
Proof.
  intros P tolerance skip_zero. split.
  - intros df_mls df_cama uid direct sums cats r. split.
    + intros [e ->]. reflexivity.
    + unfold reports_of, report_discrepancies_enhanced.
      rewrite !length_app.
      repeat match goal with
             | |- context [if ?c then _ else _] => destruct c
             end; simpl; lia.
  - intros mls cama mls_id cama_id direct sums cats t Hrun.
    unfold compare_data_enhanced in Hrun.
    destruct (is_nil direct); [discriminate Hrun|]. simpl in Hrun.
    destruct (in_columns mls_id (columns mls)); [|discriminate Hrun].
    destruct (negb (in_columns cama_id (columns cama))); [discriminate Hrun|].
  destruct (merge_raises _ _); [discriminate Hrun|].
    injection Hrun as <-.
    unfold reports_of, returned_tables.
    cbn [df_missing_cama df_missing_mls df_value_mismatches df_perfect_matches].
    rewrite no_report_iff_empty_tables.
    fold (merged_frame_columns mls cama mls_id cama_id).
    set (merged_cols := merged_frame_columns mls cama mls_id cama_id).
    change (merge_outer cama_id _ _ _ _) with (merged_frame mls cama mls_id cama_id).
    set (merged_df := merged_frame mls cama mls_id cama_id).
    pose proof (fold_visit_rows tolerance skip_zero cama_id merged_cols direct sums
                  cats merged_df no_lists) as [F1 [F2 [F3 F4]]].
    rewrite F1, F2, F3, F4. simpl. rewrite !flat_map_nil.
    split.
    + intros [H1 [H2 [H3 H4]]] mrow Hin. simpl. auto.
    + intro Hall. repeat split; intros mrow Hin; apply (Hall mrow Hin).
Qed.

(** Two frames holding the same single parcel, whose bedrooms cell is blank
    in MLS: the row is skipped and no workbook is written. *)
Lemma reports_follow_the_buckets_witness :
  reports_of
    (@compare_data_enhanced decimal_pandas NUMERIC_TOLERANCE SKIP_ZERO_VALUES
       (Some quiet_mls) (Some bedrooms_cama) UNIQUE_ID_COLUMN COLUMNS_TO_COMPARE
       COLUMNS_TO_COMPARE_SUM COLUMNS_TO_COMPARE_CATEGORICAL)
  = [].
Proof.
  apply (proj2 (reports_follow_the_buckets decimal_pandas NUMERIC_TOLERANCE
                  SKIP_ZERO_VALUES) quiet_mls bedrooms_cama "Parcel Number" "PARID"
           COLUMNS_TO_COMPARE COLUMNS_TO_COMPARE_SUM COLUMNS_TO_COMPARE_CATEGORICAL
           _ eq_refl).
  intros mrow [<- | []]. simpl. auto.
Defined.

(** ** The Zillow link *)






(** ** The counts of the summary *)

Section RowCounts.
Context `{Pandas}.
Variable tolerance : Q.
Variable skip_zero : bool.
Variable cama_id : string.
Variable merged_cols : list string.
Variable direct : list DirectRule.
Variable sums : list SumRule.
Variable cats : list CategoricalRule.

Let contrib := contribution tolerance skip_zero cama_id merged_cols direct sums cats.

Lemma count_rows (rows : list MergedRow) :
  (List.length (flat_map (fun r => missing_in_cama (contrib r)) rows)
   + List.length (filter is_both rows)
   = List.length (filter from_mls rows))%nat
  /\ (List.length (flat_map (fun r => missing_in_mls (contrib r)) rows)
      + List.length (filter from_mls rows)
      = List.length rows)%nat
  /\ (List.length (flat_map (fun r => perfect_matches (contrib r)) rows)
      <= List.length (filter is_both rows))%nat.
Proof.
  induction rows as [|r rows [I1 [I2 I3]]]; simpl; [repeat split; lia|].
  rewrite !length_app. unfold is_both, from_mls, contrib.
  destruct (_merge r) eqn:E.
  - destruct (contribution_left_only tolerance skip_zero cama_id merged_cols direct
                sums cats r E) as [C1 [C2 [C3 C4]]].
    rewrite C1, C2, C4. simpl. fold contrib. unfold is_both, from_mls in *.
    repeat split; lia.
  - destruct (contribution_right_only tolerance skip_zero cama_id merged_cols direct
                sums cats r E) as [C1 [C2 [C3 C4]]].
    rewrite C1, C2, C4. simpl. fold contrib. unfold is_both, from_mls in *.
    repeat split; lia.
  - destruct (contribution_both tolerance skip_zero cama_id merged_cols direct
                sums cats r E) as [C1 [C2 [C3 C4]]].
    rewrite C1, C2, C4. simpl. fold contrib. unfold is_both, from_mls in *.
    match goal with |- context [if ?c then _ else _] => destruct c end;
      simpl; repeat split; lia.
Qed.
End RowCounts.

(** X17: the counts printed by the main block add up: every merged row is
    counted once, as missing in CAMA, missing in MLS or matched; the perfect
    matches are no more than the matched rows; and when the duplicate check
    finds nothing in CAMA, the records missing in CAMA and the matched rows
    together are the MLS records. *)
Theorem summary_counts_add_up :
  forall (P : Pandas) (tolerance : Q) (skip_zero : bool) (mls cama : DataFrame)
         (mls_id cama_id : string) (direct : list DirectRule) (sums : list SumRule)
         (cats : list CategoricalRule) (t : Tables),
    compare_data_enhanced tolerance skip_zero (Some mls) (Some cama)
      {| id_mls_col := Some mls_id; id_cama_col := Some cama_id |}
      direct sums cats = inr t ->
    (List.length (df_missing_cama t) + List.length (df_missing_mls t)
     + List.length (matched_df t)
     = List.length (merged_frame mls cama mls_id cama_id))%nat
    /\ (List.length (df_perfect_matches t) <= List.length (matched_df t))%nat
    /\ (find_duplicate_ids (Some cama) cama_id = Some empty_frame ->
        (List.length (df_missing_cama t) + List.length (matched_df t)
         = List.length (data mls))%nat).
Proof.
  intros P tolerance skip_zero mls cama mls_id cama_id direct sums cats t Hrun.
  unfold compare_data_enhanced in Hrun.
  destruct (is_nil direct); [discriminate Hrun|]. simpl in Hrun.
  destruct (in_columns mls_id (columns mls)); [|discriminate Hrun].
  destruct (in_columns cama_id (columns cama)) eqn:Hcol; [|discriminate Hrun].
  cbn [negb] in Hrun.
  destruct (merge_raises _ _); [discriminate Hrun|].
  injection Hrun as <-.
  cbn [df_missing_cama df_missing_mls df_perfect_matches matched_df].
  fold (merged_frame_columns mls cama mls_id cama_id).
  set (merged_cols := merged_frame_columns mls cama mls_id cama_id).
  change (merge_outer cama_id _ _ _ _) with (merged_frame mls cama mls_id cama_id).
  assert (Hinner : List.length
                     (merge_inner cama_id (rename_columns mls_id cama_id (columns mls))
                        (columns cama)
                        (iterrows {| columns := rename_columns mls_id cama_id
                                                  (columns mls);
                                     data := data mls |})
                        (iterrows cama))
                   = List.length (filter is_both (merged_frame mls cama mls_id cama_id))).
  { unfold merged_frame. cbv zeta. unfold iterrows at 1. cbn [columns data].
    now rewrite is_both_rows_count. }
  rewrite Hinner.
  set (merged_df := merged_frame mls cama mls_id cama_id).
  pose proof (fold_visit_rows tolerance skip_zero cama_id merged_cols direct sums
                cats merged_df no_lists) as [F1 [F2 [F3 F4]]].
  rewrite F1, F2, F4. simpl.
  destruct (count_rows tolerance skip_zero cama_id merged_cols direct sums cats
              merged_df) as [K1 [K2 K3]].
  split; [lia|]. split; [exact K3|].
  intro Hfind.
  pose proof (from_mls_rows_count mls cama mls_id cama_id Hcol Hfind) as Hone.
  fold merged_df in Hone. lia.
Qed.

(** Both frames of the town: 2 MLS records, 1 of them matched. *)
Lemma summary_counts_add_up_witness :
  (List.length
     (df_missing_cama
        (returned_tables
           (@compare_data_enhanced decimal_pandas NUMERIC_TOLERANCE SKIP_ZERO_VALUES
              (Some town_mls) (Some town_cama) UNIQUE_ID_COLUMN COLUMNS_TO_COMPARE
              COLUMNS_TO_COMPARE_SUM COLUMNS_TO_COMPARE_CATEGORICAL)))
   + List.length
       (matched_df
          (returned_tables
             (@compare_data_enhanced decimal_pandas NUMERIC_TOLERANCE SKIP_ZERO_VALUES
                (Some town_mls) (Some town_cama) UNIQUE_ID_COLUMN COLUMNS_TO_COMPARE
                COLUMNS_TO_COMPARE_SUM COLUMNS_TO_COMPARE_CATEGORICAL)))
   = 2)%nat.
Proof.
  apply (proj2 (proj2 (summary_counts_add_up decimal_pandas NUMERIC_TOLERANCE
                         SKIP_ZERO_VALUES town_mls town_cama "Parcel Number" "PARID"
                         COLUMNS_TO_COMPARE COLUMNS_TO_COMPARE_SUM
                         COLUMNS_TO_COMPARE_CATEGORICAL _ eq_refl))).
  reflexivity.
Defined.

Section Counting2.
Context {A B : Type}.

Lemma filter_length_split (p : A -> bool) (l : list A) :
  (List.length (filter p l) + List.length (filter (fun x => negb (p x)) l)
   = List.length l)%nat.
Proof.
  induction l as [|x l IH]; simpl; [reflexivity|].
  destruct (p x); simpl; lia.
Qed.

Lemma filter_map_length (p : B -> bool) (f : A -> B) (l : list A) :
  List.length (filter p (map f l)) = List.length (filter (fun x => p (f x)) l).
Proof.
  induction l as [|x l IH]; simpl; [reflexivity|].
  destruct (p (f x)); simpl; now rewrite IH.
Qed.

Lemma filter_at_most_one (p : A -> bool) (l : list A) :
  (List.length (filter p l) <= 1)%nat ->
  List.length (filter p l) = if existsb p l then 1%nat else 0%nat.
Proof.
  induction l as [|x l IH]; simpl; [reflexivity|].
  destruct (p x) eqn:Px; simpl.
  - intro Hle. lia.
  - exact IH.
Qed.

Lemma length_flat_map_flags (f : A -> list B) (q : A -> bool) (l : list A) :
  (forall x, In x l -> List.length (f x) = if q x then 1%nat else 0%nat) ->
  List.length (flat_map f l) = List.length (filter q l).
Proof.
  induction l as [|x l IH]; intro Hf; simpl; [reflexivity|].
  rewrite length_app, (Hf x (or_introl eq_refl)), IH.
  - destruct (q x); simpl; lia.
  - intros y Hy. apply Hf. now right.
Qed.

Lemma length_flat_map_map {C : Type} (f : A -> list B) (g : A -> B -> C) (l : list A) :
  List.length (flat_map (fun x => map (g x) (f x)) l) = List.length (flat_map f l).
Proof.
  induction l as [|x l IH]; simpl; [reflexivity|].
  now rewrite !length_app, length_map, IH.
Qed.

(** Counting the pairs that satisfy [p] by their first or by their second
    component. *)
Lemma count_pairs_cons (p : A -> B -> bool) (x : A) (xs : list A) (ys : list B) :
  (List.length (flat_map (fun y => filter (fun a => p a y) (x :: xs)) ys)
   = List.length (filter (p x) ys)
     + List.length (flat_map (fun y => filter (fun a => p a y) xs) ys))%nat.
Proof.
  induction ys as [|y ys IH]; simpl; [reflexivity|].
  rewrite !length_app. simpl in IH.
  destruct (p x y); simpl; rewrite ?length_app; lia.
Qed.

Lemma count_pairs_swap (p : A -> B -> bool) (xs : list A) (ys : list B) :
  List.length (flat_map (fun x => filter (p x) ys) xs)
  = List.length (flat_map (fun y => filter (fun a => p a y) xs) ys).
Proof.
  induction xs as [|x xs IH]; simpl.
  - induction ys as [|y ys IHy]; simpl; [reflexivity | exact IHy].
  - rewrite length_app, IH. symmetry. apply count_pairs_cons.
Qed.
End Counting2.

Lemma matched_rows_by_cama_record (key : string) (lcols rcols : list string)
    (left right : list Series) :
  (forall r, In r right ->
     (List.length (filter (fun l => key_eqb (row_key key l) (row_key key r)) left)
      <= 1)%nat) ->
  List.length (merge_inner key lcols rcols left right)
  = List.length (filter (has_match key left) right).
Proof.
  intro Hone. unfold merge_inner.
  rewrite (length_flat_map_map (fun l => matches_of key l right)
             (fun l r => fields (row_both key lcols rcols l r)) left).
  unfold matches_of.
  rewrite (count_pairs_swap (fun l r => key_eqb (row_key key l) (row_key key r))
             left right).
  apply length_flat_map_flags. intros r Hr.
  unfold has_match. apply filter_at_most_one. now apply Hone.
Qed.

Lemma right_only_rows_count (P : Pandas) (tolerance : Q) (skip_zero : bool)
    (key : string) (merged_cols lcols rcols : list string) (left right : list Series)
    (direct : list DirectRule) (sums : list SumRule) (cats : list CategoricalRule) :
  List.length
    (flat_map
       (fun r => missing_in_mls
                   (contribution tolerance skip_zero key merged_cols direct sums cats r))
       (merge_outer key lcols rcols left right))
  = List.length (filter (fun r => negb (has_match key left r)) right).
Proof.
  destruct (count_rows tolerance skip_zero key merged_cols direct sums cats
              (merge_outer key lcols rcols left right)) as [_ [K2 _]].
  rewrite merge_outer_count, from_mls_rows in K2.
  assert (L : List.length (merge_outer key lcols rcols left right)
              = List.length (outer_rows key lcols rcols left right))
    by (apply Permutation_length; unfold merge_outer; apply sort_rows_perm).
  rewrite L, outer_rows_parts, length_app, length_map in K2. lia.
Qed.

(** X18: when the duplicate check finds nothing in the MLS frame (a
    rectangular frame, the key naming one column of the merged frame), the
    records missing in MLS and the matched rows together are the CAMA
    records. *)
Theorem missing_in_mls_and_matched_add_up :
  forall (P : Pandas) (tolerance : Q) (skip_zero : bool) (mls cama : DataFrame)
         (mls_id cama_id : string) (direct : list DirectRule) (sums : list SumRule)
         (cats : list CategoricalRule) (t : Tables),
    compare_data_enhanced tolerance skip_zero (Some mls) (Some cama)
      {| id_mls_col := Some mls_id; id_cama_col := Some cama_id |}
      direct sums cats = inr t ->
    rectangular mls = true ->
    names_one_column cama_id (merged_frame_columns mls cama mls_id cama_id) = true ->
    find_duplicate_ids (Some mls) mls_id = Some empty_frame ->
    (List.length (df_missing_mls t) + List.length (matched_df t)
     = List.length (data cama))%nat.
Proof.
  intros P tolerance skip_zero mls cama mls_id cama_id direct sums cats t
         Hrun Hrect Hone Hfind.
  unfold compare_data_enhanced in Hrun.
  destruct (is_nil direct); [discriminate Hrun|]. simpl in Hrun.
  destruct (in_columns mls_id (columns mls)) eqn:Hmls; [|discriminate Hrun].
  destruct (negb (in_columns cama_id (columns cama))); [discriminate Hrun|].
  destruct (merge_raises _ _); [discriminate Hrun|].
  injection Hrun as <-. cbn [df_missing_mls matched_df].
  assert (Hnone : filter (occurs_twice mls mls_id) (data mls) = []).
  { destruct (find_duplicate_ids_returns mls mls_id empty_frame Hmls Hfind) as [Hret _].
    destruct (filter (occurs_twice mls mls_id) (data mls)) as [|x rest];
      [reflexivity | discriminate Hret]. }
  apply in_columns_In in Hmls.
  set (lcols := rename_columns mls_id cama_id (columns mls)) in *.
  unfold iterrows at 1 3. cbn [columns data].
  set (left := map (combine lcols) (data mls)).
  assert (Hleft : forall r, In r (iterrows cama) ->
            (List.length
               (filter (fun l => key_eqb (row_key cama_id l) (row_key cama_id r)) left)
             <= 1)%nat).
  { intros r _. unfold left. rewrite filter_map_length.
    pose proof (no_duplicates_one_match mls mls_id (row_key cama_id r) Hnone) as Hm.
    unfold iterrows in Hm. rewrite filter_map_length in Hm.
    rewrite (filter_ext_in
               (fun x => key_eqb (row_key cama_id (combine lcols x)) (row_key cama_id r))
               (fun x => key_eqb (row_key cama_id r)
                           (row_key mls_id (combine (columns mls) x)))); [exact Hm|].
    intros rec Hrec. rewrite key_eqb_sym. f_equal.
    apply (row_key_left cama_id mls_id (columns mls) (columns cama) Hone Hmls).
    now apply rectangular_length. }
  rewrite (matched_rows_by_cama_record cama_id lcols (columns cama) left
             (iterrows cama) Hleft).
  pose proof (fold_visit_rows tolerance skip_zero cama_id
                (merged_columns cama_id lcols (columns cama)) direct sums cats
                (merge_outer cama_id lcols (columns cama) left (iterrows cama))
                no_lists) as [_ [F2 _]].
  rewrite F2. simpl.
  rewrite right_only_rows_count.
  pose proof (filter_length_split (has_match cama_id left) (iterrows cama)) as Hs.
  unfold iterrows in Hs at 3. rewrite length_map in Hs. lia.
Qed.

(** Both frames of the town: 2 CAMA records, 1 of them matched. *)
Lemma missing_in_mls_and_matched_add_up_witness :
  (List.length
     (df_missing_mls
        (returned_tables
           (@compare_data_enhanced decimal_pandas NUMERIC_TOLERANCE SKIP_ZERO_VALUES
              (Some town_mls) (Some town_cama) UNIQUE_ID_COLUMN COLUMNS_TO_COMPARE
              COLUMNS_TO_COMPARE_SUM COLUMNS_TO_COMPARE_CATEGORICAL)))
   + List.length
       (matched_df
          (returned_tables
             (@compare_data_enhanced decimal_pandas NUMERIC_TOLERANCE SKIP_ZERO_VALUES
                (Some town_mls) (Some town_cama) UNIQUE_ID_COLUMN COLUMNS_TO_COMPARE
                COLUMNS_TO_COMPARE_SUM COLUMNS_TO_COMPARE_CATEGORICAL)))
   = 2)%nat.
Proof.
  apply (missing_in_mls_and_matched_add_up decimal_pandas NUMERIC_TOLERANCE
           SKIP_ZERO_VALUES town_mls town_cama "Parcel Number" "PARID"
           COLUMNS_TO_COMPARE COLUMNS_TO_COMPARE_SUM COLUMNS_TO_COMPARE_CATEGORICAL
           _ eq_refl); reflexivity.
Defined.
